(** * ArcPyWrapper: name resolution, temporary-resource lifecycle,
      overview retry loop and elapsed-time report

    A shallow embedding of the parts of [src/ArcPyWrapper.py] that carry
    logic of their own, followed by the theorems that settle what the
    specification says about them.

    The geoprocessing toolkit ([arcpy]) is an external collaborator: it is
    an interface ([arcpy.Backend]) over an abstract world [W]; every call
    into it is recorded in a trace, so that "requests a deletion" or "emits
    a message" are statements about the trace.  [os.path] is the POSIX
    flavour (separator [/]), the one the specification's own scenario
    ([gdb/path] joined with [MyTable] gives [gdb/path/MyTable]) fixes.
    Elapsed times are Python numbers ([pynum]): ints, or floats with the
    rounding of IEEE 754 doubles, since the timer divides in floating
    point. *)

From Stdlib Require Import ZArith String Ascii List Bool Lia DecimalString.
From stdpp Require Import base option gmap strings.

Set Warnings "-register-all".

Open Scope string_scope.
Open Scope Z_scope.

(* ===================================================================== *)
(** ** Python values, exceptions and the effect monad                     *)
(* ===================================================================== *)

Module py.

(** The exceptions the modelled code can raise. *)
Inductive exn :=
| TypeError (msg : string)
| NameError (name : string)
| AttributeError (name : string)
| ExecuteError.

(** What a call leaves behind, in program order: calls into the toolkit,
    the toolkit's message queue, the log and standard output. *)
Inductive event :=
| Call (tool : string) (args : list string)
| AddError (msg : string)
| AddWarning (msg : string)
| AddMessage (msg : string)
| LogInfo (msg : string)
| Print (msg : string)
| PrintGetMessages.

Inductive outcome (A : Type) :=
| Returns (a : A)
| Raises (e : exn).
Arguments Returns {A} a.
Arguments Raises {A} e.

(** A computation over the world [W]: result or exception, the world
    afterwards, and the trace it produced. *)
Definition Py (W A : Type) : Type := W -> outcome A * W * list event.

Definition ret {W A} (a : A) : Py W A := fun w => (Returns a, w, []).

Definition bind {W A B} (m : Py W A) (k : A -> Py W B) : Py W B :=
  fun w =>
    match m w with
    | (Returns a, w1, t1) =>
        match k a w1 with
        | (r, w2, t2) => (r, w2, (t1 ++ t2)%list)
        end
    | (Raises e, w1, t1) => (Raises e, w1, t1)
    end.

Definition raise {W A} (e : exn) : Py W A := fun w => (Raises e, w, []).

Definition emit {W} (ev : event) : Py W unit := fun w => (Returns tt, w, [ev]).

(** [str(n)] for an integer, as [str.format] prints it. *)
Definition str (n : Z) : string := NilZero.string_of_int (Z.to_int n).

(** Values as far as the overview count needs them: a method that falls
    off its end returns [None]. *)
Inductive value :=
| VNone
| VInt (n : Z).

(** [a > b]: defined between integers, a [TypeError] when [None] is
    involved. *)
Definition gt {W} (a b : value) : Py W bool :=
  match a, b with
  | VInt x, VInt y => ret (y <? x)
  | VNone, VInt _ =>
      raise (TypeError "'>' not supported between instances of 'NoneType' and 'int'")
  | VInt _, VNone =>
      raise (TypeError "'>' not supported between instances of 'int' and 'NoneType'")
  | VNone, VNone =>
      raise (TypeError "'>' not supported between instances of 'NoneType' and 'NoneType'")
  end.

End py.

Import py.

Notation "'do' x <- m ; k" := (py.bind m (fun x => k))
  (at level 10, x name, m at level 100, k at level 200).
Notation "'exec' m ; k" := (py.bind m (fun _ => k))
  (at level 10, m at level 100, k at level 200).

(* ===================================================================== *)
(** ** [os.path] (posixpath)                                              *)
(* ===================================================================== *)

Module os.
Module path.

Definition sep : ascii := "/"%char.

(** [s.rfind(c)]: highest index of [c] in [s], or [-1]. *)
Fixpoint rfind (c : ascii) (s : string) : Z :=
  match s with
  | EmptyString => -1
  | String a r =>
      let i := rfind c r in
      if 0 <=? i then i + 1
      else if Ascii.eqb a c then 0 else -1
  end.

(** [s[:i]] and [s[i:]] for [0 <= i]. *)
Definition slice_to (i : Z) (s : string) : string :=
  substring 0 (Z.to_nat i) s.
Definition slice_from (i : Z) (s : string) : string :=
  substring (Z.to_nat i) (String.length s - Z.to_nat i) s.

(** [s.rstrip(c)]. *)
Fixpoint rstrip (c : ascii) (s : string) : string :=
  match s with
  | EmptyString => EmptyString
  | String a r =>
      match rstrip c r with
      | EmptyString => if Ascii.eqb a c then EmptyString else String a EmptyString
      | r' => String a r'
      end
  end.

(** [s == c * len(s)]. *)
Fixpoint all_of (c : ascii) (s : string) : bool :=
  match s with
  | EmptyString => true
  | String a r => Ascii.eqb a c && all_of c r
  end.

Definition startswith (c : ascii) (s : string) : bool :=
  match s with
  | String a _ => Ascii.eqb a c
  | EmptyString => false
  end.

Fixpoint endswith (c : ascii) (s : string) : bool :=
  match s with
  | EmptyString => false
  | String a EmptyString => Ascii.eqb a c
  | String _ r => endswith c r
  end.

Definition basename (p : string) : string :=
  let i := rfind sep p + 1 in
  slice_from i p.

Definition dirname (p : string) : string :=
  let i := rfind sep p + 1 in
  let head := slice_to i p in
  if negb (String.eqb head "") && negb (all_of sep head)
  then rstrip sep head
  else head.

(** [os.path.join(a, b)] with one component [b]. *)
Definition join (a b : string) : string :=
  if startswith sep b then b
  else if String.eqb a "" || endswith sep a then a +:+ b
  else a +:+ String sep b.

End path.
End os.

(* ===================================================================== *)
(** ** The toolkit                                                         *)
(* ===================================================================== *)

Module arcpy.

(** What the wrapper needs from the toolkit, over an abstract world. *)
Class Backend (W : Type) := {
  catalog_exists : string -> W -> bool;
  catalog_delete : string -> W -> W;
  unique_name : string -> string -> W -> string;
  scratchGDB : W -> string;
  scratchFolder : W -> string;
  make_mosaic_layer : string -> string -> W -> W;
  make_feature_layer : string -> string -> string -> W -> W;
  select_layer : string -> string -> string -> W -> W;
  get_count : string -> W -> Z;
  build_overviews_tool : string -> W -> W;
  export_paths_tool : string -> string -> string -> string -> string -> W -> W;
  delete_identical_tool : string -> string -> W -> W;
  search_cursor_rows : string -> string -> W -> list string
}.

Section Tools.
Context {W : Type} `{Backend W}.

Definition Exists (p : string) : Py W bool :=
  fun w => (Returns (catalog_exists p w), w, [Call "Exists" [p]]).

Definition Delete_management (p : string) : Py W unit :=
  fun w => (Returns tt, catalog_delete p w, [Call "Delete_management" [p]]).

Definition CreateUniqueName (base_name workspace : string) : Py W string :=
  fun w => (Returns (unique_name base_name workspace w), w,
            [Call "CreateUniqueName" [base_name; workspace]]).

Definition env_scratchGDB : Py W string :=
  fun w => (Returns (scratchGDB w), w, []).

Definition env_scratchFolder : Py W string :=
  fun w => (Returns (scratchFolder w), w, []).

Definition MakeMosaicLayer_management (mosaic layer : string) : Py W unit :=
  fun w => (Returns tt, make_mosaic_layer mosaic layer w,
            [Call "MakeMosaicLayer_management" [mosaic; layer]]).

Definition MakeFeatureLayer_management (in_features layer where_clause : string)
  : Py W unit :=
  fun w => (Returns tt, make_feature_layer in_features layer where_clause w,
            [Call "MakeFeatureLayer_management"
               [in_features; layer; where_clause; ""; ""]]).

Definition SelectLayerByAttribute_management
    (layer selection_type where_clause : string) : Py W unit :=
  fun w => (Returns tt, select_layer layer selection_type where_clause w,
            [Call "SelectLayerByAttribute_management"
               [layer; selection_type; where_clause]]).

Definition GetCount_management (layer : string) : Py W Z :=
  fun w => (Returns (get_count layer w), w, [Call "GetCount_management" [layer]]).

Definition BuildOverviews_management (mosaic : string) (args : list string)
  : Py W unit :=
  fun w => (Returns tt, build_overviews_tool mosaic w,
            [Call "BuildOverviews_management" (mosaic :: args)]).

Definition ExportMosaicDatasetPaths_management
    (mosaic out_table where_clause export_mode types_of_paths : string)
  : Py W unit :=
  fun w => (Returns tt,
            export_paths_tool mosaic out_table where_clause export_mode
              types_of_paths w,
            [Call "ExportMosaicDatasetPaths_management"
               [mosaic; out_table; where_clause; export_mode; types_of_paths]]).

Definition DeleteIdentical_management (table fields : string) : Py W unit :=
  fun w => (Returns tt, delete_identical_tool table fields w,
            [Call "DeleteIdentical_management" [table; fields]]).

Definition da_SearchCursor (table field : string) : Py W (list string) :=
  fun w => (Returns (search_cursor_rows table field w), w,
            [Call "da.SearchCursor" [table; field]]).

End Tools.

End arcpy.

(* ===================================================================== *)
(** ** Module-level code                                                   *)
(* ===================================================================== *)

(** Global defaults. *)
Definition log : bool := false.
Definition std_out : bool := true.

Definition output_msg {W} (msg : string) : Py W unit :=
  exec (if log then emit (LogInfo msg) else ret tt);
  if std_out then (exec emit (AddMessage msg); emit PrintGetMessages) else ret tt.

Definition decode_names (geodatabase_name : string) (table_name : option string)
  : string * string * string :=
  let '(local_geodatabase_name, local_table_name) :=
    match table_name with
    | None => (os.path.dirname geodatabase_name, os.path.basename geodatabase_name)
    | Some t => (geodatabase_name, t)
    end in
  let local_full_name :=
    if String.eqb local_geodatabase_name "" then local_table_name
    else os.path.join local_geodatabase_name local_table_name in
  (local_geodatabase_name, local_table_name, local_full_name).

(** ["".join([replacechars.get(ch, ch) for ch in table_name])] *)
Definition parse_table_name (table_name : string)
    (replacechars : option (gmap ascii string)) : string :=
  match replacechars with
  | None => table_name
  | Some d =>
      String.concat ""
        (map (fun ch => default (String ch "") (d !! ch))
             (list_ascii_of_string table_name))
  end.

(** Truth value of an optional string: [None] and [""] are false. *)
Definition truthy (s : option string) : bool :=
  match s with
  | None => false
  | Some t => negb (String.eqb t "")
  end.

Definition initialize_names {W} `{arcpy.Backend W}
    (geodatabase_name : string) (table_name : option string) (temptable : bool)
    (scratch : option string) (replacechars : option (gmap ascii string))
  : Py W (string * string * string) :=
  if temptable then
    let '(local_geodatabase_name, local_table_name, _) :=
      decode_names geodatabase_name table_name in
    do local_geodatabase_name <-
      (if String.eqb local_geodatabase_name "" then
         match scratch with
         | None => arcpy.env_scratchGDB
         | Some s => ret s
         end
       else ret local_geodatabase_name);
    let local_table_name := parse_table_name local_table_name replacechars in
    do unique <- arcpy.CreateUniqueName local_table_name local_geodatabase_name;
    ret (decode_names unique None)
  else
    let local_table_name :=
      if truthy table_name
      then option_map (fun t => parse_table_name t replacechars) table_name
      else None in
    ret (decode_names geodatabase_name local_table_name).

(** [with ctx as x: body]: the exit handler runs however the body ends;
    it returns [None], so an exception of the body is re-raised. *)
Definition with_ {W A B} (ctx : Py W A) (exit_ : A -> Py W unit)
    (body : A -> Py W B) : Py W B :=
  do x <- ctx;
  fun w =>
    match body x w with
    | (r, w1, t1) =>
        match exit_ x w1 with
        | (Returns _, w2, t2) => (r, w2, (t1 ++ t2)%list)
        | (Raises e, w2, t2) => (Raises e, w2, (t1 ++ t2)%list)
        end
    end.

(* ===================================================================== *)
(** ** Numbers                                                             *)
(* ===================================================================== *)

(** Python numbers as far as the timer needs them: an [int], or a finite
    [float], an IEEE 754 double [m * 2^e] (infinities and NaN, which no
    difference of two clock readings is, are left out).  The quotient of
    two ints and every float result are the exact value rounded to the
    nearest double, ties to even; [fmod] is exact. *)
Module pynum.

Inductive t :=
| Int (n : Z)
| Float (m e : Z).

(** The doubles: 53 bits of mantissa, exponents from the subnormals' up. *)
Definition is_double (m e : Z) : bool :=
  (Z.abs m <? 2 ^ 53) && (-1074 <=? e) && (e <=? 971).

Definition valid (x : t) : bool :=
  match x with
  | Int _ => true
  | Float m e => is_double m e
  end.

(** [floor(log2(n/d))] for positive [n] and [d]. *)
Definition ilog2 (n d : Z) : Z :=
  let k := Z.log2 n - Z.log2 d in
  if d * 2 ^ Z.max k 0 <=? n * 2 ^ Z.max (- k) 0 then k else k - 1.

(** The double nearest to [n/d], for positive [n] and [d], as mantissa
    and exponent. *)
Definition round_pos (n d : Z) : Z * Z :=
  let e := Z.max (ilog2 n d - 52) (-1074) in
  let num := n * 2 ^ Z.max (- e) 0 in
  let den := d * 2 ^ Z.max e 0 in
  let m0 := num / den in
  let r := num mod den in
  let m := if (den <? 2 * r) || ((den =? 2 * r) && Z.odd m0)
           then m0 + 1 else m0 in
  (m, e).

(** The double nearest to [n/d], for positive [d]. *)
Definition round (n d : Z) : Z * Z :=
  if n =? 0 then (0, 0)
  else if n <? 0 then (- fst (round_pos (- n) d), snd (round_pos (- n) d))
  else round_pos n d.

(** [m * 2^e] as a fraction with a positive denominator. *)
Definition fraction (m e : Z) : Z * Z :=
  (m * 2 ^ Z.max e 0, 2 ^ Z.max (- e) 0).

(** Below the overflow threshold of a double. *)
Definition finite (m e : Z) : bool :=
  Z.abs (fst (fraction m e)) <? 2 ^ 1024 * snd (fraction m e).

(** [x % k] for a positive int [k]: the floor remainder of ints; for a
    float, [fmod], moved up by [k] (a float addition, rounded) when it is
    negative. *)
Definition mod_ (x : t) (k : Z) : t :=
  match x with
  | Int n => Int (n mod k)
  | Float m e =>
      let n := fst (fraction m e) in
      let d := snd (fraction m e) in
      let r := Z.rem n (d * k) in
      if r =? 0 then Float 0 0
      else if r <? 0
           then Float (fst (round (r + k * d) d)) (snd (round (r + k * d) d))
           else Float (fst (round r d)) (snd (round r d))
  end.

(** [x / k] for a positive int [k]; [None] stands for the
    [OverflowError] of an int quotient too large for a float. *)
Definition truediv (x : t) (k : Z) : option t :=
  match x with
  | Int n =>
      if finite (fst (round n k)) (snd (round n k))
      then Some (Float (fst (round n k)) (snd (round n k)))
      else None
  | Float m e =>
      let n := fst (fraction m e) in
      let d := snd (fraction m e) in
      Some (Float (fst (round n (d * k))) (snd (round n (d * k))))
  end.

(** [x < k] for an int [k]. *)
Definition ltb (x : t) (k : Z) : bool :=
  match x with
  | Int n => n <? k
  | Float m e => fst (fraction m e) <? k * snd (fraction m e)
  end.

(** [int(x)]: truncation towards zero. *)
Definition int (x : t) : Z :=
  match x with
  | Int n => n
  | Float m e => Z.quot (fst (fraction m e)) (snd (fraction m e))
  end.

End pynum.

(* ===================================================================== *)
(** ** [class Timer]                                                       *)
(* ===================================================================== *)

Module Timer.

Inductive result :=
| Text (s : string)
| OverflowError.

(** [Timer.report_elapsed_time(elapsed_time)].  [elapsed_time] is an int
    (the docstring) or a float (the difference of two clock readings that
    [Timer.__exit__] passes); [%], [/] and [int()] are Python's.  The
    minutes are worked out before the test against 3600, as in the
    source. *)
Definition report_elapsed_time (elapsed_time : pynum.t) : result :=
  let seconds_time := pynum.int (pynum.mod_ elapsed_time 60) in
  let seconds_string :=
    if seconds_time =? 1 then "1 second" else str seconds_time +:+ " seconds" in
  if pynum.ltb elapsed_time 60 then Text seconds_string
  else
    match pynum.truediv (pynum.mod_ elapsed_time 3600) 60 with
    | None => OverflowError
    | Some minutes =>
        let minutes_time := pynum.int minutes in
        let minutes_string :=
          if minutes_time =? 1 then "1 minute"
          else str minutes_time +:+ " minutes" in
        if pynum.ltb elapsed_time 3600
        then Text (minutes_string +:+ " " +:+ seconds_string)
        else
          match pynum.truediv elapsed_time 3600 with
          | None => OverflowError
          | Some hours =>
              let hours_time := pynum.int hours in
              let hours_string :=
                if hours_time =? 1 then "1 hour"
                else str hours_time +:+ " hours" in
              Text (hours_string +:+ " " +:+ minutes_string +:+ " "
                    +:+ seconds_string)
          end
    end.

End Timer.

(* ===================================================================== *)
(** ** Names in a function body                                            *)
(* ===================================================================== *)

(** A function body looks a name up among its parameters, then among the
    module's globals, then among the builtins; a name found nowhere raises
    [NameError] when the expression that mentions it is evaluated.  This is
    what [Table.update_cursor] and [Table.search_cursor] need: both consist
    of one call expression. *)
Module pyscope.

Inductive obj :=
| ONone
| OBool (b : bool)
| OStr (s : string)
| OTuple (xs : list obj)
| ODict (kv : list (string * obj))
| OForeign (qualname : string)
| OInstance (attrs : list (string * obj)).

Inductive expr :=
| Name (id : string)
| Attribute (e : expr) (attr : string)
| CallExpr (func : expr) (args : list expr) (kwargs : option expr).

(** Every name bound at the top level of the module, in source order. *)
Definition module_globals : list string :=
  [ "arcpy"; "os"; "logging"; "datetime"; "time"; "pd"; "subprocess";
    "tempfile"; "log"; "std_out"; "WMAS_ProjCS"; "timer"; "output_msg";
    "set_logging"; "decode_names"; "parse_table_name"; "initialize_names";
    "Timer"; "Table"; "TempTable"; "FeatureClass"; "TempFeatureClass";
    "Raster"; "TempRaster"; "FeatureLayer"; "MosaicLayer"; "MosaicDataset";
    "TempMosaicDataset"; "Progressor" ].

(** The builtins the module mentions. *)
Definition builtins : list string :=
  [ "None"; "True"; "False"; "int"; "str"; "print"; "super"; "object";
    "len"; "range"; "list"; "dict"; "Exception" ].

Definition bound (id : string) (names : list string) : bool :=
  existsb (String.eqb id) names.

Fixpoint lookup (id : string) (env : list (string * obj)) : option obj :=
  match env with
  | nil => None
  | (k, v) :: rest => if String.eqb id k then Some v else lookup id rest
  end.

Definition show (v : obj) : string :=
  match v with
  | ONone => "None"
  | OBool true => "True"
  | OBool false => "False"
  | OStr s => s
  | OTuple _ => "(...)"
  | ODict _ => "{...}"
  | OForeign q => q
  | OInstance _ => "<instance>"
  end.

Section Eval.
Context {W : Type}.

Definition load_name (locals : list (string * obj)) (id : string) : Py W obj :=
  match lookup id locals with
  | Some v => ret v
  | None =>
      if bound id module_globals || bound id builtins
      then ret (OForeign id)
      else raise (NameError id)
  end.

Definition getattr (v : obj) (attr : string) : Py W obj :=
  match v with
  | OInstance attrs =>
      match lookup attr attrs with
      | Some a => ret a
      | None => raise (AttributeError attr)
      end
  | OForeign q => ret (OForeign (q +:+ "." +:+ attr))
  | _ => raise (AttributeError attr)
  end.

(** Calling into an imported package is a toolkit call. *)
Definition call (f : obj) (args : list obj) (kwargs : list (string * obj))
  : Py W obj :=
  match f with
  | OForeign q =>
      exec emit (Call q (map show args ++ map fst kwargs)%list);
      ret (OForeign (q +:+ "(...)"))
  | _ => raise (TypeError "object is not callable")
  end.

(** The callee first, then the positional arguments from left to right,
    then the [**] mapping. *)
Fixpoint eval (locals : list (string * obj)) (e : expr) : Py W obj :=
  match e with
  | Name id => load_name locals id
  | Attribute e' attr => do v <- eval locals e'; getattr v attr
  | CallExpr func args kwargs =>
      do f <- eval locals func;
      do vs <-
        (fix eval_args (es : list expr) : Py W (list obj) :=
           match es with
           | nil => ret nil
           | e1 :: rest =>
               do v <- eval locals e1;
               do vs <- eval_args rest;
               ret (v :: vs)
           end) args;
      do kw <-
        match kwargs with
        | None => ret nil
        | Some k =>
            do d <- eval locals k;
            match d with
            | ODict kv => ret kv
            | _ => raise (TypeError "argument after ** must be a mapping")
            end
        end;
      call f vs kw
  end.
End Eval.

End pyscope.

(* ===================================================================== *)
(** ** [class Table] and its subclasses                                    *)
(* ===================================================================== *)

Module Table.

Record t := {
  geodatabase_name : string;
  table_name : string;
  full_name : string;
  temp_table : bool
}.

Definition replace_list : gmap ascii string :=
  <[" "%char := "_"]> (<["."%char := ""]> ∅).

Section Methods.
Context {W : Type} `{arcpy.Backend W}.

Definition exists_ (self : t) : Py W bool :=
  arcpy.Exists (full_name self).

Definition delete (self : t) : Py W bool :=
  do present <- exists_ self;
  if present then
    exec arcpy.Delete_management (full_name self);
    do still <- exists_ self;
    if still then
      exec emit (AddError (full_name self +:+ " cannot be deleted"));
      ret false
    else
      exec output_msg ("Deleted: [" +:+ full_name self +:+ "] ");
      ret true
  else ret true.

Definition __init__ (geodatabase_name : string) (table_name : option string)
    (temp_table : bool) : Py W t :=
  do scratch <- arcpy.env_scratchGDB;
  do names <- initialize_names geodatabase_name table_name temp_table
                (Some scratch) (Some replace_list);
  let '(g, n, f) := names in
  let self := {| geodatabase_name := g; table_name := n; full_name := f;
                 temp_table := temp_table |} in
  if temp_table then
    do ok <- delete self;
    if ok then ret self else raise ExecuteError
  else ret self.

Definition __enter__ (self : t) : Py W t := ret self.

(** The three exception arguments of [__exit__] are not used. *)
Definition __exit__ (self : t) : Py W unit :=
  if temp_table self then (exec delete self; ret tt) else ret tt.

Definition __del__ (self : t) : Py W unit :=
  if temp_table self then (exec delete self; ret tt) else ret tt.

Definition delete_identical (self : t) (fields : string) : Py W unit :=
  exec arcpy.DeleteIdentical_management (full_name self) fields;
  output_msg ("Deleted identical records in " +:+ full_name self).

Definition as_object (self : t) : pyscope.obj :=
  pyscope.OInstance
    [ ("geodatabase_name", pyscope.OStr (geodatabase_name self));
      ("table_name", pyscope.OStr (table_name self));
      ("full_name", pyscope.OStr (full_name self));
      ("temp_table", pyscope.OBool (temp_table self)) ].

(** [return arcpy.da.SearchCursor(self.full_name, field_names, ...)] *)
Definition search_cursor_body : pyscope.expr :=
  pyscope.CallExpr
    (pyscope.Attribute (pyscope.Attribute (pyscope.Name "arcpy") "da")
       "SearchCursor")
    [ pyscope.Attribute (pyscope.Name "self") "full_name";
      pyscope.Name "field_names"; pyscope.Name "where_clause";
      pyscope.Name "spatial_reference"; pyscope.Name "explode_to_points";
      pyscope.Name "sql_clause" ]
    (Some (pyscope.Name "kwargs")).

Definition search_cursor (self : t)
    (field_names where_clause spatial_reference explode_to_points
       sql_clause : pyscope.obj)
    (kwargs : list (string * pyscope.obj)) : Py W pyscope.obj :=
  pyscope.eval
    [ ("self", as_object self); ("field_names", field_names);
      ("where_clause", where_clause);
      ("spatial_reference", spatial_reference);
      ("explode_to_points", explode_to_points);
      ("sql_clause", sql_clause); ("kwargs", pyscope.ODict kwargs) ]
    search_cursor_body.

(** [return arcpy.da.UpdateCursor(self.full_name, field_names, ...)],
    in a function whose second parameter is [ufields]. *)
Definition update_cursor_body : pyscope.expr :=
  pyscope.CallExpr
    (pyscope.Attribute (pyscope.Attribute (pyscope.Name "arcpy") "da")
       "UpdateCursor")
    [ pyscope.Attribute (pyscope.Name "self") "full_name";
      pyscope.Name "field_names"; pyscope.Name "where_clause";
      pyscope.Name "spatial_reference"; pyscope.Name "explode_to_points";
      pyscope.Name "sql_clause" ]
    (Some (pyscope.Name "kwargs")).

Definition update_cursor (self : t)
    (ufields where_clause spatial_reference explode_to_points
       sql_clause : pyscope.obj)
    (kwargs : list (string * pyscope.obj)) : Py W pyscope.obj :=
  pyscope.eval
    [ ("self", as_object self); ("ufields", ufields);
      ("where_clause", where_clause);
      ("spatial_reference", spatial_reference);
      ("explode_to_points", explode_to_points);
      ("sql_clause", sql_clause); ("kwargs", pyscope.ODict kwargs) ]
    update_cursor_body.

End Methods.

End Table.

Module TempTable.
Section Methods.
Context {W : Type} `{arcpy.Backend W}.

Definition __init__ (table_name : option string) : Py W Table.t :=
  Table.__init__ (default "TempTable" table_name) None true.
Definition __enter__ (self : Table.t) : Py W Table.t := ret self.
Definition __exit__ (self : Table.t) : Py W unit := Table.__exit__ self.
Definition __del__ (self : Table.t) : Py W unit := Table.__del__ self.
End Methods.
End TempTable.

Module FeatureClass.
Section Methods.
Context {W : Type} `{arcpy.Backend W}.

Definition __init__ (geodatabase_name : string) (table_name : option string)
    (temp_table : bool) : Py W Table.t :=
  Table.__init__ geodatabase_name table_name temp_table.

(** Inherited from [Table]. *)
Definition delete (self : Table.t) : Py W bool := Table.delete self.

Definition __enter__ (self : Table.t) : Py W Table.t := ret self.

Definition __exit__ (self : Table.t) : Py W unit :=
  if Table.temp_table self then (exec delete self; ret tt) else ret tt.

Definition __del__ (self : Table.t) : Py W unit :=
  if Table.temp_table self then (exec delete self; ret tt) else ret tt.
End Methods.
End FeatureClass.

Module TempFeatureClass.
Section Methods.
Context {W : Type} `{arcpy.Backend W}.

Definition __init__ (table_name : option string) : Py W Table.t :=
  FeatureClass.__init__ (default "TempFeatureClass" table_name) None true.
Definition __enter__ (self : Table.t) : Py W Table.t := ret self.
Definition __exit__ (self : Table.t) : Py W unit := FeatureClass.__exit__ self.
Definition __del__ (self : Table.t) : Py W unit := FeatureClass.__del__ self.
End Methods.
End TempFeatureClass.

(* ===================================================================== *)
(** ** [class Raster]                                                      *)
(* ===================================================================== *)

Module Raster.

Record t := {
  geodatabase_name : string;
  raster_name : string;
  full_name : string;
  temp_raster : bool
}.

Section Methods.
Context {W : Type} `{arcpy.Backend W}.

Definition exists_ (self : t) : Py W bool :=
  arcpy.Exists (full_name self).

Definition delete (self : t) : Py W bool :=
  do present <- exists_ self;
  if present then
    exec arcpy.Delete_management (full_name self);
    do still <- exists_ self;
    if still then
      exec emit (AddError ("Raster " +:+ full_name self +:+ " cannot be deleted"));
      ret false
    else
      exec output_msg ("Deleted: [" +:+ full_name self +:+ "] ");
      ret true
  else ret true.

Definition __init__ (geodatabase_name : string) (raster_name : option string)
    (temp_raster : bool) : Py W t :=
  do scratch <- arcpy.env_scratchFolder;
  do names <- initialize_names geodatabase_name raster_name temp_raster
                (Some scratch) None;
  let '(g, n, f) := names in
  let self := {| geodatabase_name := g; raster_name := n; full_name := f;
                 temp_raster := temp_raster |} in
  if temp_raster then (exec delete self; ret self) else ret self.

Definition __enter__ (self : t) : Py W t := ret self.

Definition __exit__ (self : t) : Py W unit :=
  if temp_raster self then (exec delete self; ret tt) else ret tt.

Definition __del__ (self : t) : Py W unit :=
  if temp_raster self then (exec delete self; ret tt) else ret tt.

End Methods.

End Raster.

Module TempRaster.
Section Methods.
Context {W : Type} `{arcpy.Backend W}.

Definition __init__ (raster_name : option string) : Py W Raster.t :=
  Raster.__init__ (default "TempRaster" raster_name) None true.
Definition __enter__ (self : Raster.t) : Py W Raster.t := ret self.
Definition __exit__ (self : Raster.t) : Py W unit := Raster.__exit__ self.
Definition __del__ (self : Raster.t) : Py W unit := Raster.__del__ self.
End Methods.
End TempRaster.

(* ===================================================================== *)
(** ** Layers                                                              *)
(* ===================================================================== *)

Module FeatureLayer.

Record t := {
  base : Table.t;
  layer_name : string
}.

Section Methods.
Context {W : Type} `{arcpy.Backend W}.

Definition __init__ (layer_name in_features where_clause : string) : Py W t :=
  do b <- FeatureClass.__init__ layer_name None false;
  let self := {| base := b; layer_name := layer_name |} in
  if String.eqb in_features "" then
    do present <- Table.exists_ b;
    if negb present then
      exec emit (AddError ("Layer " +:+ layer_name +:+ " does not exist"));
      raise ExecuteError
    else ret self
  else
    exec arcpy.MakeFeatureLayer_management in_features layer_name where_clause;
    ret self.

Definition __del__ (self : t) : Py W unit := FeatureClass.__del__ (base self).

Definition get_count (self : t) : Py W Z :=
  arcpy.GetCount_management (layer_name self).

(** [Table.select_by_attribute], with [get_count] dispatched to the
    layer's own. *)
Definition select_by_attribute (self : t) (selection_type where_clause : string)
  : Py W Z :=
  exec arcpy.SelectLayerByAttribute_management (Table.full_name (base self))
         selection_type where_clause;
  exec output_msg ("SelectLayerByAttribute called on "
                   +:+ Table.full_name (base self));
  get_count self.

End Methods.

End FeatureLayer.

Module MosaicLayer.

Record t := {
  layer_name : string;
  feature_layer : FeatureLayer.t
}.

Section Methods.
Context {W : Type} `{arcpy.Backend W}.

Definition __init__ (layer_name mosaic_name : string) : Py W t :=
  exec arcpy.MakeMosaicLayer_management mosaic_name layer_name;
  do fl <- FeatureLayer.__init__ (os.path.join layer_name "Footprint") "" "";
  ret {| layer_name := layer_name; feature_layer := fl |}.

Definition select_by_attribute (self : t) (selection_type where_clause : string)
  : Py W Z :=
  FeatureLayer.select_by_attribute (feature_layer self) selection_type
    where_clause.

End Methods.

End MosaicLayer.

(* ===================================================================== *)
(** ** [class MosaicDataset]                                               *)
(* ===================================================================== *)

Module MosaicDataset.

Record t := {
  temp_mosaic : bool;
  mosaic_layer : option MosaicLayer.t;
  geodatabase_name : string;
  mosaic_name : string;
  full_name : string
}.

Definition set_mosaic_layer (self : t) (ml : MosaicLayer.t) : t :=
  {| temp_mosaic := temp_mosaic self; mosaic_layer := Some ml;
     geodatabase_name := geodatabase_name self;
     mosaic_name := mosaic_name self; full_name := full_name self |}.

(** A class body binds its [def]s in order; a later binding of a name
    replaces an earlier one. *)
Fixpoint resolve {M : Type} (name : string) (body : list (string * M))
  : option M :=
  match body with
  | nil => None
  | (k, m) :: rest =>
      match resolve name rest with
      | Some later => Some later
      | None => if String.eqb name k then Some m else None
      end
  end.

Section Methods.
Context {W : Type} `{arcpy.Backend W}.

Definition exists_ (self : t) : Py W bool :=
  arcpy.Exists (full_name self).

Definition delete (self : t) : Py W bool :=
  do present <- exists_ self;
  if present then
    exec arcpy.Delete_management (full_name self);
    do still <- exists_ self;
    if still then
      exec emit (AddError ("Mosaic " +:+ full_name self +:+ " cannot be deleted"));
      ret false
    else
      exec output_msg ("Deleted mosaic dataset: [" +:+ full_name self +:+ "] ");
      ret true
  else ret true.

Definition __init__ (geodatabase_name : string) (mosaic_name : option string)
    (temp_mosaic : bool) : Py W t :=
  do scratch <- arcpy.env_scratchGDB;
  do names <- initialize_names geodatabase_name mosaic_name temp_mosaic
                (Some scratch) None;
  let '(g, n, f) := names in
  let self := {| temp_mosaic := temp_mosaic; mosaic_layer := None;
                 geodatabase_name := g; mosaic_name := n; full_name := f |} in
  if temp_mosaic then
    do ok <- delete self;
    if ok then ret self else raise ExecuteError
  else ret self.

Definition __enter__ (self : t) : Py W t := ret self.

Definition __exit__ (self : t) : Py W unit :=
  if temp_mosaic self then (exec delete self; ret tt) else ret tt.

Definition __del__ (self : t) : Py W unit :=
  if temp_mosaic self then (exec delete self; ret tt) else ret tt.

(** [self.mosaic_layer] is assigned here: the handle is returned. *)
Definition create_layer (self : t) : Py W t :=
  match mosaic_layer self with
  | None =>
      do ml <- MosaicLayer.__init__ (mosaic_name self +:+ "_Layer")
                 (full_name self);
      ret (set_mosaic_layer self ml)
  | Some _ => ret self
  end.

Definition export_paths (self : t) (out_table : Table.t)
    (where_clause export_mode types_of_paths : string) : Py W unit :=
  exec arcpy.ExportMosaicDatasetPaths_management (full_name self)
         (Table.full_name out_table) where_clause export_mode types_of_paths;
  output_msg ("Exported file paths in mosaic dataset " +:+ full_name self).

Definition count_unbuilt (self : t) : Py W Z :=
  match mosaic_layer self with
  | Some ml => MosaicLayer.select_by_attribute ml "NEW_SELECTION" "Category > 2"
  | None => raise (AttributeError "select_by_attribute")
  end.

(** The first [def build_overviews(self)] of the class body. *)
Definition build_overviews_def1 (self : t) : Py W (t * value) :=
  do self <- create_layer self;
  do build_footprint_count <- count_unbuilt self;
  exec emit (Print ("Building " +:+ str build_footprint_count
                    +:+ " overviews for " +:+ full_name self));
  exec arcpy.BuildOverviews_management (full_name self)
         [""; "NO_DEFINE_MISSING_TILES"; "GENERATE_OVERVIEWS";
          "GENERATE_MISSING_IMAGES"; "REGENERATE_STALE_IMAGES"];
  exec output_msg ("Built overviews on mosaic dataset " +:+ full_name self);
  do build_footprint_count <- count_unbuilt self;
  exec (if 0 <? build_footprint_count then
          emit (AddWarning (str build_footprint_count
                            +:+ " overviews failed to build correctly"))
        else ret tt);
  ret (self, VInt build_footprint_count).

(** The second [def build_overviews(self, **kwargs)], called without
    keyword arguments; it has no [return]. *)
Definition build_overviews_def2 (self : t) : Py W (t * value) :=
  exec arcpy.BuildOverviews_management (full_name self) [];
  exec output_msg ("Built overviews on mosaic dataset " +:+ full_name self);
  ret (self, VNone).

Definition class_body : list (string * (t -> Py W (t * value))) :=
  [ ("build_overviews", build_overviews_def1);
    ("build_overviews", build_overviews_def2) ].

(** [self.build_overviews()] *)
Definition build_overviews (self : t) : Py W (t * value) :=
  match resolve "build_overviews" class_body with
  | Some method => method self
  | None => raise (AttributeError "build_overviews")
  end.

Fixpoint for_bad_overviews (bad_overviews : list string) : Py W unit :=
  match bad_overviews with
  | nil => ret tt
  | bad_overview :: rest =>
      do present <- arcpy.Exists bad_overview;
      exec (if present then
              exec emit (AddWarning ("Deleting " +:+ bad_overview));
              exec arcpy.Delete_management bad_overview;
              output_msg ("Deleted " +:+ bad_overview)
            else
              emit (AddWarning ("Overview " +:+ bad_overview +:+ " not found")));
      for_bad_overviews rest
  end.

Definition delete_bad_overviews (self : t) : Py W unit :=
  with_ (TempFeatureClass.__init__ (Some "BadOverviews"))
    TempFeatureClass.__exit__
    (fun tmp_table =>
       exec export_paths self tmp_table "Category > 2" "ALL" "RASTER";
       exec Table.delete_identical tmp_table "SourceID";
       do bad_overviews <- arcpy.da_SearchCursor (Table.full_name tmp_table) "Path";
       for_bad_overviews bad_overviews).

(** The [while] loop of [build_overviews_robust].  [budget] bounds the
    iterations; [Z.to_nat (max_retries - retry_count)] is enough, since
    [retry_count] grows by one each time round. *)
Fixpoint retry_loop (budget : nat) (build : t -> Py W (t * value))
    (max_retries : Z) (self : t) (unbuilt_overview_count : value)
    (retry_count : Z) : Py W (t * value) :=
  do positive <- gt unbuilt_overview_count (VInt 0);
  if positive && (retry_count <? max_retries) then
    match budget with
    | O => ret (self, unbuilt_overview_count)
    | S budget' =>
        exec delete_bad_overviews self;
        do r <- build self;
        retry_loop budget' build max_retries (fst r) (snd r) (retry_count + 1)
    end
  else ret (self, unbuilt_overview_count).

(** [build_overviews_robust] over a given [build_overviews] method. *)
Definition build_overviews_robust_with (build : t -> Py W (t * value))
    (self : t) (max_retries : Z) : Py W unit :=
  do r <- build self;
  do r <- retry_loop (Z.to_nat (max_retries - 1)) build max_retries
            (fst r) (snd r) 1;
  do positive <- gt (snd r) (VInt 0);
  if positive then
    exec emit (AddError "Overviews failed to build correctly. Exiting...");
    raise ExecuteError
  else ret tt.

Definition build_overviews_robust (self : t) (max_retries : Z) : Py W unit :=
  build_overviews_robust_with build_overviews self max_retries.

End Methods.

End MosaicDataset.

Module TempMosaicDataset.
Section Methods.
Context {W : Type} `{arcpy.Backend W}.

Definition __init__ (mosaic_name : option string) : Py W MosaicDataset.t :=
  MosaicDataset.__init__ (default "TempMosaic" mosaic_name) None true.
Definition __enter__ (self : MosaicDataset.t) : Py W MosaicDataset.t := ret self.
Definition __exit__ (self : MosaicDataset.t) : Py W unit :=
  MosaicDataset.__exit__ self.
Definition __del__ (self : MosaicDataset.t) : Py W unit :=
  MosaicDataset.__del__ self.
End Methods.
End TempMosaicDataset.

(* ===================================================================== *)
(** ** A concrete workspace                                                *)
(* ===================================================================== *)

(** A small catalog that implements the toolkit interface: a set of
    existing paths, a set of paths it refuses to delete, the scratch
    locations, and the footprint counts that coming overview builds will
    leave behind. *)
Module Workspace.

Record t := {
  present : gset string;
  locked : gset string;
  scratch_gdb : string;
  scratch_folder : string;
  unbuilt : Z;
  after_build : list Z;
  bad_paths : list string
}.

Definition with_present (w : t) (ps : gset string) : t :=
  {| present := ps; locked := locked w; scratch_gdb := scratch_gdb w;
     scratch_folder := scratch_folder w; unbuilt := unbuilt w;
     after_build := after_build w; bad_paths := bad_paths w |}.

Definition remove (p : string) (w : t) : t :=
  if bool_decide (p ∈ locked w) then w
  else with_present w (present w ∖ {[p]}).

Definition built (w : t) : t :=
  match after_build w with
  | nil => w
  | c :: rest =>
      {| present := present w; locked := locked w;
         scratch_gdb := scratch_gdb w; scratch_folder := scratch_folder w;
         unbuilt := c; after_build := rest; bad_paths := bad_paths w |}
  end.

#[global] Instance backend : arcpy.Backend t := {|
  arcpy.catalog_exists p w := bool_decide (p ∈ present w);
  arcpy.catalog_delete := remove;
  arcpy.unique_name base_name workspace _ := os.path.join workspace base_name;
  arcpy.scratchGDB := scratch_gdb;
  arcpy.scratchFolder := scratch_folder;
  arcpy.make_mosaic_layer _ layer w :=
    with_present w (present w ∪ {[layer]} ∪ {[os.path.join layer "Footprint"]});
  arcpy.make_feature_layer _ layer _ w := with_present w (present w ∪ {[layer]});
  arcpy.select_layer _ _ _ w := w;
  arcpy.get_count _ w := unbuilt w;
  arcpy.build_overviews_tool _ := built;
  arcpy.export_paths_tool _ out_table _ _ _ w :=
    with_present w (present w ∪ {[out_table]});
  arcpy.delete_identical_tool _ _ w := w;
  arcpy.search_cursor_rows _ _ w := bad_paths w
|}.

(** An empty catalog with the given scratch locations. *)
Definition empty : t :=
  {| present := ∅; locked := ∅; scratch_gdb := "scratch.gdb";
     scratch_folder := "scratch"; unbuilt := 0; after_build := nil;
     bad_paths := nil |}.

(** A catalog holding one item that cannot be deleted. *)
Definition stuck (p : string) : t :=
  {| present := {[p]}; locked := {[p]}; scratch_gdb := "scratch.gdb";
     scratch_folder := "scratch"; unbuilt := 0; after_build := nil;
     bad_paths := nil |}.

(** A catalog holding one item. *)
Definition holding (p : string) : t := with_present empty {[p]}.

(** A catalog with a mosaic dataset whose coming builds leave the given
    numbers of unbuilt overviews. *)
Definition building (counts : list Z) : t :=
  {| present := {[ "gdb/mosaic" ]}; locked := ∅; scratch_gdb := "scratch.gdb";
     scratch_folder := "scratch"; unbuilt := 7; after_build := counts;
     bad_paths := ["ov/a.tif"; "ov/b.tif"] |}.

Definition mosaic : MosaicDataset.t :=
  {| MosaicDataset.temp_mosaic := false; MosaicDataset.mosaic_layer := None;
     MosaicDataset.geodatabase_name := "gdb";
     MosaicDataset.mosaic_name := "mosaic";
     MosaicDataset.full_name := "gdb/mosaic" |}.

(** How many builds a trace holds. *)
Definition build_calls (tr : list event) : nat :=
  List.length
    (List.filter
       (fun ev => match ev with
                  | Call tool _ => String.eqb tool "BuildOverviews_management"
                  | _ => false
                  end) tr).

Definition delete_requests (tr : list event) : list string :=
  List.flat_map
    (fun ev => match ev with
               | Call tool args =>
                   if String.eqb tool "Delete_management" then args else nil
               | _ => nil
               end) tr.

End Workspace.

(* ===================================================================== *)
(** ** What the specification says, in its own words                       *)
(* ===================================================================== *)

Module Spec.

(** "[full_path]: [container] and [name] joined by the platform path
    separator, or just [name] when [container] is empty." *)
Definition full_path_of (container name : string) : string :=
  if String.eqb container "" then name
  else container +:+ "/" +:+ name.

(** "containing no path-separator characters" *)
Fixpoint no_separator (s : string) : bool :=
  match s with
  | EmptyString => true
  | String a r => negb (Ascii.eqb a os.path.sep) && no_separator r
  end.

(** "Singular 1 second / 1 minute / 1 hour vs plural forms" *)
Definition singular (unit_name : string) : string := "1 " +:+ unit_name.
Definition phrase (value : Z) (unit_name : string) : string :=
  if value =? 1 then singular unit_name
  else str value +:+ " " +:+ unit_name +:+ "s".

(** The three tiers, with [m = floor((t mod 3600)/60)],
    [s = floor(t mod 60)] and [h = floor(t/3600)]. *)
Definition elapsed (t : Z) : string :=
  let s := t mod 60 in
  let m := (t mod 3600) / 60 in
  let h := t / 3600 in
  if t <? 60 then phrase s "second"
  else if t <? 3600 then phrase m "minute" +:+ " " +:+ phrase s "second"
  else phrase h "hour" +:+ " " +:+ phrase m "minute" +:+ " "
       +:+ phrase s "second".

(** "floor": the whole seconds of an elapsed time. *)
Definition floor (x : pynum.t) : Z :=
  match x with
  | pynum.Int n => n
  | pynum.Float m e => fst (pynum.fraction m e) / snd (pynum.fraction m e)
  end.

(** "for t >= 3600 it additionally prefixes hours with h = floor(t/3600)
    ... all values truncate (floor), never round", read at one elapsed
    time of [t] whole seconds. *)
Definition elapsed_reported (t : Z) : Prop :=
  Timer.report_elapsed_time (pynum.Int t) = Timer.Text (elapsed t).

(** "every character in [name] that is a key in the map is replaced by
    its mapped value" *)
Fixpoint sanitize (d : gmap ascii string) (name : string) : string :=
  match name with
  | EmptyString => EmptyString
  | String ch rest =>
      match d !! ch with
      | Some replacement => replacement +:+ sanitize d rest
      | None => String ch (sanitize d rest)
      end
  end.

(** "every character of the resolved name that is a key of the map is
    replaced by its mapped value", read on one resolution. *)
Definition resolved_name_sanitized {W} `{arcpy.Backend W}
    (locator : string) (explicit_name : option string) (temporary : bool)
    (scratch : option string) (d : gmap ascii string) (w : W) : Prop :=
  exists container full_path w' tr,
    initialize_names locator explicit_name temporary scratch (Some d) w
    = (Returns (container,
                sanitize d (snd (fst (decode_names locator explicit_name))),
                full_path), w', tr).

(** What [delete()] is said to do at a path, given the two messages of
    the resource kind. *)
Definition delete_at {W} `{arcpy.Backend W} (p failure success : string) (w : W)
  : outcome bool * W * list event :=
  if arcpy.catalog_exists p w then
    let w1 := arcpy.catalog_delete p w in
    if arcpy.catalog_exists p w1 then
      (Returns false, w1,
       [Call "Exists" [p]; Call "Delete_management" [p]; Call "Exists" [p];
        AddError failure])
    else
      (Returns true, w1,
       [Call "Exists" [p]; Call "Delete_management" [p]; Call "Exists" [p];
        AddMessage success; PrintGetMessages])
  else (Returns true, w, [Call "Exists" [p]]).

(** "calling [delete()] twice in succession returns success both times
    and leaves backing-store state unchanged after the first call" *)
Definition delete_twice_succeeds {W} (delete : W -> outcome bool * W * list event)
    (w : W) : Prop :=
  exists w1 t1 t2,
    delete w = (Returns true, w1, t1) /\ delete w1 = (Returns true, w1, t2).

End Spec.

(** The lifecycle face that the four resource kinds share: the temporary
    flag, the resolved path, [delete()], and the two scope-exit paths. *)
Record Scoped (W H : Type) := {
  is_temporary : H -> bool;
  resolved_path : H -> string;
  do_delete : H -> Py W bool;
  on_exit : H -> Py W unit;
  on_del : H -> Py W unit
}.
Arguments is_temporary {W H} _ _.
Arguments resolved_path {W H} _ _.
Arguments do_delete {W H} _ _.
Arguments on_exit {W H} _ _.
Arguments on_del {W H} _ _.

Section Kinds.
Context {W : Type} `{arcpy.Backend W}.

Definition Table_kind : Scoped W Table.t :=
  {| is_temporary := Table.temp_table; resolved_path := Table.full_name;
     do_delete := Table.delete;
     on_exit := Table.__exit__; on_del := Table.__del__ |}.

Definition TempTable_kind : Scoped W Table.t :=
  {| is_temporary := Table.temp_table; resolved_path := Table.full_name;
     do_delete := Table.delete;
     on_exit := TempTable.__exit__; on_del := TempTable.__del__ |}.

Definition FeatureClass_kind : Scoped W Table.t :=
  {| is_temporary := Table.temp_table; resolved_path := Table.full_name;
     do_delete := FeatureClass.delete;
     on_exit := FeatureClass.__exit__; on_del := FeatureClass.__del__ |}.

Definition TempFeatureClass_kind : Scoped W Table.t :=
  {| is_temporary := Table.temp_table; resolved_path := Table.full_name;
     do_delete := FeatureClass.delete;
     on_exit := TempFeatureClass.__exit__; on_del := TempFeatureClass.__del__ |}.

Definition Raster_kind : Scoped W Raster.t :=
  {| is_temporary := Raster.temp_raster; resolved_path := Raster.full_name;
     do_delete := Raster.delete;
     on_exit := Raster.__exit__; on_del := Raster.__del__ |}.

Definition TempRaster_kind : Scoped W Raster.t :=
  {| is_temporary := Raster.temp_raster; resolved_path := Raster.full_name;
     do_delete := Raster.delete;
     on_exit := TempRaster.__exit__; on_del := TempRaster.__del__ |}.

Definition MosaicDataset_kind : Scoped W MosaicDataset.t :=
  {| is_temporary := MosaicDataset.temp_mosaic;
     resolved_path := MosaicDataset.full_name;
     do_delete := MosaicDataset.delete;
     on_exit := MosaicDataset.__exit__; on_del := MosaicDataset.__del__ |}.

Definition TempMosaicDataset_kind : Scoped W MosaicDataset.t :=
  {| is_temporary := MosaicDataset.temp_mosaic;
     resolved_path := MosaicDataset.full_name;
     do_delete := MosaicDataset.delete;
     on_exit := TempMosaicDataset.__exit__;
     on_del := TempMosaicDataset.__del__ |}.

(** The scope-exit contract of one kind, for both exit paths [leave]:
    a handle that is not temporary leaves the store alone and calls
    nothing; a temporary one does what [delete()] does, its result
    dropped; the store is asked about the path exactly when the handle is
    temporary; the resource is gone afterwards when the store honours the
    deletion; and once it is gone, leaving again only asks whether the
    path exists. *)
Definition scope_exit_contract {H : Type} (k : Scoped W H) : Prop :=
  forall (leave : H -> Py W unit),
    leave = on_exit k \/ leave = on_del k ->
    forall (h : H) (w : W),
      (is_temporary k h = false -> leave h w = (Returns tt, w, []))
      /\ (is_temporary k h = true ->
          exists r, do_delete k h w = (Returns r, snd (fst (leave h w)), snd (leave h w))
                    /\ fst (fst (leave h w)) = Returns tt)
      /\ (In (Call "Exists" [resolved_path k h]) (snd (leave h w))
          <-> is_temporary k h = true)
      /\ (is_temporary k h = true ->
          arcpy.catalog_exists (resolved_path k h)
            (arcpy.catalog_delete (resolved_path k h) w) = false ->
          arcpy.catalog_exists (resolved_path k h) (snd (fst (leave h w))) = false)
      /\ (is_temporary k h = true ->
          arcpy.catalog_exists (resolved_path k h) (snd (fst (leave h w))) = false ->
          forall (again : H -> Py W unit),
            again = on_exit k \/ again = on_del k ->
            again h (snd (fst (leave h w)))
            = (Returns tt, snd (fst (leave h w)),
               [Call "Exists" [resolved_path k h]])).

(** "a temporary resource is deleted (and a second invocation via another
    exit path is a safe no-op)", read at one temporary handle and one
    store: whichever path the scope ends by, the resource is gone
    afterwards, and ending it again by either path only asks whether the
    path exists. *)
Definition temporary_is_deleted {H : Type} (k : Scoped W H) (h : H) (w : W)
  : Prop :=
  forall (leave : H -> Py W unit),
    leave = on_exit k \/ leave = on_del k ->
    arcpy.catalog_exists (resolved_path k h) (snd (fst (leave h w))) = false
    /\ forall (again : H -> Py W unit),
         again = on_exit k \/ again = on_del k ->
         again h (snd (fst (leave h w)))
         = (Returns tt, snd (fst (leave h w)),
            [Call "Exists" [resolved_path k h]]).

End Kinds.

(* ===================================================================== *)
(** ** Further methods                                                     *)
(* ===================================================================== *)

(** [s.replace(old, new)] for a pattern [old] of one character, the only
    kind the module uses. *)
Module pystr.

Fixpoint replace (old : ascii) (new : string) (s : string) : string :=
  match s with
  | EmptyString => EmptyString
  | String a r =>
      if Ascii.eqb a old then new +:+ replace old new r
      else String a (replace old new r)
  end.

(** [ch in s] *)
Fixpoint contains (ch : ascii) (s : string) : bool :=
  match s with
  | EmptyString => false
  | String a r => Ascii.eqb a ch || contains ch r
  end.

End pystr.

(** Methods of [class Table] beside the lifecycle ones. *)
Module TableMethods.

(** [Table.parse_table_name(self, table_name)] *)
Definition parse_table_name (table_name : string) : string :=
  pystr.replace "."%char "" (pystr.replace " "%char "_" table_name).

End TableMethods.

(* ===================================================================== *)
(** ** [class Progressor]                                                  *)
(* ===================================================================== *)

Module Progressor.

Record t := {
  type : string;
  label : option string;
  min_range : Z;
  max_range : Z;
  step_value : Z;
  position : Z;
  initialized : bool
}.

Definition show_label (l : option string) : string :=
  match l with
  | None => "None"
  | Some s => s
  end.

Definition label_eqb (a b : option string) : bool :=
  match a, b with
  | None, None => true
  | Some x, Some y => String.eqb x y
  | _, _ => false
  end.

Definition __init__ (type : string) (label : option string)
    (min_range max_range step_value : Z) : t :=
  {| type := type; label := label; min_range := min_range;
     max_range := max_range; step_value := step_value;
     position := 0; initialized := false |}.

Definition set_initialized (self : t) : t :=
  {| type := type self; label := label self; min_range := min_range self;
     max_range := max_range self; step_value := step_value self;
     position := position self; initialized := true |}.

Definition set_type (self : t) (ty : string) : t :=
  {| type := ty; label := label self; min_range := min_range self;
     max_range := max_range self; step_value := step_value self;
     position := position self; initialized := initialized self |}.

Definition set_bounds (self : t) (lo hi step : Z) : t :=
  {| type := type self; label := label self; min_range := lo;
     max_range := hi; step_value := step;
     position := position self; initialized := initialized self |}.

Definition with_label (self : t) (l : option string) : t :=
  {| type := type self; label := l; min_range := min_range self;
     max_range := max_range self; step_value := step_value self;
     position := position self; initialized := initialized self |}.

Definition with_position (self : t) (p : Z) : t :=
  {| type := type self; label := label self; min_range := min_range self;
     max_range := max_range self; step_value := step_value self;
     position := p; initialized := initialized self |}.

Section Methods.
Context {W : Type}.

(** [arcpy.SetProgressor(self.type, self.label, self.min_range,
    self.max_range, self.step_value)] *)
Definition SetProgressor (self : t) : Py W unit :=
  emit (Call "SetProgressor"
          [type self; show_label (label self); str (min_range self);
           str (max_range self); str (step_value self)]).

Definition initialize (self : t) : Py W t :=
  if negb (initialized self) then
    exec SetProgressor self;
    ret (set_initialized self)
  else ret self.

Definition set_default_type (self : t) : Py W t :=
  let self := set_type self "default" in
  if initialized self then (exec SetProgressor self; ret self) else ret self.

Definition set_range (self : t) (min_range max_range step_value : Z) : Py W t :=
  let self := set_bounds (set_type self "step") min_range max_range step_value in
  if initialized self then (exec SetProgressor self; ret self) else ret self.

Definition set_label (self : t) (l : option string) : Py W t :=
  if negb (label_eqb (label self) l) then
    let self := with_label self l in
    if negb (initialized self) then initialize self
    else
      exec emit (Call "SetProgressorLabel" [show_label (label self)]);
      ret self
  else ret self.

Definition set_position (self : t) (p : Z) : Py W t :=
  if negb (position self =? p) then
    let self := with_position self p in
    do self <- (if negb (initialized self) then initialize self else ret self);
    exec emit (Call "SetProgressorPosition" [str (position self)]);
    ret self
  else ret self.

Definition reset (self : t) : Py W t :=
  if initialized self then (exec emit (Call "ResetProgressor" []); ret self)
  else ret self.

Definition __enter__ (self : t) : Py W t := ret self.
Definition __exit__ (self : t) : Py W t := reset self.
Definition __del__ (self : t) : Py W t := reset self.

End Methods.

(** The calls a client can make on a progressor, and a run of them. *)
Inductive op :=
| Initialize
| SetDefaultType
| SetRange (min_range max_range step_value : Z)
| SetLabel (l : option string)
| SetPosition (p : Z)
| Reset.

Definition step {W : Type} (o : op) (self : t) : Py W t :=
  match o with
  | Initialize => initialize self
  | SetDefaultType => set_default_type self
  | SetRange lo hi st => set_range self lo hi st
  | SetLabel l => set_label self l
  | SetPosition p => set_position self p
  | Reset => reset self
  end.

Fixpoint run {W : Type} (ops : list op) (self : t) : Py W t :=
  match ops with
  | nil => ret self
  | o :: rest => do self <- step o self; run rest self
  end.

(** A trace is in order when no label, position or reset call comes
    before the progressor has been set up by [SetProgressor]. *)
Fixpoint in_order (set_up : bool) (tr : list event) : bool :=
  match tr with
  | nil => true
  | Call tool _ :: rest =>
      if String.eqb tool "SetProgressor" then in_order true rest
      else set_up && in_order set_up rest
  | _ :: rest => in_order set_up rest
  end.

End Progressor.

(** Reading a trace: the argument lists of the calls to one tool, in
    order. *)
Module Trace.

Fixpoint calls_of (tool : string) (tr : list event) : list (list string) :=
  match tr with
  | nil => nil
  | Call t args :: rest =>
      if String.eqb t tool then args :: calls_of tool rest
      else calls_of tool rest
  | _ :: rest => calls_of tool rest
  end.

(** The store after the listed paths were swept: each one is deleted if
    it exists when its turn comes. *)
Fixpoint swept {W : Type} `{arcpy.Backend W} (paths : list string) (w : W) : W :=
  match paths with
  | nil => w
  | p :: rest =>
      swept rest (if arcpy.catalog_exists p w then arcpy.catalog_delete p w else w)
  end.

End Trace.

(** Toolkit tools beyond the catalog calls above: any tool is a store
    transition of its own; [ListFields] reads the field names of a table. *)
Module gp.

Class Tools (W : Type) := {
  run_tool : string -> list string -> W -> W;
  list_fields : string -> W -> list string
}.

Section Calls.
Context {W : Type} `{Tools W}.

Definition tool (name : string) (args : list string) : Py W unit :=
  fun w => (Returns tt, run_tool name args w, [Call name args]).

Definition ListFields (table : string) : Py W (list string) :=
  fun w => (Returns (list_fields table w), w, [Call "ListFields" [table]]).

End Calls.

End gp.

#[global] Instance Workspace_tools : gp.Tools Workspace.t := {|
  gp.run_tool _ _ w := w;
  gp.list_fields _ _ := ["OBJECTID"; "Name"; "Category"; "MinPS"; "MaxPS"]
|}.

(** Attribute access on an instance: the names an instance answers to are
    its data attributes and the [def]s of its class and base classes. *)
Module pyattr.

Definition Table_attributes : list string :=
  [ "geodatabase_name"; "table_name"; "full_name"; "temp_table" ].

Definition Table_defs : list string :=
  [ "__init__"; "table_to_dataframe"; "parse_table_name"; "createTable";
    "describe"; "get_count"; "get_fields"; "test_field_exists";
    "calculate_field"; "calculate_fields"; "create_field"; "create_fields";
    "create_and_calculate_field"; "select_by_attribute"; "join_table";
    "copy_features"; "sort"; "delete_identical"; "add_index"; "delete_field";
    "insert_cursor"; "search_cursor"; "update_cursor"; "exists"; "delete";
    "__enter__"; "__exit__"; "__del__" ].

Definition FeatureClass_defs : list string :=
  [ "__init__"; "select_by_location"; "extent"; "create"; "spatial_reference";
    "spatial_reference_as_string"; "buffer"; "project"; "clip"; "erase";
    "simplify"; "read_geometries"; "write_geometries"; "__enter__";
    "__exit__"; "__del__" ].

Definition FeatureLayer_attributes : list string := [ "layer_name"; "layer" ].

Definition FeatureLayer_defs : list string :=
  [ "__init__"; "__del__"; "get_count"; "buffer" ].

Definition MosaicDataset_attributes : list string :=
  [ "temp_mosaic"; "mosaic_layer"; "geodatabase_name"; "mosaic_name";
    "full_name" ].

Definition MosaicDataset_defs : list string :=
  [ "__init__"; "delete"; "copy_raster"; "__enter__"; "__exit__"; "__del__";
    "exists"; "create_layer"; "create_mosaic"; "calculate_statistics";
    "create_image_SD_draft"; "create_reference"; "create_temp_reference";
    "describe"; "spatial_reference"; "test_field_exists"; "join_table";
    "add_mosaic"; "add_tables"; "add_rasters"; "remove_rasters";
    "set_properties"; "set_raster_properties"; "get_raster_properties";
    "repair_paths"; "build_multidimensional_info"; "build_footprints";
    "build_boundary"; "select_by_attribute"; "calculate_field";
    "calculate_fields"; "create_and_calculate_field"; "create_field";
    "create_fields"; "delete_field"; "export_geometry"; "import_geometry";
    "calculate_cell_sizes"; "set_minps"; "set_maxps"; "define_overviews";
    "export_paths"; "build_overviews"; "build_overviews";
    "delete_bad_overviews"; "build_overviews_robust";
    "delete_external_rasters"; "build_crf_overviews";
    "synchronize_mosaic_dataset" ].

(** What instances of each class answer to. *)
Definition Table_names : list string := (Table_attributes ++ Table_defs)%list.
Definition FeatureClass_names : list string :=
  (FeatureClass_defs ++ Table_names)%list.
Definition FeatureLayer_names : list string :=
  (FeatureLayer_attributes ++ FeatureLayer_defs ++ FeatureClass_names)%list.
Definition MosaicDataset_names : list string :=
  (MosaicDataset_attributes ++ MosaicDataset_defs)%list.

Definition has (names : list string) (name : string) : bool :=
  existsb (String.eqb name) names.

(** [self.name(...)]: [AttributeError] unless the instance answers to
    [name]; [bound] is the call made when it does. *)
Definition call_method {W A : Type} (names : list string) (name : string)
    (bound : Py W A) : Py W A :=
  if has names name then bound else raise (AttributeError name).

End pyattr.

Module FieldMethods.

Section Methods.
Context {W : Type} `{arcpy.Backend W} `{gp.Tools W}.

(** [Table.get_count] *)
Definition get_count (self : Table.t) : Py W Z :=
  arcpy.GetCount_management (Table.full_name self).

(** [Table.select_by_attribute] on a plain table or feature class. *)
Definition select_by_attribute (self : Table.t)
    (selection_type where_clause : string) : Py W Z :=
  exec arcpy.SelectLayerByAttribute_management (Table.full_name self)
         selection_type where_clause;
  exec output_msg ("SelectLayerByAttribute called on " +:+ Table.full_name self);
  get_count self.

(** [Table.calculate_field], for an instance that answers to [names],
    whose full name is [full_name] and whose [select_by_attribute] is
    [select].  The body calls [self.selectbyattribute]. *)
Definition calculate_field (names : list string) (full_name : string)
    (select : string -> string -> Py W Z)
    (field expression expression_type code_block : string)
    (where_clause : option string) : Py W unit :=
  exec (if truthy where_clause then
          pyattr.call_method names "selectbyattribute"
            (exec select "NEW_SELECTION" (default "" where_clause); ret tt)
        else ret tt);
  exec gp.tool "CalculateField_management"
         [full_name; field; expression; expression_type; code_block];
  output_msg ("Calculated field for: [" +:+ full_name +:+ "]").

(** [Table.calculate_fields]; its body calls [self.select_by_attribute]. *)
Definition calculate_fields (names : list string) (full_name : string)
    (select : string -> string -> Py W Z)
    (expression_type fields code_block : string)
    (where_clause : option string) : Py W unit :=
  exec (if truthy where_clause then
          pyattr.call_method names "select_by_attribute"
            (exec select "NEW_SELECTION" (default "" where_clause); ret tt)
        else ret tt);
  exec gp.tool "CalculateFields_management"
         [full_name; expression_type; fields; code_block];
  output_msg ("Calculated field(s) for: [" +:+ full_name +:+ "]").

Definition Table_calculate_field (self : Table.t) :=
  calculate_field pyattr.Table_names (Table.full_name self)
    (select_by_attribute self).

Definition Table_calculate_fields (self : Table.t) :=
  calculate_fields pyattr.Table_names (Table.full_name self)
    (select_by_attribute self).

Definition FeatureClass_calculate_field (self : Table.t) :=
  calculate_field pyattr.FeatureClass_names (Table.full_name self)
    (select_by_attribute self).

Definition FeatureLayer_calculate_field (self : FeatureLayer.t) :=
  calculate_field pyattr.FeatureLayer_names
    (Table.full_name (FeatureLayer.base self))
    (FeatureLayer.select_by_attribute self).

(** [MosaicLayer.calculate_field] hands everything to its feature layer. *)
Definition MosaicLayer_calculate_field (self : MosaicLayer.t)
    (field expression expression_type code_block : string)
    (where_clause : option string) : Py W unit :=
  FeatureLayer_calculate_field (MosaicLayer.feature_layer self) field expression
    expression_type code_block where_clause.

Definition on_mosaic_layer {A : Type} (self : MosaicDataset.t) (attr : string)
    (k : MosaicLayer.t -> Py W A) : Py W A :=
  match MosaicDataset.mosaic_layer self with
  | Some ml => k ml
  | None => raise (AttributeError attr)
  end.

(** [MosaicDataset.calculate_field] *)
Definition MosaicDataset_calculate_field (self : MosaicDataset.t)
    (field expression expression_type code_block : string)
    (where_clause : option string) : Py W MosaicDataset.t :=
  do self <- MosaicDataset.create_layer self;
  exec on_mosaic_layer self "calculate_field"
         (fun ml => MosaicLayer_calculate_field ml field expression
                      expression_type code_block where_clause);
  ret self.

(** [MosaicDataset.set_minps] and [set_maxps]; [where_clause] defaults to
    ["Category = 1"]. *)
Definition set_minps (self : MosaicDataset.t) (expression : string)
    (where_clause : option string) : Py W MosaicDataset.t :=
  do self <- MosaicDataset.create_layer self;
  exec on_mosaic_layer self "calculate_field"
         (fun ml => MosaicLayer_calculate_field ml "MinPS" expression "PYTHON" ""
                      where_clause);
  ret self.

Definition set_maxps (self : MosaicDataset.t) (expression : string)
    (where_clause : option string) : Py W MosaicDataset.t :=
  do self <- MosaicDataset.create_layer self;
  exec on_mosaic_layer self "calculate_field"
         (fun ml => MosaicLayer_calculate_field ml "MaxPS" expression "PYTHON" ""
                      where_clause);
  ret self.

(** [Table.get_fields] and [Table.test_field_exists]: the loop returns at
    the first field of that name. *)
Definition get_fields (self : Table.t) : Py W (list string) :=
  do ret_val <- gp.ListFields (Table.full_name self);
  exec output_msg ("Listed fields of " +:+ Table.full_name self);
  ret ret_val.

Fixpoint first_named (field_name : string) (field_list : list string) : bool :=
  match field_list with
  | nil => false
  | field :: rest =>
      if String.eqb field field_name then true else first_named field_name rest
  end.

Definition test_field_exists (self : Table.t) (field_name : string) : Py W bool :=
  do field_list <- get_fields self;
  ret (first_named field_name field_list).

(** [MosaicDataset.create_reference] *)
Definition create_reference (self out_mosaic_dataset : MosaicDataset.t)
  : Py W unit :=
  exec gp.tool "CreateReferencedMosaicDataset_management"
         [MosaicDataset.full_name self; MosaicDataset.full_name out_mosaic_dataset];
  output_msg ("Created referenced mosaic dataset: ["
              +:+ MosaicDataset.full_name out_mosaic_dataset +:+ "]").

(** [MosaicDataset.create_temp_reference]; its body calls
    [omosaic.createreference(self)]. *)
Definition create_temp_reference (self : MosaicDataset.t)
    (mosaic_name : option string) : Py W MosaicDataset.t :=
  do omosaic <- MosaicDataset.__init__ (default "TempMosaic" mosaic_name) None true;
  exec pyattr.call_method pyattr.MosaicDataset_names "createreference"
         (create_reference omosaic self);
  ret omosaic.

End Methods.

End FieldMethods.

Module GeometryMethods.

Definition as_object (self : MosaicDataset.t) : pyscope.obj :=
  pyscope.OInstance
    [ ("temp_mosaic", pyscope.OBool (MosaicDataset.temp_mosaic self));
      ("mosaic_layer",
       match MosaicDataset.mosaic_layer self with
       | None => pyscope.ONone
       | Some ml =>
           pyscope.OInstance
             [ ("layer_name", pyscope.OStr (MosaicLayer.layer_name ml)) ]
       end);
      ("geodatabase_name", pyscope.OStr (MosaicDataset.geodatabase_name self));
      ("mosaic_name", pyscope.OStr (MosaicDataset.mosaic_name self));
      ("full_name", pyscope.OStr (MosaicDataset.full_name self)) ].

Section Methods.
Context {W : Type} `{arcpy.Backend W} `{gp.Tools W}.

(** [MosaicDataset.build_boundary] without keyword arguments. *)
Definition build_boundary (self : MosaicDataset.t) : Py W unit :=
  exec gp.tool "BuildBoundary_management" [MosaicDataset.full_name self];
  output_msg ("Built boundary for mosaic dataset: ["
              +:+ MosaicDataset.full_name self +:+ "]").

(** [MosaicLayer.set_properties], its keyword arguments as a list. *)
Definition MosaicLayer_set_properties (self : MosaicLayer.t)
    (kwargs : list string) : Py W unit :=
  exec gp.tool "SetMosaicDatasetProperties_management"
         (MosaicLayer.layer_name self :: kwargs);
  output_msg ("Set properties for [" +:+ MosaicLayer.layer_name self +:+ "] ").

(** [MosaicDataset.set_properties] *)
Definition set_properties (self : MosaicDataset.t) (kwargs : list string)
  : Py W MosaicDataset.t :=
  do self <- MosaicDataset.create_layer self;
  exec FieldMethods.on_mosaic_layer self "set_properties"
         (fun ml => MosaicLayer_set_properties ml kwargs);
  ret self.

(** [MosaicDataset.import_geometry].  The toolkit call names
    [target_featureclass_type], which is no parameter of the function. *)
Definition import_geometry (self : MosaicDataset.t)
    (input_featureclass : Table.t) (target_join_field : string)
    (input_join_field : option string) (geometry_type : string)
    (set_clip set_boundary : bool) : Py W MosaicDataset.t :=
  let input_join_field := default target_join_field input_join_field in
  let locals :=
    [ ("self", as_object self);
      ("input_featureclass", Table.as_object input_featureclass);
      ("target_join_field", pyscope.OStr target_join_field);
      ("input_join_field", pyscope.OStr input_join_field);
      ("geometry_type", pyscope.OStr geometry_type);
      ("set_clip", pyscope.OBool set_clip);
      ("set_boundary", pyscope.OBool set_boundary) ] in
  do f <- pyscope.eval locals
            (pyscope.Attribute (pyscope.Name "arcpy")
               "ImportMosaicDatasetGeometry_management");
  do a1 <- pyscope.eval locals (pyscope.Attribute (pyscope.Name "self") "full_name");
  do a2 <- pyscope.eval locals (pyscope.Name "target_featureclass_type");
  do a3 <- pyscope.eval locals (pyscope.Name "target_join_field");
  do a4 <- pyscope.eval locals
             (pyscope.Attribute (pyscope.Name "input_featureclass") "full_name");
  do a5 <- pyscope.eval locals (pyscope.Name "input_join_field");
  exec gp.tool (pyscope.show f) (map pyscope.show [a1; a2; a3; a4; a5]);
  exec output_msg ("Modified geometries of mosaic dataset "
                   +:+ MosaicDataset.full_name self);
  if set_clip then
    if String.eqb geometry_type "FOOTPRINT" then
      do self <- set_properties self ["clip_to_footprints=CLIP"];
      if set_boundary then (exec build_boundary self; ret self) else ret self
    else if String.eqb geometry_type "BOUNDARY" then
      set_properties self ["clip_to_boundary=CLIP"]
    else ret self
  else ret self.

End Methods.

End GeometryMethods.

(* ===================================================================== *)
(** * Theorems                                                             *)
(* ===================================================================== *)

(** ** The monad *)

Lemma bind_ret_l {W A B : Type} (a : A) (k : A -> Py W B) (w : W) :
  py.bind (ret a) k w = k a w.
Proof. unfold bind, ret. destruct (k a w) as [[r w2] t2]. reflexivity. Qed.

Lemma bind_raise_l {W A B : Type} (e : exn) (k : A -> Py W B) (w : W) :
  py.bind (raise e) k w = (Raises e, w, []).
Proof. reflexivity. Qed.

Lemma bind_ext {W A B : Type} (m : Py W A) (k1 k2 : A -> Py W B) (w : W) :
  (forall a w', k1 a w' = k2 a w') -> py.bind m k1 w = py.bind m k2 w.
Proof.
  intros Hk. unfold bind. destruct (m w) as [[r w1] t1].
  destruct r; [rewrite Hk |]; reflexivity.
Qed.

(** ** Strings and paths *)

#[local] Arguments String.append !s1 s2 : simpl nomatch.

Lemma append_empty_r (s : string) : s +:+ "" = s.
Proof. induction s as [|a s IH]; simpl; [reflexivity | now rewrite IH]. Qed.

Lemma append_assoc (a b c : string) : (a +:+ b) +:+ c = a +:+ (b +:+ c).
Proof. induction a as [|x a IH]; simpl; [reflexivity | now rewrite IH]. Qed.

Lemma eqb_empty_append (a : string) (x : ascii) (b : string) :
  String.eqb (a +:+ String x b) "" = false.
Proof. destruct a; reflexivity. Qed.

Lemma no_separator_cons (a : ascii) (s : string) :
  Spec.no_separator (String a s) = true ->
  Ascii.eqb a os.path.sep = false /\ Spec.no_separator s = true.
Proof.
  simpl. intros Hs. apply andb_true_iff in Hs as [Ha Hr].
  split; [now apply negb_true_iff in Ha | exact Hr].
Qed.

Lemma rfind_no_separator (s : string) :
  Spec.no_separator s = true -> os.path.rfind os.path.sep s = -1.
Proof.
  induction s as [|a s IH]; [reflexivity |].
  intros Hs. apply no_separator_cons in Hs as [Ha Hr].
  simpl. rewrite (IH Hr). simpl. now rewrite Ha.
Qed.

Lemma rfind_nonneg_or_absent (c : ascii) (s : string) : -1 <= os.path.rfind c s.
Proof.
  induction s as [|a s IH]; simpl; [lia |].
  destruct (0 <=? os.path.rfind c s) eqn:E; [apply Z.leb_le in E; lia |].
  destruct (Ascii.eqb a c); lia.
Qed.

(** The last separator of [c/n] sits right after [c] when [n] has none. *)
Lemma rfind_joined (c n : string) :
  Spec.no_separator n = true ->
  os.path.rfind os.path.sep (c +:+ String os.path.sep n)
  = Z.of_nat (String.length c).
Proof.
  intros Hn. induction c as [|a c IH].
  - simpl. rewrite (rfind_no_separator n Hn). reflexivity.
  - cbn [String.append os.path.rfind String.length]. rewrite IH.
    destruct (0 <=? Z.of_nat (String.length c)) eqn:E.
    + lia.
    + apply Z.leb_gt in E. lia.
Qed.

Lemma substring_prefix (c r : string) :
  substring 0 (String.length c) (c +:+ r) = c.
Proof.
  induction c as [|a c IH]; simpl.
  - destruct r; reflexivity.
  - now rewrite IH.
Qed.

Lemma substring_suffix (c r : string) :
  substring (String.length c) (String.length r) (c +:+ r) = r.
Proof.
  induction c as [|a c IH]; simpl; [| exact IH].
  induction r as [|b r IHr]; simpl; [reflexivity | now rewrite IHr].
Qed.

Lemma length_append (a b : string) :
  String.length (a +:+ b) = (String.length a + String.length b)%nat.
Proof. induction a as [|x a IH]; simpl; [reflexivity | now rewrite IH]. Qed.

Lemma rstrip_after_name (c : string) :
  Spec.no_separator c = true ->
  os.path.rstrip os.path.sep (c +:+ String os.path.sep "") = c.
Proof.
  induction c as [|a c IH]; [reflexivity |].
  intros Hc. apply no_separator_cons in Hc as [Ha Hr].
  cbn [String.append os.path.rstrip]. rewrite (IH Hr).
  destruct c; [now rewrite Ha | reflexivity].
Qed.

Lemma all_of_after_name (a : ascii) (c : string) :
  Ascii.eqb a os.path.sep = false ->
  os.path.all_of os.path.sep (String a c +:+ String os.path.sep "") = false.
Proof. intros Ha. simpl. now rewrite Ha. Qed.

Lemma endswith_no_separator (a : ascii) (c : string) :
  Spec.no_separator (String a c) = true ->
  os.path.endswith os.path.sep (String a c) = false.
Proof.
  revert a. induction c as [|b c IH]; intros a Hc.
  - apply no_separator_cons in Hc as [Ha _]. exact Ha.
  - apply no_separator_cons in Hc as [_ Hr].
    change (os.path.endswith os.path.sep (String b c) = false). now apply IH.
Qed.

Lemma startswith_no_separator (n : string) :
  Spec.no_separator n = true -> os.path.startswith os.path.sep n = false.
Proof.
  destruct n as [|a n]; [reflexivity |].
  intros Hn. now apply no_separator_cons in Hn as [Ha _].
Qed.

(** Joining two separator-free components puts one separator between. *)
Lemma join_plain (c n : string) :
  Spec.no_separator c = true -> Spec.no_separator n = true ->
  String.eqb c "" = false ->
  os.path.join c n = c +:+ String os.path.sep n.
Proof.
  intros Hc Hn Hne. unfold os.path.join.
  rewrite (startswith_no_separator n Hn), Hne.
  destruct c as [|a c]; [discriminate |].
  now rewrite (endswith_no_separator a c Hc).
Qed.

Lemma basename_joined (c n : string) :
  Spec.no_separator n = true ->
  os.path.basename (c +:+ String os.path.sep n) = n.
Proof.
  intros Hn. unfold os.path.basename, os.path.slice_from.
  rewrite (rfind_joined c n Hn), length_append.
  replace (Z.to_nat (Z.of_nat (String.length c) + 1))
    with (String.length (c +:+ String os.path.sep "")) by (rewrite length_append; simpl; lia).
  replace (String.length c + String.length (String os.path.sep n)
           - String.length (c +:+ String os.path.sep ""))%nat
    with (String.length n) by (rewrite length_append; simpl; lia).
  replace (c +:+ String os.path.sep n)
    with ((c +:+ String os.path.sep "") +:+ n) by (now rewrite append_assoc).
  apply substring_suffix.
Qed.

Lemma dirname_joined (c n : string) :
  Spec.no_separator c = true -> Spec.no_separator n = true ->
  String.eqb c "" = false ->
  os.path.dirname (c +:+ String os.path.sep n) = c.
Proof.
  intros Hc Hn Hne. unfold os.path.dirname, os.path.slice_to.
  rewrite (rfind_joined c n Hn).
  replace (Z.to_nat (Z.of_nat (String.length c) + 1))
    with (String.length (c +:+ String os.path.sep "")) by (rewrite length_append; simpl; lia).
  replace (c +:+ String os.path.sep n)
    with ((c +:+ String os.path.sep "") +:+ n) by (now rewrite append_assoc).
  rewrite substring_prefix, eqb_empty_append.
  destruct c as [|a c]; [discriminate |].
  apply no_separator_cons in Hc as Hc'. destruct Hc' as [Ha _].
  rewrite (all_of_after_name a c Ha). simpl negb. simpl andb.
  now apply rstrip_after_name.
Qed.

Lemma basename_plain (n : string) :
  Spec.no_separator n = true -> os.path.basename n = n.
Proof.
  intros Hn. unfold os.path.basename, os.path.slice_from.
  rewrite (rfind_no_separator n Hn). simpl. rewrite Nat.sub_0_r.
  exact (substring_suffix "" n).
Qed.

Lemma dirname_plain (n : string) :
  Spec.no_separator n = true -> os.path.dirname n = "".
Proof.
  intros Hn. unfold os.path.dirname, os.path.slice_to.
  rewrite (rfind_no_separator n Hn). simpl. destruct n; reflexivity.
Qed.

Lemma join_empty_l (n : string) : os.path.join "" n = n.
Proof. unfold os.path.join. destruct (os.path.startswith os.path.sep n); reflexivity. Qed.

(** ** Name resolution *)

Lemma concat_cons (x : string) (xs : list string) :
  String.concat "" (x :: xs) = x +:+ String.concat "" xs.
Proof.
  destruct xs as [|y ys]; simpl.
  - now rewrite append_empty_r.
  - reflexivity.
Qed.

(** [parse_table_name] with a map is character-wise substitution. *)
Lemma parse_table_name_sanitize (d : gmap ascii string) (name : string) :
  parse_table_name name (Some d) = Spec.sanitize d name.
Proof.
  unfold parse_table_name. induction name as [|ch rest IH]; [reflexivity |].
  cbn [list_ascii_of_string map Spec.sanitize]. rewrite concat_cons, IH.
  destruct (d !! ch); reflexivity.
Qed.

Lemma decode_names_explicit (g t : string) :
  decode_names g (Some t) = (g, t, os.path.join g t).
Proof.
  unfold decode_names. destruct (String.eqb g "") eqn:E; [| reflexivity].
  apply String.eqb_eq in E. subst g. now rewrite join_empty_l.
Qed.

Lemma decode_names_full_path (c n : string) :
  Spec.no_separator c = true -> Spec.no_separator n = true ->
  decode_names (Spec.full_path_of c n) None = (c, n, Spec.full_path_of c n).
Proof.
  intros Hc Hn. unfold Spec.full_path_of.
  destruct (String.eqb c "") eqn:E.
  - apply String.eqb_eq in E. subst c. unfold decode_names.
    rewrite (dirname_plain n Hn), (basename_plain n Hn). reflexivity.
  - change (c +:+ "/" +:+ n) with (c +:+ String os.path.sep n).
    unfold decode_names.
    rewrite (dirname_joined c n Hc Hn E), (basename_joined c n Hn), E.
    now rewrite (join_plain c n Hc Hn E).
Qed.

(** C8: name resolution round-trips with path formation.  For a container
    and a name without path separators, resolving the full path built from
    them (the name alone when the container is empty) gives back exactly
    that container and that name, through [decode_names] and through the
    non-temporary [initialize_names] alike, whatever scratch location and
    substitution map are passed. *)
Theorem C8_resolve_round_trip {W : Type} `{arcpy.Backend W}
    (container name : string)
    (scratch : option string) (replacechars : option (gmap ascii string)) (w : W) :
  Spec.no_separator container = true ->
  Spec.no_separator name = true ->
  decode_names (Spec.full_path_of container name) None
  = (container, name, Spec.full_path_of container name)
  /\ initialize_names (Spec.full_path_of container name) None false scratch
       replacechars w
     = (Returns (container, name, Spec.full_path_of container name), w, []).
Proof.
  intros Hc Hn. split.
  - now apply decode_names_full_path.
  - unfold initialize_names. cbn [truthy]. unfold ret.
    now rewrite (decode_names_full_path container name Hc Hn).
Qed.

Lemma C8_resolve_round_trip_witness :
  decode_names (Spec.full_path_of "gdb" "MyTable") None
  = ("gdb", "MyTable", Spec.full_path_of "gdb" "MyTable")
  /\ initialize_names (Spec.full_path_of "gdb" "MyTable") None false
       (Some "scratch.gdb") (Some Table.replace_list) Workspace.empty
     = (Returns ("gdb", "MyTable", Spec.full_path_of "gdb" "MyTable"),
        Workspace.empty, []).
Proof.
  apply (C8_resolve_round_trip "gdb" "MyTable" (Some "scratch.gdb")
           (Some Table.replace_list) Workspace.empty); reflexivity.
Defined.

(** C9: with an explicit name (one that Python takes as present, so not
    the empty string) and the temporary flag off, resolution takes the
    locator as the container and the explicit argument as the name, and the
    full path is their join; [resolve("gdb/path", "MyTable", False)] gives
    container [gdb/path], name [MyTable], full path [gdb/path/MyTable],
    also through the [Table] constructor. *)
Theorem C9_explicit_name_non_temporary {W : Type} `{arcpy.Backend W}
    (locator explicit_name : string) (scratch : option string) (w : W) :
  truthy (Some explicit_name) = true ->
  initialize_names locator (Some explicit_name) false scratch None w
  = (Returns (locator, explicit_name, os.path.join locator explicit_name), w, [])
  /\ initialize_names "gdb/path" (Some "MyTable") false scratch None w
     = (Returns ("gdb/path", "MyTable", "gdb/path/MyTable"), w, [])
  /\ fst (fst (Table.__init__ "gdb/path" (Some "MyTable") false w))
     = Returns {| Table.geodatabase_name := "gdb/path";
                  Table.table_name := "MyTable";
                  Table.full_name := "gdb/path/MyTable";
                  Table.temp_table := false |}.
Proof.
  intros Hname. split; [| split].
  - unfold initialize_names. rewrite Hname. cbn [option_map parse_table_name].
    unfold ret. now rewrite decode_names_explicit.
  - reflexivity.
  - reflexivity.
Qed.

Lemma C9_explicit_name_non_temporary_witness :
  initialize_names "gdb/path" (Some "MyTable") false None None Workspace.empty
  = (Returns ("gdb/path", "MyTable", os.path.join "gdb/path" "MyTable"),
     Workspace.empty, []).
Proof.
  apply (C9_explicit_name_non_temporary "gdb/path" "MyTable" None Workspace.empty).
  reflexivity.
Defined.

(** The temporary branch of [initialize_names], step by step. *)
Lemma initialize_names_temporary {W : Type} `{arcpy.Backend W}
    (locator : string) (explicit_name : option string)
    (scratch : option string) (replacechars : option (gmap ascii string)) (w : W) :
  let decoded := decode_names locator explicit_name in
  let container :=
    if String.eqb (fst (fst decoded)) "" then default (arcpy.scratchGDB w) scratch
    else fst (fst decoded) in
  let sanitized := parse_table_name (snd (fst decoded)) replacechars in
  initialize_names locator explicit_name true scratch replacechars w
  = (Returns (decode_names (arcpy.unique_name sanitized container w) None), w,
     [Call "CreateUniqueName" [sanitized; container]]).
Proof.
  unfold initialize_names.
  destruct (decode_names locator explicit_name) as [[c n] f].
  cbn [fst snd]. unfold bind.
  destruct (String.eqb c ""); [destruct scratch |]; reflexivity.
Qed.

(** C7: with the temporary flag on, the container is the supplied default
    (scratch) container exactly when the container decoded from the input
    is empty, and the decoded one otherwise; the name is sanitized; the
    uniqueness service is asked once, for that sanitized name inside that
    container; and the returned triple is decoded from the service's
    answer.  Nothing else is called and the store is left as it was. *)
Theorem C7_temporary_resolution {W : Type} `{arcpy.Backend W}
    (locator : string) (explicit_name : option string)
    (default_container : string) (replacechars : option (gmap ascii string))
    (w : W) :
  let decoded_container := fst (fst (decode_names locator explicit_name)) in
  let decoded_name := snd (fst (decode_names locator explicit_name)) in
  let container :=
    if String.eqb decoded_container "" then default_container
    else decoded_container in
  let sanitized := parse_table_name decoded_name replacechars in
  let answer := arcpy.unique_name sanitized container w in
  initialize_names locator explicit_name true (Some default_container)
    replacechars w
  = (Returns (os.path.dirname answer, os.path.basename answer,
              if String.eqb (os.path.dirname answer) ""
              then os.path.basename answer
              else os.path.join (os.path.dirname answer) (os.path.basename answer)),
     w, [Call "CreateUniqueName" [sanitized; container]]).
Proof.
  cbv zeta.
  exact (initialize_names_temporary locator explicit_name (Some default_container)
           replacechars w).
Qed.

(** The empty string is no explicit name: with the temporary flag off the
    triple is decoded from the locator alone and nothing is substituted. *)
Lemma initialize_names_bare_locator {W : Type} `{arcpy.Backend W}
    (locator : string) (explicit_name : option string)
    (scratch : option string) (replacechars : option (gmap ascii string)) (w : W) :
  truthy explicit_name = false ->
  initialize_names locator explicit_name false scratch replacechars w
  = (Returns (decode_names locator None), w, []).
Proof. intros Hn. unfold initialize_names. now rewrite Hn. Qed.

(** C5, as stated, fails: with the temporary flag off and the name derived
    from the bare locator [a b.c], the resolved name keeps its space and
    its period although both are keys of the map. *)
Lemma C5_bare_locator_keeps_its_characters :
  ~ Spec.resolved_name_sanitized "a b.c" None false (Some "scratch.gdb")
      Table.replace_list Workspace.empty.
Proof.
  intros (c & f & w' & tr & Hres).
  vm_compute in Hres. discriminate Hres.
Qed.

(** C5, amended: a supplied map is applied to the name, character by
    character, and never to the container, (a) with the temporary flag off
    when an explicit non-empty name is given, and (b) with the temporary
    flag on, to the explicit or derived name before it is handed to the
    uniqueness service; (c) with the flag off and no explicit name, the
    name derived from the bare locator is left as it is; (d) the explicit
    name [a b.c] with the map (space to underscore, period removed)
    resolves to [a_bc]. *)
Theorem C5_sanitization_paths {W : Type} `{arcpy.Backend W}
    (locator explicit_name : string) (default_container : string)
    (d : gmap ascii string) (w : W) :
  truthy (Some explicit_name) = true ->
  initialize_names locator (Some explicit_name) false (Some default_container)
    (Some d) w
  = (Returns (locator, Spec.sanitize d explicit_name,
              os.path.join locator (Spec.sanitize d explicit_name)), w, [])
  /\ (forall given : option string,
        let decoded := decode_names locator given in
        let container :=
          if String.eqb (fst (fst decoded)) "" then default_container
          else fst (fst decoded) in
        let sanitized := Spec.sanitize d (snd (fst decoded)) in
        initialize_names locator given true (Some default_container) (Some d) w
        = (Returns (decode_names (arcpy.unique_name sanitized container w) None),
           w, [Call "CreateUniqueName" [sanitized; container]]))
  /\ initialize_names locator None false (Some default_container) (Some d) w
     = (Returns (os.path.dirname locator, os.path.basename locator,
                 snd (decode_names locator None)), w, [])
  /\ initialize_names locator (Some "a b.c") false (Some default_container)
       (Some Table.replace_list) w
     = (Returns (locator, "a_bc", os.path.join locator "a_bc"), w, []).
Proof.
  intros Hname. split; [| split; [| split]].
  - unfold initialize_names. rewrite Hname. cbn [option_map].
    rewrite parse_table_name_sanitize. unfold ret.
    now rewrite decode_names_explicit.
  - intros given. cbv zeta. rewrite <- parse_table_name_sanitize.
    exact (initialize_names_temporary locator given (Some default_container)
             (Some d) w).
  - rewrite initialize_names_bare_locator by reflexivity. reflexivity.
  - unfold initialize_names. cbn [truthy String.eqb negb option_map].
    unfold ret. rewrite decode_names_explicit. reflexivity.
Qed.

Lemma C5_sanitization_paths_witness :
  initialize_names "gdb" (Some "a b.c") false (Some "scratch.gdb")
    (Some Table.replace_list) Workspace.empty
  = (Returns ("gdb", Spec.sanitize Table.replace_list "a b.c",
              os.path.join "gdb" (Spec.sanitize Table.replace_list "a b.c")),
     Workspace.empty, []).
Proof.
  apply (C5_sanitization_paths "gdb" "a b.c" "scratch.gdb" Table.replace_list
           Workspace.empty).
  reflexivity.
Defined.

(** ** Cursors *)

(** [search_cursor], whose parameter is named as its body names it, does
    reach the toolkit. *)
Lemma search_cursor_returns {W : Type} `{arcpy.Backend W} (self : Table.t)
    (field_names where_clause spatial_reference explode_to_points sql_clause
       : pyscope.obj)
    (kwargs : list (string * pyscope.obj)) (w : W) :
  exists tr,
    Table.search_cursor self field_names where_clause spatial_reference
      explode_to_points sql_clause kwargs w
    = (Returns (pyscope.OForeign "arcpy.da.SearchCursor(...)"), w, tr)
    /\ tr <> [].
Proof. eexists. split; [reflexivity | discriminate]. Qed.

(** C10: whatever arguments it is given, [Table.update_cursor] raises
    [NameError] for [field_names], the name its body mentions while the
    parameter is called [ufields]; no cursor is returned, the toolkit is
    not called and the store is left as it was. *)
Theorem C10_update_cursor_raises_NameError {W : Type} `{arcpy.Backend W}
    (self : Table.t)
    (ufields where_clause spatial_reference explode_to_points sql_clause
       : pyscope.obj)
    (kwargs : list (string * pyscope.obj)) (w : W) :
  Table.update_cursor self ufields where_clause spatial_reference
    explode_to_points sql_clause kwargs w
  = (Raises (NameError "field_names"), w, [])
  /\ pyscope.lookup "field_names"
       [ ("self", Table.as_object self); ("ufields", ufields);
         ("where_clause", where_clause);
         ("spatial_reference", spatial_reference);
         ("explode_to_points", explode_to_points);
         ("sql_clause", sql_clause); ("kwargs", pyscope.ODict kwargs) ] = None
  /\ pyscope.bound "field_names" pyscope.module_globals = false.
Proof. split; [| split]; reflexivity. Qed.

(** ** Elapsed time *)

Lemma str_not_empty (n : Z) : (0 < String.length (str n))%nat.
Proof.
  unfold str. destruct n as [|p|p]; cbn [Z.to_int NilZero.string_of_int].
  - simpl. lia.
  - unfold NilZero.string_of_uint.
    destruct (Pos.to_uint p); simpl; lia.
  - unfold NilZero.string_of_uint.
    destruct (Pos.to_uint p); simpl; lia.
Qed.

(** A phrase is the singular form exactly when its value is 1. *)
Lemma phrase_singular_iff (value : Z) (unit_name : string) :
  Spec.phrase value unit_name = Spec.singular unit_name <-> value = 1.
Proof.
  unfold Spec.phrase. split.
  - destruct (value =? 1) eqn:E; [intros _; now apply Z.eqb_eq in E |].
    intros Heq. apply (f_equal String.length) in Heq.
    unfold Spec.singular in Heq. rewrite !length_append in Heq.
    pose proof (str_not_empty value) as Hlen. simpl in Heq. lia.
  - intros ->. reflexivity.
Qed.

(** ** Rounding *)

Lemma pow2_max_pos (x : Z) : 0 < 2 ^ Z.max x 0.
Proof. apply Z.pow_pos_nonneg; lia. Qed.

Lemma pow2_split (a b : Z) : 0 <= b <= a -> 2 ^ a = 2 ^ (a - b) * 2 ^ b.
Proof. intros Hab. rewrite <- Z.pow_add_r by lia. f_equal; lia. Qed.

Lemma pow2_lt_inv (a b : Z) : 0 <= b -> 2 ^ a < 2 ^ b -> a < b.
Proof.
  intros Hb Hlt. destruct (Z.lt_ge_cases a b) as [Hab | Hab]; [exact Hab |].
  pose proof (Z.pow_le_mono_r 2 b a ltac:(lia) Hab). lia.
Qed.

(** [ilog2 n d] is the binary exponent of [n/d]. *)
Lemma ilog2_spec (n d : Z) :
  0 < n -> 0 < d ->
  d * 2 ^ Z.max (pynum.ilog2 n d) 0 <= n * 2 ^ Z.max (- pynum.ilog2 n d) 0
  /\ n * 2 ^ Z.max (- pynum.ilog2 n d) 0
     < 2 * (d * 2 ^ Z.max (pynum.ilog2 n d) 0).
Proof.
  intros Hn Hd. unfold pynum.ilog2.
  pose proof (Z.log2_spec n Hn) as [Hn1 Hn2].
  pose proof (Z.log2_spec d Hd) as [Hd1 Hd2].
  pose proof (Z.log2_nonneg n) as Hln. pose proof (Z.log2_nonneg d) as Hld.
  rewrite Z.pow_succ_r in Hn2, Hd2 by assumption.
  set (ln := Z.log2 n) in *. set (ld := Z.log2 d) in *.
  destruct (Z.le_gt_cases 0 (ln - ld)) as [Hk | Hk].
  - assert (E : 2 ^ ln = 2 ^ (ln - ld) * 2 ^ ld) by (apply pow2_split; lia).
    assert (HK : 0 < 2 ^ (ln - ld)) by (apply Z.pow_pos_nonneg; lia).
    rewrite (Z.max_l (ln - ld) 0), (Z.max_r (- (ln - ld)) 0) by lia.
    change (2 ^ 0) with 1. rewrite Z.mul_1_r.
    destruct (Z.leb_spec (d * 2 ^ (ln - ld)) n) as [Ht | Ht].
    + rewrite (Z.max_l (ln - ld) 0), (Z.max_r (- (ln - ld)) 0) by lia.
      change (2 ^ 0) with 1. nia.
    + destruct (Z.eq_dec (ln - ld) 0) as [E0 | E0].
      * rewrite E0 in *. change (2 ^ 0) with 1 in *.
        change (Z.max (0 - 1) 0) with 0. change (Z.max (- (0 - 1)) 0) with 1.
        change (2 ^ 1) with 2. change (2 ^ 0) with 1. nia.
      * rewrite (Z.max_l (ln - ld - 1) 0), (Z.max_r (- (ln - ld - 1)) 0) by lia.
        change (2 ^ 0) with 1.
        assert (E1 : 2 ^ (ln - ld) = 2 * 2 ^ (ln - ld - 1)).
        { rewrite <- Z.pow_succ_r by lia. f_equal; lia. }
        assert (HK1 : 0 < 2 ^ (ln - ld - 1)) by (apply Z.pow_pos_nonneg; lia).
        nia.
  - assert (E : 2 ^ ld = 2 ^ (ld - ln) * 2 ^ ln) by (apply pow2_split; lia).
    assert (HK : 0 < 2 ^ (ld - ln)) by (apply Z.pow_pos_nonneg; lia).
    rewrite (Z.max_r (ln - ld) 0), (Z.max_l (- (ln - ld)) 0) by lia.
    change (2 ^ 0) with 1. rewrite Z.mul_1_r.
    replace (- (ln - ld)) with (ld - ln) by lia.
    destruct (Z.leb_spec d (n * 2 ^ (ld - ln))) as [Ht | Ht].
    + rewrite (Z.max_r (ln - ld) 0), (Z.max_l (- (ln - ld)) 0) by lia.
      change (2 ^ 0) with 1. replace (- (ln - ld)) with (ld - ln) by lia. nia.
    + rewrite (Z.max_r (ln - ld - 1) 0), (Z.max_l (- (ln - ld - 1)) 0) by lia.
      change (2 ^ 0) with 1.
      replace (- (ln - ld - 1)) with (Z.succ (ld - ln)) by lia.
      rewrite Z.pow_succ_r by lia. nia.
Qed.

(** Rounding [a * P / b] to the nearest integer keeps the floor of [a / b]
    whenever the divisor is below [2 P]: the fraction just under a whole
    number is at least [1/b] away from it, more than half a unit in the
    last place. *)
Lemma round_half_floor (a b P m : Z) :
  0 <= a -> 0 < b -> 0 < P -> b < 2 * P ->
  m = a * P / b \/ (m = a * P / b + 1 /\ b <= 2 * ((a * P) mod b)) ->
  0 <= m /\ m / P = a / b.
Proof.
  intros Ha Hb HP HbP Hm.
  pose proof (Z.div_mod a b ltac:(lia)) as Ea.
  pose proof (Z.mod_pos_bound a b Hb) as Hrho.
  pose proof (Z.div_pos a b Ha Hb) as Hq.
  set (q := a / b) in *. set (rho := a mod b) in *.
  pose proof (Z.div_mod (a * P) b ltac:(lia)) as EP.
  pose proof (Z.mod_pos_bound (a * P) b Hb) as Hr.
  set (m0 := a * P / b) in *. set (r := (a * P) mod b) in *.
  set (u := m0 - q * P).
  assert (Eu : rho * P = b * u + r) by (unfold u; nia).
  assert (Hu0 : 0 <= u) by nia.
  assert (HuP : u < P) by nia.
  assert (Hm' : m = P * q + u \/ (m = P * q + (u + 1) /\ u + 1 < P)).
  { destruct Hm as [-> | [-> Hhalf]]; [left; unfold u; lia | right].
    split; [unfold u; lia |].
    destruct (Z.lt_ge_cases (u + 1) P) as [Hlt | Hge]; [exact Hlt | exfalso].
    assert (u = P - 1) by lia. subst u.
    assert (r <= b - P) by nia. lia. }
  destruct Hm' as [-> | [-> Hlt]].
  - split; [nia |]. symmetry. apply (Z.div_unique _ _ q u); lia.
  - split; [nia |]. symmetry. apply (Z.div_unique _ _ q (u + 1)); lia.
Qed.

Lemma ilog2_lt (a b k : Z) :
  0 < a -> 0 < b -> 0 <= k -> a < b * 2 ^ k -> pynum.ilog2 a b < k.
Proof.
  intros Ha Hb Hk Hlt.
  destruct (ilog2_spec a b Ha Hb) as [Hlo _].
  destruct (Z.lt_ge_cases (pynum.ilog2 a b) k) as [Hl | Hl]; [exact Hl | exfalso].
  rewrite (Z.max_l (pynum.ilog2 a b) 0), (Z.max_r (- pynum.ilog2 a b) 0) in Hlo by lia.
  change (2 ^ 0) with 1 in Hlo.
  pose proof (Z.pow_le_mono_r 2 k (pynum.ilog2 a b) ltac:(lia) Hl).
  assert (0 < 2 ^ k) by (apply Z.pow_pos_nonneg; lia). nia.
Qed.

Lemma ilog2_ge (a b k : Z) :
  0 < a -> 0 < b -> 0 <= k -> b <= a * 2 ^ k -> - k <= pynum.ilog2 a b.
Proof.
  intros Ha Hb Hk Hle.
  destruct (ilog2_spec a b Ha Hb) as [_ Hhi].
  destruct (Z.le_gt_cases (- k) (pynum.ilog2 a b)) as [Hl | Hl]; [exact Hl | exfalso].
  rewrite (Z.max_r (pynum.ilog2 a b) 0), (Z.max_l (- pynum.ilog2 a b) 0) in Hhi by lia.
  change (2 ^ 0) with 1 in Hhi.
  pose proof (Z.pow_le_mono_r 2 (Z.succ k) (- pynum.ilog2 a b) ltac:(lia) ltac:(lia)) as Hp.
  rewrite Z.pow_succ_r in Hp by lia.
  assert (0 < 2 ^ k) by (apply Z.pow_pos_nonneg; lia). nia.
Qed.

(** What [round_pos] returns when the quotient is below [2^53]: an
    exponent that is not positive, and the scaled quotient rounded down,
    or up when the remainder is at least half the divisor. *)
Lemma round_pos_cases (a b : Z) :
  0 < a -> 0 < b -> a < b * 2 ^ 53 ->
  snd (pynum.round_pos a b) = Z.max (pynum.ilog2 a b - 52) (-1074)
  /\ snd (pynum.round_pos a b) <= 0
  /\ (fst (pynum.round_pos a b) = a * 2 ^ (- snd (pynum.round_pos a b)) / b
      \/ (fst (pynum.round_pos a b)
          = a * 2 ^ (- snd (pynum.round_pos a b)) / b + 1
          /\ b <= 2 * ((a * 2 ^ (- snd (pynum.round_pos a b))) mod b))).
Proof.
  intros Ha Hb Hlt.
  pose proof (ilog2_lt a b 53 Ha Hb ltac:(lia) Hlt) as HL.
  unfold pynum.round_pos. cbn [fst snd].
  set (e := Z.max (pynum.ilog2 a b - 52) (-1074)).
  assert (He : e <= 0) by (unfold e; lia).
  split; [reflexivity |]. split; [exact He |].
  rewrite (Z.max_l (- e) 0), (Z.max_r e 0) by lia.
  change (2 ^ 0) with 1. rewrite Z.mul_1_r.
  destruct ((b <? 2 * ((a * 2 ^ (- e)) mod b))
            || ((b =? 2 * ((a * 2 ^ (- e)) mod b)) && Z.odd (a * 2 ^ (- e) / b)))
    eqn:Hup.
  - right. split; [reflexivity |].
    apply orb_true_iff in Hup as [Hup | Hup].
    + apply Z.ltb_lt in Hup. lia.
    + apply andb_true_iff in Hup as [Hup _]. apply Z.eqb_eq in Hup. lia.
  - left. reflexivity.
Qed.

(** Dividing and truncating: when the divisor is small against the
    precision left, [int] of the rounded quotient is the floor of the
    exact one. *)
Lemma round_pos_floor (a b : Z) :
  0 < a -> 0 < b -> b < 2 ^ 1075 ->
  a < 2 ^ 53 \/ (a < b * 2 ^ 42 /\ b < 4096) ->
  snd (pynum.round_pos a b) <= 0
  /\ 0 <= fst (pynum.round_pos a b)
  /\ fst (pynum.round_pos a b) / 2 ^ (- snd (pynum.round_pos a b)) = a / b.
Proof.
  intros Ha Hb Hb' Hsmall.
  assert (Hlt : a < b * 2 ^ 53).
  { destruct Hsmall as [Hs | [Hs _]].
    - assert (2 ^ 53 <= b * 2 ^ 53) by nia. lia.
    - assert (b * 2 ^ 42 <= b * 2 ^ 53) by (apply Z.mul_le_mono_nonneg_l; lia). lia. }
  destruct (round_pos_cases a b Ha Hb Hlt) as (Ee & He & Hm).
  destruct (ilog2_spec a b Ha Hb) as [Hlo _].
  pose proof (ilog2_lt a b 53 Ha Hb ltac:(lia) Hlt) as HL.
  set (e := snd (pynum.round_pos a b)) in *.
  set (m := fst (pynum.round_pos a b)) in *.
  set (L := pynum.ilog2 a b) in *.
  assert (HP : 0 < 2 ^ (- e)) by (apply Z.pow_pos_nonneg; lia).
  assert (HbP : b < 2 * 2 ^ (- e)).
  { rewrite <- Z.pow_succ_r by lia.
    destruct (Z.max_spec (L - 52) (-1074)) as [[Hc Emax] | [Hc Emax]];
      rewrite Emax in Ee.
    - rewrite Ee. exact Hb'.
    - replace (Z.succ (- e)) with (53 - L) by lia.
      destruct Hsmall as [Hs | [Hs Hb4]].
      + destruct (Z.le_gt_cases 0 L) as [HL0 | HL0].
        * rewrite (Z.max_l L 0), (Z.max_r (- L) 0) in Hlo by lia.
          change (2 ^ 0) with 1 in Hlo.
          assert (E : 2 ^ 53 = 2 ^ (53 - L) * 2 ^ L) by (apply pow2_split; lia).
          assert (0 < 2 ^ L) by (apply Z.pow_pos_nonneg; lia). nia.
        * rewrite (Z.max_r L 0), (Z.max_l (- L) 0) in Hlo by lia.
          change (2 ^ 0) with 1 in Hlo.
          assert (E : 2 ^ (53 - L) = 2 ^ 53 * 2 ^ (- L)).
          { rewrite <- Z.pow_add_r by lia. f_equal; lia. }
          assert (0 < 2 ^ (- L)) by (apply Z.pow_pos_nonneg; lia). nia.
      + pose proof (ilog2_lt a b 42 Ha Hb ltac:(lia) Hs) as HL42. fold L in HL42.
        pose proof (Z.pow_le_mono_r 2 12 (53 - L) ltac:(lia) ltac:(lia)) as Hp.
        change (2 ^ 12) with 4096 in Hp. lia. }
  split; [exact He |].
  apply (round_half_floor a b (2 ^ (- e)) m); try assumption; lia.
Qed.

(** A quotient by a power of two that fits in 53 bits is not changed by
    rounding (the remainder [fmod] returns is exact). *)
Lemma round_pos_exact (r s : Z) :
  0 < r < 2 ^ 53 -> 0 <= s <= 1074 ->
  - s - 52 <= snd (pynum.round_pos r (2 ^ s)) <= - s
  /\ fst (pynum.round_pos r (2 ^ s))
     = r * 2 ^ (- snd (pynum.round_pos r (2 ^ s)) - s)
  /\ 0 < fst (pynum.round_pos r (2 ^ s)) < 2 ^ 53.
Proof.
  intros Hr Hs.
  assert (Hd : 0 < 2 ^ s) by (apply Z.pow_pos_nonneg; lia).
  assert (Hlt : r < 2 ^ s * 2 ^ 53) by nia.
  destruct (round_pos_cases r (2 ^ s) ltac:(lia) Hd Hlt) as (Ee & He & Hm).
  destruct (ilog2_spec r (2 ^ s) ltac:(lia) Hd) as [Hlo Hhi].
  pose proof (ilog2_ge r (2 ^ s) s ltac:(lia) Hd ltac:(lia) ltac:(nia)) as HLge.
  set (e := snd (pynum.round_pos r (2 ^ s))) in *.
  set (m := fst (pynum.round_pos r (2 ^ s))) in *.
  set (L := pynum.ilog2 r (2 ^ s)) in *.
  assert (HLs : L + s <= 52).
  { destruct (Z.le_gt_cases 0 L) as [HL0 | HL0].
    - rewrite (Z.max_l L 0), (Z.max_r (- L) 0) in Hlo by lia.
      change (2 ^ 0) with 1 in Hlo. rewrite <- Z.pow_add_r in Hlo by lia.
      assert (2 ^ (s + L) < 2 ^ 53) by lia.
      apply pow2_lt_inv in H; lia.
    - rewrite (Z.max_r L 0), (Z.max_l (- L) 0) in Hlo by lia.
      change (2 ^ 0) with 1 in Hlo.
      assert (0 < 2 ^ (- L)) by (apply Z.pow_pos_nonneg; lia).
      assert (2 ^ s < 2 ^ 53 * 2 ^ (- L)) by nia.
      rewrite <- Z.pow_add_r in H0 by lia.
      apply pow2_lt_inv in H0; lia. }
  assert (Hes : - s - 52 <= e <= - s) by lia.
  assert (EP : 2 ^ (- e) = 2 ^ (- e - s) * 2 ^ s) by (apply pow2_split; lia).
  assert (HQ : 0 < 2 ^ (- e - s)) by (apply Z.pow_pos_nonneg; lia).
  assert (Em : m = r * 2 ^ (- e - s)).
  { rewrite EP, Z.mul_assoc in Hm.
    rewrite Z.div_mul, Z.mod_mul in Hm by lia.
    destruct Hm as [Hm | [_ Hm]]; [exact Hm | lia]. }
  split; [exact Hes |]. split; [exact Em |]. split; [nia |].
  rewrite Em.
  destruct (Z.le_gt_cases 0 L) as [HL0 | HL0].
  - rewrite (Z.max_l L 0), (Z.max_r (- L) 0) in Hhi by lia.
    change (2 ^ 0) with 1 in Hhi.
    assert (E1 : 2 * (2 ^ s * 2 ^ L) * 2 ^ (- e - s) = 2 ^ (L + 1 - e)).
    { rewrite <- Z.pow_add_r, <- Z.pow_succ_r, <- Z.pow_add_r by lia.
      f_equal; lia. }
    pose proof (Z.pow_le_mono_r 2 (L + 1 - e) 53 ltac:(lia) ltac:(lia)). nia.
  - rewrite (Z.max_r L 0), (Z.max_l (- L) 0) in Hhi by lia.
    change (2 ^ 0) with 1 in Hhi.
    assert (0 < 2 ^ (- L)) by (apply Z.pow_pos_nonneg; lia).
    assert (E1 : 2 * 2 ^ s * 2 ^ (- e - s) = 2 ^ (1 - e)).
    { rewrite <- Z.pow_succ_r, <- Z.pow_add_r by lia. f_equal; lia. }
    pose proof (Z.pow_le_mono_r 2 (1 - e) (53 - L) ltac:(lia) ltac:(lia)) as Hp.
    assert (E2 : 2 ^ (53 - L) = 2 ^ 53 * 2 ^ (- L)).
    { rewrite <- Z.pow_add_r by lia. f_equal; lia. }
    nia.
Qed.

(** ** Floats as fractions *)

Lemma round_pos_eq (n d : Z) : 0 < n -> pynum.round n d = pynum.round_pos n d.
Proof.
  intros Hn. unfold pynum.round.
  destruct (Z.eqb_spec n 0) as [E | _]; [lia |].
  destruct (Z.ltb_spec n 0) as [E | _]; [lia | reflexivity].
Qed.

(** A double is a fraction whose denominator is a power of two, at most
    [2^1074]; unless the denominator is 1, its numerator is the mantissa. *)
Lemma fraction_spec (m e : Z) :
  pynum.is_double m e = true ->
  exists s, 0 <= s <= 1074
    /\ snd (pynum.fraction m e) = 2 ^ s
    /\ (Z.abs (fst (pynum.fraction m e)) < 2 ^ 53 \/ s = 0).
Proof.
  unfold pynum.is_double. intros Hd.
  apply andb_true_iff in Hd as [Hd _]. apply andb_true_iff in Hd as [Hm He].
  apply Z.ltb_lt in Hm. apply Z.leb_le in He.
  exists (Z.max (- e) 0). unfold pynum.fraction. cbn [fst snd].
  split; [lia |]. split; [reflexivity |].
  destruct (Z.le_gt_cases e 0) as [H0 | H0].
  - left. rewrite (Z.max_r e 0) by lia. change (2 ^ 0) with 1.
    now rewrite Z.mul_1_r.
  - right. lia.
Qed.

Lemma fraction_round_pos (m e : Z) :
  e <= 0 -> pynum.fraction m e = (m, 2 ^ (- e)).
Proof.
  intros He. unfold pynum.fraction.
  rewrite (Z.max_r e 0), (Z.max_l (- e) 0) by lia.
  change (2 ^ 0) with 1. now rewrite Z.mul_1_r.
Qed.

Lemma int_round_pos (a b : Z) :
  0 < a -> 0 < b -> b < 2 ^ 1075 ->
  a < 2 ^ 53 \/ (a < b * 2 ^ 42 /\ b < 4096) ->
  pynum.int (pynum.Float (fst (pynum.round_pos a b)) (snd (pynum.round_pos a b)))
  = a / b.
Proof.
  intros Ha Hb Hb' Hsmall.
  destruct (round_pos_floor a b Ha Hb Hb' Hsmall) as (He & Hm & Hq).
  unfold pynum.int. rewrite (fraction_round_pos _ _ He). cbn [fst snd].
  rewrite Z.quot_div_nonneg; [exact Hq | exact Hm |].
  apply Z.pow_pos_nonneg; lia.
Qed.

Lemma finite_round_pos (a b : Z) :
  0 < a -> 0 < b -> b < 2 ^ 1075 ->
  a < 2 ^ 53 \/ (a < b * 2 ^ 42 /\ b < 4096) ->
  a / b < 2 ^ 1024 - 1 ->
  pynum.finite (fst (pynum.round_pos a b)) (snd (pynum.round_pos a b)) = true.
Proof.
  intros Ha Hb Hb' Hsmall Hfin.
  destruct (round_pos_floor a b Ha Hb Hb' Hsmall) as (He & Hm & Hq).
  unfold pynum.finite. rewrite (fraction_round_pos _ _ He). cbn [fst snd].
  set (m := fst (pynum.round_pos a b)) in *.
  set (P := 2 ^ (- snd (pynum.round_pos a b))) in *.
  assert (HP : 0 < P) by (apply Z.pow_pos_nonneg; lia).
  pose proof (Z.div_mod m P ltac:(lia)) as Em.
  pose proof (Z.mod_pos_bound m P HP) as Hr.
  apply Z.ltb_lt. rewrite Z.abs_eq by exact Hm. nia.
Qed.

(** [x < k] compares whole seconds, [k] being whole. *)
Lemma ltb_floor (x : pynum.t) (k : Z) :
  pynum.ltb x k = (Spec.floor x <? k).
Proof.
  destruct x as [n | m e]; [reflexivity |].
  unfold pynum.ltb, Spec.floor, pynum.fraction. cbn [fst snd].
  pose proof (pow2_max_pos (- e)) as HD.
  set (N := m * 2 ^ Z.max e 0). set (D := 2 ^ Z.max (- e) 0) in *.
  destruct (Z.ltb_spec N (k * D)) as [Hlt | Hge];
    destruct (Z.ltb_spec (N / D) k) as [Hlt' | Hge']; try reflexivity; exfalso.
  - pose proof (Z.div_lt_upper_bound N D k HD ltac:(lia)). lia.
  - pose proof (Z.div_le_lower_bound N D k HD ltac:(lia)). lia.
Qed.

(** ** The quotients the report takes *)

(** [int(a / k)] for ints below [k * 2^42]: the quotient is rounded to a
    double, yet truncating it gives the floor quotient. *)
Lemma Int_truediv (a k : Z) :
  0 <= a -> 0 < k < 4096 -> a < k * 2 ^ 42 ->
  exists q, pynum.truediv (pynum.Int a) k = Some q /\ pynum.int q = a / k.
Proof.
  intros Ha Hk Hlt. unfold pynum.truediv.
  destruct (Z.eq_dec a 0) as [-> | Hne].
  - exists (pynum.Float 0 0). split; reflexivity.
  - rewrite round_pos_eq by lia.
    assert (Hk' : k < 2 ^ 1075).
    { pose proof (Z.pow_le_mono_r 2 12 1075 ltac:(lia) ltac:(lia)) as Hp.
      change (2 ^ 12) with 4096 in Hp. lia. }
    rewrite finite_round_pos; try lia.
    + eexists. split; [reflexivity |]. apply int_round_pos; lia.
    + assert (a / k < 2 ^ 42) by (apply Z.div_lt_upper_bound; lia).
      pose proof (Z.pow_le_mono_r 2 43 1024 ltac:(lia) ltac:(lia)) as Hp.
      change (2 ^ 43) with (2 * 2 ^ 42) in Hp. lia.
Qed.

Section FloatQuotients.
Variables m e : Z.
Hypothesis Hvalid : pynum.is_double m e = true.
Hypothesis Hpos : pynum.ltb (pynum.Float m e) 0 = false.

Lemma Float_numerator : 0 <= fst (pynum.fraction m e).
Proof. pose proof Hpos as Hn. unfold pynum.ltb in Hn. apply Z.ltb_ge in Hn. lia. Qed.

(** [int(x % k)] of a float that is not negative: [fmod] is exact. *)
Lemma Float_mod_int (k : Z) :
  0 < k < 4096 ->
  pynum.int (pynum.mod_ (pynum.Float m e) k) = Spec.floor (pynum.Float m e) mod k.
Proof.
  intros Hk. pose proof Float_numerator as Hnonneg.
  destruct (fraction_spec m e Hvalid) as (s & Hs & ED & Hsmall).
  unfold pynum.mod_, Spec.floor.
  set (N := fst (pynum.fraction m e)) in *.
  set (D := snd (pynum.fraction m e)) in *.
  assert (HD : 0 < D) by (rewrite ED; apply Z.pow_pos_nonneg; lia).
  assert (HDle : D < 2 ^ 1075).
  { rewrite ED. apply Z.pow_lt_mono_r; lia. }
  rewrite Z.rem_mod_nonneg by nia.
  pose proof (Z.mod_pos_bound N (D * k) ltac:(nia)) as Hr.
  assert (Er : N mod (D * k) / D = (N / D) mod k).
  { rewrite Z.rem_mul_r by lia.
    rewrite Z.mul_comm, Z.div_add by lia.
    rewrite (Z.div_small (N mod D) D) by (apply Z.mod_pos_bound; lia). lia. }
  set (r := N mod (D * k)) in *.
  destruct (Z.eqb_spec r 0) as [E0 | Hne].
  - rewrite <- Er, E0. reflexivity.
  - destruct (Z.ltb_spec r 0) as [Hneg | _]; [lia |].
    rewrite round_pos_eq by lia. rewrite <- Er.
    apply int_round_pos; try lia.
    left. destruct Hsmall as [Hs53 | ->].
    + pose proof (Z.mod_le N (D * k) Hnonneg ltac:(nia)). fold r in H. lia.
    + change (2 ^ 0) with 1 in ED. rewrite ED in Hr.
      pose proof (Z.pow_le_mono_r 2 12 53 ltac:(lia) ltac:(lia)) as Hp.
      change (2 ^ 12) with 4096 in Hp. lia.
Qed.

(** From 60 seconds on the denominator is at most [2^52]. *)
Lemma Float_denominator :
  pynum.ltb (pynum.Float m e) 60 = false ->
  exists s, 0 <= s <= 52
    /\ snd (pynum.fraction m e) = 2 ^ s
    /\ (fst (pynum.fraction m e) < 2 ^ 53 \/ s = 0).
Proof.
  intros H60. unfold pynum.ltb in H60. apply Z.ltb_ge in H60.
  pose proof Float_numerator as Hnonneg.
  destruct (fraction_spec m e Hvalid) as (s & Hs & ED & Hsmall).
  set (N := fst (pynum.fraction m e)) in *.
  set (D := snd (pynum.fraction m e)) in *.
  exists s. split; [| split; [exact ED |]].
  - destruct Hsmall as [Hs53 | ->]; [| lia].
    assert (0 < 2 ^ s) by (apply Z.pow_pos_nonneg; lia).
    assert (Hlt : 2 ^ s < 2 ^ 53) by lia.
    apply pow2_lt_inv in Hlt; lia.
  - destruct Hsmall as [Hs53 | ->]; [left; lia | right; reflexivity].
Qed.

(** [int((x % 3600) / 60)]: the remainder is exact, and truncating its
    rounded sixtieth gives the floor. *)
Lemma Float_mod_truediv :
  pynum.ltb (pynum.Float m e) 60 = false ->
  exists q,
    pynum.truediv (pynum.mod_ (pynum.Float m e) 3600) 60 = Some q
    /\ pynum.int q = (Spec.floor (pynum.Float m e) mod 3600) / 60.
Proof.
  intros H60. pose proof Float_numerator as Hnonneg.
  destruct (Float_denominator H60) as (s & Hs & ED & Hsmall).
  unfold pynum.mod_, Spec.floor.
  set (N := fst (pynum.fraction m e)) in *.
  set (D := snd (pynum.fraction m e)) in *.
  assert (HD : 0 < D) by (rewrite ED; apply Z.pow_pos_nonneg; lia).
  rewrite Z.rem_mod_nonneg by nia.
  pose proof (Z.mod_pos_bound N (D * 3600) ltac:(nia)) as Hr.
  assert (Er : N mod (D * 3600) / D = (N / D) mod 3600).
  { rewrite Z.rem_mul_r by lia.
    rewrite Z.mul_comm, Z.div_add by lia.
    rewrite (Z.div_small (N mod D) D) by (apply Z.mod_pos_bound; lia). lia. }
  set (r := N mod (D * 3600)) in *.
  destruct (Z.eqb_spec r 0) as [E0 | Hne].
  - exists (pynum.Float 0 0). split; [reflexivity |].
    rewrite <- Er, E0. reflexivity.
  - destruct (Z.ltb_spec r 0) as [Hneg | _]; [lia |].
    rewrite <- Er. rewrite round_pos_eq by lia. rewrite ED.
    assert (Hr53 : 0 < r < 2 ^ 53).
    { split; [lia |]. destruct Hsmall as [Hs53 | ->].
      - pose proof (Z.mod_le N (D * 3600) Hnonneg ltac:(nia)). fold r in H. lia.
      - change (2 ^ 0) with 1 in ED. rewrite ED in Hr.
        pose proof (Z.pow_le_mono_r 2 12 53 ltac:(lia) ltac:(lia)) as Hp.
        change (2 ^ 12) with 4096 in Hp. lia. }
    destruct (round_pos_exact r s Hr53 ltac:(lia)) as (He' & Em' & Hm').
    set (m' := fst (pynum.round_pos r (2 ^ s))) in *.
    set (e' := snd (pynum.round_pos r (2 ^ s))) in *.
    unfold pynum.truediv. rewrite (fraction_round_pos m' e') by lia.
    cbn [fst snd]. rewrite round_pos_eq by lia.
    eexists. split; [reflexivity |].
    assert (HQ : 0 < 2 ^ (- e' - s)) by (apply Z.pow_pos_nonneg; lia).
    assert (EP : 2 ^ (- e') = 2 ^ (- e' - s) * 2 ^ s) by (apply pow2_split; lia).
    assert (HP : 0 < 2 ^ s) by (apply Z.pow_pos_nonneg; lia).
    rewrite int_round_pos; try lia.
    + rewrite Z.div_div by lia.
      rewrite Em', EP.
      replace (2 ^ (- e' - s) * 2 ^ s * 60) with (2 ^ s * 60 * 2 ^ (- e' - s)) by lia.
      apply Z.div_mul_cancel_r; lia.
    + pose proof (Z.pow_le_mono_r 2 (- e') 104 ltac:(lia) ltac:(lia)) as Hp.
      assert (E : 2 ^ 1075 = 2 ^ 971 * 2 ^ 104)
        by exact (pow2_split 1075 104 ltac:(lia)).
      assert (64 <= 2 ^ 971).
      { pose proof (Z.pow_le_mono_r 2 6 971 ltac:(lia) ltac:(lia)) as Hp'.
        change (2 ^ 6) with 64 in Hp'. exact Hp'. }
      assert (0 < 2 ^ 104) by (apply Z.pow_pos_nonneg; lia). nia.
Qed.

(** [int(x / 3600)] below [3600 * 2^42] seconds. *)
Lemma Float_truediv :
  pynum.ltb (pynum.Float m e) 60 = false ->
  pynum.ltb (pynum.Float m e) (3600 * 2 ^ 42) = true ->
  exists q,
    pynum.truediv (pynum.Float m e) 3600 = Some q
    /\ pynum.int q = Spec.floor (pynum.Float m e) / 3600.
Proof.
  intros H60 Hbound.
  destruct (Float_denominator H60) as (s & Hs & ED & Hsmall).
  unfold pynum.ltb in H60, Hbound.
  apply Z.ltb_ge in H60. apply Z.ltb_lt in Hbound.
  unfold pynum.truediv, Spec.floor.
  set (N := fst (pynum.fraction m e)) in *.
  set (D := snd (pynum.fraction m e)) in *.
  assert (HD : 0 < D) by (rewrite ED; apply Z.pow_pos_nonneg; lia).
  rewrite round_pos_eq by lia.
  eexists. split; [reflexivity |].
  rewrite Z.div_div by lia.
  apply int_round_pos; try lia.
  - pose proof (Z.pow_le_mono_r 2 s 52 ltac:(lia) ltac:(lia)) as Hp.
    assert (E : 2 ^ 1075 = 2 ^ 1023 * 2 ^ 52)
      by exact (pow2_split 1075 52 ltac:(lia)).
    assert (4096 <= 2 ^ 1023).
    { pose proof (Z.pow_le_mono_r 2 12 1023 ltac:(lia) ltac:(lia)) as Hp'.
      change (2 ^ 12) with 4096 in Hp'. exact Hp'. }
    assert (0 < 2 ^ 52) by (apply Z.pow_pos_nonneg; lia). nia.
  - destruct Hsmall as [Hs53 | ->]; [left; exact Hs53 | right].
    change (2 ^ 0) with 1 in ED. rewrite ED. lia.
Qed.

End FloatQuotients.

(** ** The report *)

(** The report, given what its comparisons and quotients come to. *)
Lemma report_elapsed_time_from (x : pynum.t) (t : Z) :
  pynum.ltb x 60 = (t <? 60) -> pynum.ltb x 3600 = (t <? 3600) ->
  pynum.int (pynum.mod_ x 60) = t mod 60 ->
  (60 <= t -> exists q, pynum.truediv (pynum.mod_ x 3600) 60 = Some q
                        /\ pynum.int q = (t mod 3600) / 60) ->
  (3600 <= t -> exists q, pynum.truediv x 3600 = Some q
                          /\ pynum.int q = t / 3600) ->
  Timer.report_elapsed_time x = Timer.Text (Spec.elapsed t).
Proof.
  intros H60 H3600 Hs Hm Hh.
  unfold Timer.report_elapsed_time, Spec.elapsed, Spec.phrase, Spec.singular.
  rewrite H60, H3600, Hs.
  destruct (Z.ltb_spec t 60) as [T60 | T60].
  - destruct (t mod 60 =? 1); reflexivity.
  - destruct (Hm T60) as (q & -> & ->).
    destruct (Z.ltb_spec t 3600) as [T3600 | T3600].
    + destruct (t mod 60 =? 1), ((t mod 3600) / 60 =? 1); reflexivity.
    + destruct (Hh T3600) as (q' & -> & ->).
      destruct (t mod 60 =? 1), ((t mod 3600) / 60 =? 1), (t / 3600 =? 1);
        reflexivity.
Qed.

(** Below [3600 * 2^42] seconds the report of an elapsed time that is not
    negative, an int or a float, is the three-tier phrase of its whole
    seconds. *)
Lemma report_elapsed_time_whole (x : pynum.t) :
  pynum.valid x = true ->
  pynum.ltb x 0 = false -> pynum.ltb x (3600 * 2 ^ 42) = true ->
  Timer.report_elapsed_time x = Timer.Text (Spec.elapsed (Spec.floor x)).
Proof.
  intros Hvalid Hpos Hbound.
  apply report_elapsed_time_from; try apply ltb_floor.
  - destruct x as [n | m e]; [reflexivity |].
    apply Float_mod_int; [exact Hvalid | exact Hpos | lia].
  - intros H60. destruct x as [n | m e].
    + cbn [Spec.floor] in *. cbn [pynum.mod_].
      pose proof (Z.mod_pos_bound n 3600 ltac:(lia)).
      apply Int_truediv; lia.
    + apply Float_mod_truediv; [exact Hvalid | exact Hpos |].
      rewrite ltb_floor. apply Z.ltb_ge. exact H60.
  - intros H3600. destruct x as [n | m e].
    + cbn [Spec.floor pynum.ltb] in *. apply Z.ltb_lt in Hbound.
      apply Int_truediv; lia.
    + apply Float_truediv; [exact Hvalid | exact Hpos | | exact Hbound].
      rewrite ltb_floor. apply Z.ltb_ge. lia.
Qed.

(** C6, as stated, fails: from [3600 * 2^42] seconds on the hours are not
    always the floor of [t / 3600].  The quotient is taken in floating
    point and rounded to 53 bits before it is truncated: of
    15832967439977999 seconds, one second short of 4398046511105 hours,
    the report makes 4398046511105 hours, 59 minutes and 59 seconds.  Nor
    is there a report for every int: of [3600 * 2^1024] seconds the
    quotient is too large for a float, and the division raises. *)
Lemma C6_hours_rounded_up :
  Timer.report_elapsed_time (pynum.Int 15832967439977999)
  = Timer.Text "4398046511105 hours 59 minutes 59 seconds"
  /\ 15832967439977999 / 3600 = 4398046511104
  /\ ~ Spec.elapsed_reported 15832967439977999
  /\ Timer.report_elapsed_time (pynum.Int (3600 * 2 ^ 1024))
     = Timer.OverflowError.
Proof.
  split; [vm_compute; reflexivity |]. split; [reflexivity |].
  split; [| vm_compute; reflexivity].
  unfold Spec.elapsed_reported. intros Heq.
  vm_compute in Heq. discriminate Heq.
Qed.

(** C6, amended: for every elapsed time from 0 to below [3600 * 2^42]
    seconds (some 500 million years), an int or a float, the report is the
    three-tier phrase of the whole seconds [t = floor(x)]: seconds alone
    below 60 (and then the value is [t] itself); minutes and seconds below
    3600, with [m = floor((t mod 3600)/60)] and [s = floor(t mod 60)];
    hours, minutes and seconds from 3600 on, with [h = floor(t/3600)]; and
    a unit phrase is the singular one exactly when its value is 1. *)
Theorem C6_report_elapsed_time (x : pynum.t) :
  pynum.valid x = true ->
  pynum.ltb x 0 = false -> pynum.ltb x (3600 * 2 ^ 42) = true ->
  Timer.report_elapsed_time x = Timer.Text (Spec.elapsed (Spec.floor x))
  /\ (Spec.floor x < 60 ->
      Timer.report_elapsed_time x
      = Timer.Text (Spec.phrase (Spec.floor x) "second"))
  /\ (60 <= Spec.floor x < 3600 ->
      Timer.report_elapsed_time x
      = Timer.Text (Spec.phrase ((Spec.floor x mod 3600) / 60) "minute" +:+ " "
                    +:+ Spec.phrase (Spec.floor x mod 60) "second"))
  /\ (3600 <= Spec.floor x ->
      Timer.report_elapsed_time x
      = Timer.Text (Spec.phrase (Spec.floor x / 3600) "hour" +:+ " "
                    +:+ Spec.phrase ((Spec.floor x mod 3600) / 60) "minute" +:+ " "
                    +:+ Spec.phrase (Spec.floor x mod 60) "second"))
  /\ (forall (value : Z) (unit_name : string),
        Spec.phrase value unit_name = Spec.singular unit_name <-> value = 1).
Proof.
  intros Hvalid Hpos Hbound.
  pose proof (report_elapsed_time_whole x Hvalid Hpos Hbound) as Hcode.
  assert (Ht : 0 <= Spec.floor x).
  { rewrite ltb_floor in Hpos. now apply Z.ltb_ge in Hpos. }
  split; [exact Hcode |].
  split; [| split; [| split]].
  - intros Hlt. rewrite Hcode. unfold Spec.elapsed.
    apply Z.ltb_lt in Hlt as Hb. rewrite Hb.
    now rewrite (Z.mod_small (Spec.floor x) 60) by lia.
  - intros [Hlo Hhi]. rewrite Hcode. unfold Spec.elapsed.
    apply Z.ltb_ge in Hlo as Hb1. apply Z.ltb_lt in Hhi as Hb2.
    now rewrite Hb1, Hb2.
  - intros Hlo. rewrite Hcode. unfold Spec.elapsed.
    assert (Hb1 : (Spec.floor x <? 60) = false) by (apply Z.ltb_ge; lia).
    apply Z.ltb_ge in Hlo as Hb2. now rewrite Hb1, Hb2.
  - exact phrase_singular_iff.
Qed.

(** 3661.75 seconds, as a float. *)
Lemma C6_report_elapsed_time_witness :
  Timer.report_elapsed_time (pynum.Float 8052273406017536 (-41))
  = Timer.Text "1 hour 1 minute 1 second".
Proof.
  destruct (C6_report_elapsed_time (pynum.Float 8052273406017536 (-41)))
    as [Hcode _]; [reflexivity | reflexivity | reflexivity |].
  rewrite Hcode. reflexivity.
Defined.

(** ** [delete()] *)

Section Delete.
Context {W : Type} `{arcpy.Backend W}.

Lemma Table_delete_at (h : Table.t) (w : W) :
  Table.delete h w
  = Spec.delete_at (Table.full_name h)
      (Table.full_name h +:+ " cannot be deleted")
      ("Deleted: [" +:+ Table.full_name h +:+ "] ") w.
Proof.
  unfold Table.delete, Spec.delete_at, Table.exists_, arcpy.Exists,
    arcpy.Delete_management, output_msg, bind, emit, ret.
  cbn [log std_out].
  destruct (arcpy.catalog_exists (Table.full_name h) w); [| reflexivity].
  destruct (arcpy.catalog_exists (Table.full_name h)
              (arcpy.catalog_delete (Table.full_name h) w)); reflexivity.
Qed.

Lemma Raster_delete_at (h : Raster.t) (w : W) :
  Raster.delete h w
  = Spec.delete_at (Raster.full_name h)
      ("Raster " +:+ Raster.full_name h +:+ " cannot be deleted")
      ("Deleted: [" +:+ Raster.full_name h +:+ "] ") w.
Proof.
  unfold Raster.delete, Spec.delete_at, Raster.exists_, arcpy.Exists,
    arcpy.Delete_management, output_msg, bind, emit, ret.
  cbn [log std_out].
  destruct (arcpy.catalog_exists (Raster.full_name h) w); [| reflexivity].
  destruct (arcpy.catalog_exists (Raster.full_name h)
              (arcpy.catalog_delete (Raster.full_name h) w)); reflexivity.
Qed.

Lemma MosaicDataset_delete_at (h : MosaicDataset.t) (w : W) :
  MosaicDataset.delete h w
  = Spec.delete_at (MosaicDataset.full_name h)
      ("Mosaic " +:+ MosaicDataset.full_name h +:+ " cannot be deleted")
      ("Deleted mosaic dataset: [" +:+ MosaicDataset.full_name h +:+ "] ") w.
Proof.
  unfold MosaicDataset.delete, Spec.delete_at, MosaicDataset.exists_,
    arcpy.Exists, arcpy.Delete_management, output_msg, bind, emit, ret.
  cbn [log std_out].
  destruct (arcpy.catalog_exists (MosaicDataset.full_name h) w); [| reflexivity].
  destruct (arcpy.catalog_exists (MosaicDataset.full_name h)
              (arcpy.catalog_delete (MosaicDataset.full_name h) w)); reflexivity.
Qed.

(** [delete()] always returns a boolean. *)
Lemma delete_at_returns (p failure success : string) (w : W) :
  exists b, fst (fst (Spec.delete_at p failure success w)) = Returns b.
Proof.
  unfold Spec.delete_at.
  destruct (arcpy.catalog_exists p w);
    [destruct (arcpy.catalog_exists p (arcpy.catalog_delete p w)) |];
    eexists; reflexivity.
Qed.

(** Success means the path is gone from the store it leaves. *)
Lemma delete_at_success (p failure success : string) (w w1 : W)
    (t1 : list event) :
  Spec.delete_at p failure success w = (Returns true, w1, t1) ->
  arcpy.catalog_exists p w1 = false.
Proof.
  unfold Spec.delete_at.
  destruct (arcpy.catalog_exists p w) eqn:E1.
  - destruct (arcpy.catalog_exists p (arcpy.catalog_delete p w)) eqn:E2;
      intros Heq; inversion Heq; subst; exact E2.
  - intros Heq. inversion Heq; subst. exact E1.
Qed.

(** Failure means the path is still there. *)
Lemma delete_at_failure (p failure success : string) (w w1 : W)
    (t1 : list event) :
  Spec.delete_at p failure success w = (Returns false, w1, t1) ->
  arcpy.catalog_exists p w1 = true /\ In (AddError failure) t1.
Proof.
  unfold Spec.delete_at.
  destruct (arcpy.catalog_exists p w) eqn:E1.
  - destruct (arcpy.catalog_exists p (arcpy.catalog_delete p w)) eqn:E2;
      intros Heq; inversion Heq; subst.
    split; [exact E2 | simpl; tauto].
  - intros Heq. inversion Heq.
Qed.

(** Where the path is absent, [delete()] asks and does nothing else. *)
Lemma delete_at_absent (p failure success : string) (w : W) :
  arcpy.catalog_exists p w = false ->
  Spec.delete_at p failure success w = (Returns true, w, [Call "Exists" [p]]).
Proof. intros E. unfold Spec.delete_at. now rewrite E. Qed.

Lemma delete_at_again (p failure success : string) (w w1 : W)
    (t1 : list event) :
  Spec.delete_at p failure success w = (Returns true, w1, t1) ->
  Spec.delete_at p failure success w1 = (Returns true, w1, [Call "Exists" [p]]).
Proof.
  intros Hfirst. apply delete_at_absent.
  exact (delete_at_success p failure success w w1 t1 Hfirst).
Qed.

End Delete.

(** C3, as stated, fails: on an item the store refuses to delete,
    [delete()] returns failure, the first time and the second. *)
Lemma C3_delete_twice_on_undeletable :
  ~ Spec.delete_twice_succeeds
      (Table.delete {| Table.geodatabase_name := "gdb"; Table.table_name := "t";
                       Table.full_name := "gdb/t"; Table.temp_table := false |})
      (Workspace.stuck "gdb/t").
Proof.
  intros (w1 & t1 & t2 & Hfirst & _).
  vm_compute in Hfirst. discriminate Hfirst.
Qed.

(** C3, amended: [delete()] never raises.  If the resource at the resolved
    full path does not exist it returns success and requests no deletion;
    if it exists it requests the deletion and checks again, returning
    failure with an error message if the resource is still there and
    success with an informational message otherwise (the same for tables,
    rasters and mosaic datasets, each with its own messages).  Whenever a
    call returns success, the next call returns success too, requests no
    deletion, emits no message and leaves the store unchanged. *)
Theorem C3_delete_contract {W : Type} `{arcpy.Backend W}
    (table : Table.t) (raster : Raster.t) (mosaic : MosaicDataset.t) (w : W) :
  Table.delete table w
  = Spec.delete_at (Table.full_name table)
      (Table.full_name table +:+ " cannot be deleted")
      ("Deleted: [" +:+ Table.full_name table +:+ "] ") w
  /\ Raster.delete raster w
     = Spec.delete_at (Raster.full_name raster)
         ("Raster " +:+ Raster.full_name raster +:+ " cannot be deleted")
         ("Deleted: [" +:+ Raster.full_name raster +:+ "] ") w
  /\ MosaicDataset.delete mosaic w
     = Spec.delete_at (MosaicDataset.full_name mosaic)
         ("Mosaic " +:+ MosaicDataset.full_name mosaic +:+ " cannot be deleted")
         ("Deleted mosaic dataset: [" +:+ MosaicDataset.full_name mosaic +:+ "] ") w
  /\ (forall w1 t1,
        Table.delete table w = (Returns true, w1, t1) ->
        Table.delete table w1
        = (Returns true, w1, [Call "Exists" [Table.full_name table]]))
  /\ (forall w1 t1,
        Raster.delete raster w = (Returns true, w1, t1) ->
        Raster.delete raster w1
        = (Returns true, w1, [Call "Exists" [Raster.full_name raster]]))
  /\ (forall w1 t1,
        MosaicDataset.delete mosaic w = (Returns true, w1, t1) ->
        MosaicDataset.delete mosaic w1
        = (Returns true, w1, [Call "Exists" [MosaicDataset.full_name mosaic]])).
Proof.
  split; [apply Table_delete_at |].
  split; [apply Raster_delete_at |].
  split; [apply MosaicDataset_delete_at |].
  split; [| split]; intros w1 t1 Hfirst.
  - rewrite Table_delete_at in Hfirst. rewrite Table_delete_at.
    exact (delete_at_again _ _ _ w w1 t1 Hfirst).
  - rewrite Raster_delete_at in Hfirst. rewrite Raster_delete_at.
    exact (delete_at_again _ _ _ w w1 t1 Hfirst).
  - rewrite MosaicDataset_delete_at in Hfirst. rewrite MosaicDataset_delete_at.
    exact (delete_at_again _ _ _ w w1 t1 Hfirst).
Qed.

Lemma C3_delete_contract_witness :
  let table := {| Table.geodatabase_name := "gdb"; Table.table_name := "t";
                  Table.full_name := "gdb/t"; Table.temp_table := false |} in
  Table.delete table (Workspace.holding "gdb/t")
  = (Returns true, Workspace.empty,
     [Call "Exists" ["gdb/t"]; Call "Delete_management" ["gdb/t"];
      Call "Exists" ["gdb/t"]; AddMessage "Deleted: [gdb/t] "; PrintGetMessages])
  /\ Table.delete table Workspace.empty
     = (Returns true, Workspace.empty, [Call "Exists" ["gdb/t"]]).
Proof.
  intros table.
  assert (Hfirst : Table.delete table (Workspace.holding "gdb/t")
                   = (Returns true, Workspace.empty,
                      [Call "Exists" ["gdb/t"]; Call "Delete_management" ["gdb/t"];
                       Call "Exists" ["gdb/t"]; AddMessage "Deleted: [gdb/t] ";
                       PrintGetMessages])) by (vm_compute; reflexivity).
  split; [exact Hfirst |].
  destruct (C3_delete_contract table
              {| Raster.geodatabase_name := "scratch"; Raster.raster_name := "r";
                 Raster.full_name := "scratch/r"; Raster.temp_raster := false |}
              Workspace.mosaic (Workspace.holding "gdb/t"))
    as (_ & _ & _ & Hagain & _).
  exact (Hagain _ _ Hfirst).
Defined.

(** ** Scope exit *)

Section ScopeExit.
Context {W : Type} `{arcpy.Backend W}.

(** Dropping the result of a [delete()] that behaves as [delete_at]. *)
Lemma drop_delete_at (p failure success : string) (w : W) :
  (exec (Spec.delete_at p failure success : Py W bool); ret tt) w
  = (Returns tt, snd (fst (Spec.delete_at p failure success w)),
     snd (Spec.delete_at p failure success w)).
Proof.
  unfold bind, ret, Spec.delete_at.
  destruct (arcpy.catalog_exists p w);
    [destruct (arcpy.catalog_exists p (arcpy.catalog_delete p w)) |];
    reflexivity.
Qed.

Lemma delete_at_asks_first (p failure success : string) (w : W) :
  In (Call "Exists" [p]) (snd (Spec.delete_at p failure success w)).
Proof.
  unfold Spec.delete_at.
  destruct (arcpy.catalog_exists p w);
    [destruct (arcpy.catalog_exists p (arcpy.catalog_delete p w)) |];
    simpl; tauto.
Qed.

Lemma delete_at_honoured (p failure success : string) (w : W) :
  arcpy.catalog_exists p (arcpy.catalog_delete p w) = false ->
  arcpy.catalog_exists p (snd (fst (Spec.delete_at p failure success w))) = false.
Proof.
  intros Hgone. unfold Spec.delete_at.
  destruct (arcpy.catalog_exists p w) eqn:E1; [rewrite Hgone; exact Hgone |].
  exact E1.
Qed.

(** A kind whose [delete()] behaves as [delete_at] and whose exit paths
    both read "if temporary: delete" meets the contract. *)
Lemma scope_exit_contract_intro {T : Type} (k : Scoped W T)
    (failure success : T -> string) :
  (forall h w, do_delete k h w
               = Spec.delete_at (resolved_path k h) (failure h) (success h) w) ->
  (forall h, on_exit k h
             = if is_temporary k h then (exec do_delete k h; ret tt) else ret tt) ->
  (forall h, on_del k h
             = if is_temporary k h then (exec do_delete k h; ret tt) else ret tt) ->
  scope_exit_contract k.
Proof.
  intros Hdelete Hexit Hdel.
  assert (Hleave : forall leave, leave = on_exit k \/ leave = on_del k ->
            forall h w,
              leave h w
              = if is_temporary k h
                then (Returns tt,
                      snd (fst (Spec.delete_at (resolved_path k h) (failure h)
                                  (success h) w)),
                      snd (Spec.delete_at (resolved_path k h) (failure h)
                             (success h) w))
                else (Returns tt, w, [])).
  { intros leave Hl h w.
    assert (Hshape : leave h
                     = if is_temporary k h then (exec do_delete k h; ret tt)
                       else ret tt)
      by (destruct Hl as [-> | ->]; [apply Hexit | apply Hdel]).
    rewrite Hshape. destruct (is_temporary k h); [| reflexivity].
    rewrite <- drop_delete_at. unfold bind. now rewrite Hdelete. }
  intros leave Hl h w. rewrite (Hleave leave Hl h w).
  destruct (is_temporary k h) eqn:Htemp; cbn [fst snd].
  - split; [discriminate |].
    split.
    { intros _. rewrite Hdelete.
      destruct (delete_at_returns (resolved_path k h) (failure h) (success h) w)
        as [b Hb].
      exists b. split; [| reflexivity].
      destruct (Spec.delete_at (resolved_path k h) (failure h) (success h) w)
        as [[r w1] t1].
      cbn [fst snd] in *. now rewrite Hb. }
    split; [split; [reflexivity | intros _; apply delete_at_asks_first] |].
    split; [intros _; apply delete_at_honoured |].
    intros _ Hgone again Ha.
    rewrite (Hleave again Ha h _), Htemp.
    now rewrite (delete_at_absent _ _ _ _ Hgone).
  - split; [reflexivity |].
    split; [discriminate |].
    split; [split; [intros [] | discriminate] |].
    split; discriminate.
Qed.

End ScopeExit.




(** ** Construction of temporary resources *)

Section Construction.
Context {W : Type} `{arcpy.Backend W}.

(** A temporary [Table] (and so a temporary [FeatureClass]) is either
    refused with [ExecuteError], exactly when its [delete()] fails, or
    handed out with nothing at its path. *)
Lemma Table_init_temporary (locator : string) (explicit_name : option string)
    (w : W) :
  let r := Table.__init__ locator explicit_name true w in
  (exists h, fst (fst r) = Returns h
             /\ Table.temp_table h = true
             /\ arcpy.catalog_exists (Table.full_name h) (snd (fst r)) = false)
  \/ (fst (fst r) = Raises ExecuteError
      /\ exists p, arcpy.catalog_exists p (snd (fst r)) = true
                   /\ In (AddError (p +:+ " cannot be deleted")) (snd r)).
Proof.
  cbv zeta.
  remember (Table.__init__ locator explicit_name true w) as res eqn:Hres.
  unfold Table.__init__, arcpy.env_scratchGDB in Hres.
  unfold bind at 1 in Hres. cbn iota in Hres. unfold bind at 1 in Hres.
  rewrite initialize_names_temporary in Hres.
  destruct (decode_names (arcpy.unique_name _ _ w) None) as [[g n] f].
  cbn iota beta in Hres. unfold bind in Hres. rewrite Table_delete_at in Hres.
  set (h := {| Table.geodatabase_name := g; Table.table_name := n;
               Table.full_name := f; Table.temp_table := true |}) in *.
  destruct (Spec.delete_at (Table.full_name h)
              (Table.full_name h +:+ " cannot be deleted")
              ("Deleted: [" +:+ Table.full_name h +:+ "] ") w)
    as [[r w1] t1] eqn:Hd.
  destruct (delete_at_returns (Table.full_name h)
              (Table.full_name h +:+ " cannot be deleted")
              ("Deleted: [" +:+ Table.full_name h +:+ "] ") w) as [b Hb].
  rewrite Hd in Hb. cbn [fst] in Hb. subst r. destruct b; subst res.
  - left. exists h. cbn [fst snd ret]. repeat split.
    exact (delete_at_success _ _ _ _ _ _ Hd).
  - right. cbn [fst snd raise]. split; [reflexivity |].
    exists (Table.full_name h).
    destruct (delete_at_failure _ _ _ _ _ _ Hd) as [Hstill Herr].
    split; [exact Hstill |].
    cbn [app]. right. apply in_or_app. left. exact Herr.
Qed.

(** The same for a temporary [MosaicDataset]. *)
Lemma MosaicDataset_init_temporary (locator : string)
    (explicit_name : option string) (w : W) :
  let r := MosaicDataset.__init__ locator explicit_name true w in
  (exists h, fst (fst r) = Returns h
             /\ MosaicDataset.temp_mosaic h = true
             /\ arcpy.catalog_exists (MosaicDataset.full_name h) (snd (fst r))
                = false)
  \/ (fst (fst r) = Raises ExecuteError
      /\ exists p, arcpy.catalog_exists p (snd (fst r)) = true
                   /\ In (AddError ("Mosaic " +:+ p +:+ " cannot be deleted"))
                        (snd r)).
Proof.
  cbv zeta.
  remember (MosaicDataset.__init__ locator explicit_name true w) as res eqn:Hres.
  unfold MosaicDataset.__init__, arcpy.env_scratchGDB in Hres.
  unfold bind at 1 in Hres. cbn iota in Hres. unfold bind at 1 in Hres.
  rewrite initialize_names_temporary in Hres.
  destruct (decode_names (arcpy.unique_name _ _ w) None) as [[g n] f].
  cbn iota beta in Hres. unfold bind in Hres. rewrite MosaicDataset_delete_at in Hres.
  set (h := {| MosaicDataset.temp_mosaic := true;
               MosaicDataset.mosaic_layer := None;
               MosaicDataset.geodatabase_name := g;
               MosaicDataset.mosaic_name := n; MosaicDataset.full_name := f |}) in *.
  destruct (Spec.delete_at (MosaicDataset.full_name h)
              ("Mosaic " +:+ MosaicDataset.full_name h +:+ " cannot be deleted")
              ("Deleted mosaic dataset: [" +:+ MosaicDataset.full_name h +:+ "] ")
              w)
    as [[r w1] t1] eqn:Hd.
  destruct (delete_at_returns (MosaicDataset.full_name h)
              ("Mosaic " +:+ MosaicDataset.full_name h +:+ " cannot be deleted")
              ("Deleted mosaic dataset: [" +:+ MosaicDataset.full_name h +:+ "] ")
              w) as [b Hb].
  rewrite Hd in Hb. cbn [fst] in Hb. subst r. destruct b; subst res.
  - left. exists h. cbn [fst snd ret]. repeat split.
    exact (delete_at_success _ _ _ _ _ _ Hd).
  - right. cbn [fst snd raise]. split; [reflexivity |].
    exists (MosaicDataset.full_name h).
    destruct (delete_at_failure _ _ _ _ _ _ Hd) as [Hstill Herr].
    split; [exact Hstill |].
    cbn [app]. right. apply in_or_app. left. exact Herr.
Qed.

(** A temporary [Raster] is always handed out: the result of its
    [delete()] is not looked at. *)
Lemma Raster_init_temporary_returns (locator : string)
    (explicit_name : option string) (w : W) :
  exists h, fst (fst (Raster.__init__ locator explicit_name true w)) = Returns h
            /\ Raster.temp_raster h = true.
Proof.
  remember (Raster.__init__ locator explicit_name true w) as res eqn:Hres.
  unfold Raster.__init__, arcpy.env_scratchFolder in Hres.
  unfold bind at 1 in Hres. cbn iota in Hres. unfold bind at 1 in Hres.
  rewrite initialize_names_temporary in Hres.
  destruct (decode_names (arcpy.unique_name _ _ w) None) as [[g n] f].
  cbn iota beta in Hres. unfold bind in Hres. rewrite Raster_delete_at in Hres.
  set (h := {| Raster.geodatabase_name := g; Raster.raster_name := n;
               Raster.full_name := f; Raster.temp_raster := true |}) in *.
  destruct (Spec.delete_at (Raster.full_name h)
              ("Raster " +:+ Raster.full_name h +:+ " cannot be deleted")
              ("Deleted: [" +:+ Raster.full_name h +:+ "] ") w)
    as [[r w1] t1] eqn:Hd.
  destruct (delete_at_returns (Raster.full_name h)
              ("Raster " +:+ Raster.full_name h +:+ " cannot be deleted")
              ("Deleted: [" +:+ Raster.full_name h +:+ "] ") w) as [b Hb].
  rewrite Hd in Hb. cbn [fst] in Hb. subst r. subst res.
  exists h. destruct b; split; reflexivity.
Qed.

End Construction.

(** C2, where the code departs from it: [TempRaster()] over a raster that
    exists at the resolved path and that the store refuses to delete.
    [delete()] reports the failure (it adds the error message and would
    return [False]), yet the constructor returns a handle, and the path
    still exists afterwards; [Table] and [MosaicDataset], in the same
    situation, raise [ExecuteError]. *)
Theorem C2_Raster_init_ignores_failed_delete :
  let w := Workspace.stuck "scratch/TempRaster" in
  let h := {| Raster.geodatabase_name := "scratch";
              Raster.raster_name := "TempRaster";
              Raster.full_name := "scratch/TempRaster";
              Raster.temp_raster := true |} in
  arcpy.catalog_exists "scratch/TempRaster" w = true
  /\ TempRaster.__init__ None w
     = (Returns h, w,
        [Call "CreateUniqueName" ["TempRaster"; "scratch"];
         Call "Exists" ["scratch/TempRaster"];
         Call "Delete_management" ["scratch/TempRaster"];
         Call "Exists" ["scratch/TempRaster"];
         AddError "Raster scratch/TempRaster cannot be deleted"])
  /\ fst (fst (Raster.delete h w)) = Returns false
  /\ fst (fst (TempTable.__init__ None (Workspace.stuck "scratch.gdb/TempTable")))
     = Raises ExecuteError
  /\ fst (fst (TempMosaicDataset.__init__ None
                 (Workspace.stuck "scratch.gdb/TempMosaic")))
     = Raises ExecuteError.
Proof. vm_compute. repeat split; reflexivity. Qed.

(** ** Robust overview build *)

Section Overviews.
Context {W : Type} `{arcpy.Backend W}.

(** The class body leaves [build_overviews] bound to its second [def]. *)
Lemma build_overviews_is_second_def (self : MosaicDataset.t) :
  MosaicDataset.build_overviews (W := W) self
  = MosaicDataset.build_overviews_def2 self.
Proof. reflexivity. Qed.

(** That one builds once and returns [None]. *)
Lemma build_overviews_returns_None (self : MosaicDataset.t) (w : W) :
  MosaicDataset.build_overviews self w
  = (Returns (self, VNone),
     arcpy.build_overviews_tool (MosaicDataset.full_name self) w,
     [Call "BuildOverviews_management" [MosaicDataset.full_name self];
      AddMessage ("Built overviews on mosaic dataset "
                  +:+ MosaicDataset.full_name self);
      PrintGetMessages]).
Proof. reflexivity. Qed.

(** The loop runs to its end on any budget of at least
    [max_retries - retry_count]: it is a total function of its inputs,
    and the budget chosen by [build_overviews_robust] is enough. *)
Lemma retry_loop_budget (build : MosaicDataset.t -> Py W (MosaicDataset.t * value))
    (max_retries : Z) (n : nat) :
  forall (m : nat) (self : MosaicDataset.t) (unbuilt : value) (retry_count : Z)
         (w : W),
    (Z.to_nat (max_retries - retry_count) <= n)%nat ->
    (Z.to_nat (max_retries - retry_count) <= m)%nat ->
    MosaicDataset.retry_loop n build max_retries self unbuilt retry_count w
    = MosaicDataset.retry_loop m build max_retries self unbuilt retry_count w.
Proof.
  induction n as [|n IH]; intros m self unbuilt retry_count w Hn Hm;
    (destruct unbuilt as [|x]; [destruct m; reflexivity |]).
  - destruct m as [|m]; [reflexivity |].
    cbn [MosaicDataset.retry_loop gt]. rewrite !bind_ret_l.
    assert (Hstop : (retry_count <? max_retries) = false)
      by (apply Z.ltb_ge; lia).
    now rewrite Hstop, andb_false_r.
  - destruct m as [|m].
    + cbn [MosaicDataset.retry_loop gt]. rewrite !bind_ret_l.
      assert (Hstop : (retry_count <? max_retries) = false)
        by (apply Z.ltb_ge; lia).
      now rewrite Hstop, andb_false_r.
    + cbn [MosaicDataset.retry_loop gt]. rewrite !bind_ret_l.
      destruct ((0 <? x) && (retry_count <? max_retries)) eqn:Hgo;
        [| reflexivity].
      apply andb_true_iff in Hgo as [_ Hlt]. apply Z.ltb_lt in Hlt.
      apply bind_ext. intros _ w1. apply bind_ext. intros r w2.
      apply IH; lia.
Qed.

End Overviews.

(** With the first [def build_overviews], the one that counts, the loop
    does what the specification's scenarios say: counts [5, 2, 0] under
    [max_retries = 3] end normally after three builds, and counts
    [5, 3, 2] under [max_retries = 2] end in [ExecuteError] after two. *)
Lemma build_overviews_robust_with_first_def :
  (let r := MosaicDataset.build_overviews_robust_with
              MosaicDataset.build_overviews_def1 Workspace.mosaic 3
              (Workspace.building [5; 2; 0]) in
   fst (fst r) = Returns tt /\ Workspace.build_calls (snd r) = 3%nat)
  /\ (let r := MosaicDataset.build_overviews_robust_with
                 MosaicDataset.build_overviews_def1 Workspace.mosaic 2
                 (Workspace.building [5; 3; 2]) in
      fst (fst r) = Raises ExecuteError
      /\ Workspace.build_calls (snd r) = 2%nat
      /\ In (AddError "Overviews failed to build correctly. Exiting...") (snd r)).
Proof. vm_compute. repeat split; tauto. Qed.

(** C1, where the code departs from it: the class defines
    [build_overviews] twice and the call reaches the second definition,
    which returns [None], not a count.  So [build_overviews_robust] builds
    once and then raises [TypeError] at [unbuilt_overview_count > 0], for
    every handle, bound and store: with counts [5, 2, 0] and
    [max_retries = 3] it does not return normally after three builds, and
    with counts [5, 3, 2] and [max_retries = 2] it does not reach the
    exhaustion error. *)
Theorem C1_build_overviews_robust_raises_TypeError {W : Type} `{arcpy.Backend W}
    (self : MosaicDataset.t) (max_retries : Z) (w : W) :
  MosaicDataset.build_overviews_robust self max_retries w
  = (Raises (TypeError "'>' not supported between instances of 'NoneType' and 'int'"),
     arcpy.build_overviews_tool (MosaicDataset.full_name self) w,
     [Call "BuildOverviews_management" [MosaicDataset.full_name self];
      AddMessage ("Built overviews on mosaic dataset "
                  +:+ MosaicDataset.full_name self);
      PrintGetMessages])
  /\ (let r := MosaicDataset.build_overviews_robust Workspace.mosaic 3
                 (Workspace.building [5; 2; 0]) in
      fst (fst r) <> Returns tt /\ Workspace.build_calls (snd r) = 1%nat)
  /\ (let r := MosaicDataset.build_overviews_robust Workspace.mosaic 2
                 (Workspace.building [5; 3; 2]) in
      fst (fst r) <> Raises ExecuteError /\ Workspace.build_calls (snd r) = 1%nat).
Proof.
  split; [| split].
  - unfold MosaicDataset.build_overviews_robust,
      MosaicDataset.build_overviews_robust_with.
    unfold bind at 1. rewrite build_overviews_returns_None. cbn [fst snd].
    destruct (Z.to_nat (max_retries - 1)); reflexivity.
  - vm_compute. split; [discriminate | reflexivity].
  - vm_compute. split; [discriminate | reflexivity].
Qed.

(** ** Progressor *)

Section ProgressorFacts.
Context {W : Type}.

Lemma label_eqb_refl (l : option string) : Progressor.label_eqb l l = true.
Proof. destruct l; [apply String.eqb_refl | reflexivity]. Qed.

(** One call on a progressor: it returns, leaves the store alone, never
    takes back [initialized], and keeps a trace in order. *)
Lemma Progressor_step_spec (o : Progressor.op) (self : Progressor.t) (w : W) :
  exists self' tr,
    Progressor.step o self w = (Returns self', w, tr)
    /\ (Progressor.initialized self = true -> Progressor.initialized self' = true)
    /\ (forall tr2,
          Progressor.in_order (Progressor.initialized self') tr2 = true ->
          Progressor.in_order (Progressor.initialized self) (tr ++ tr2)%list = true).
Proof.
  destruct self as [ty lb lo hi st pos ini].
  destruct o as [| | lo' hi' st' | l | p |];
    cbv [Progressor.step Progressor.initialize Progressor.set_default_type
         Progressor.set_range Progressor.set_label Progressor.set_position
         Progressor.reset Progressor.SetProgressor Progressor.set_initialized
         Progressor.set_type Progressor.set_bounds Progressor.with_label
         Progressor.with_position Progressor.initialized Progressor.label
         Progressor.position Progressor.type Progressor.min_range
         Progressor.max_range Progressor.step_value bind emit ret negb].
  - destruct ini; eexists; eexists; (split; [reflexivity |]); split; auto.
  - destruct ini; eexists; eexists; (split; [reflexivity |]); split; auto.
  - destruct ini; eexists; eexists; (split; [reflexivity |]); split; auto.
  - destruct (Progressor.label_eqb lb l), ini;
      eexists; eexists; (split; [reflexivity |]); split; auto.
  - destruct (pos =? p), ini;
      eexists; eexists; (split; [reflexivity |]); split; auto.
  - destruct ini; eexists; eexists; (split; [reflexivity |]); split; auto.
Qed.

End ProgressorFacts.

(** X1: whatever sequence of [initialize], [set_default_type],
    [set_range], [set_label], [set_position] and [reset] calls is made on
    a progressor, no call raises, the store is left as it was,
    [initialized] once true stays true, and the toolkit never receives a
    label, position or reset call before a [SetProgressor] call has set
    the progressor up (a progressor that starts uninitialized included). *)
Theorem X1_Progressor_calls_in_order {W : Type} (ops : list Progressor.op)
    (self : Progressor.t) (w : W) :
  exists self' tr,
    Progressor.run ops self w = (Returns self', w, tr)
    /\ (Progressor.initialized self = true -> Progressor.initialized self' = true)
    /\ Progressor.in_order (Progressor.initialized self) tr = true.
Proof.
  revert self. induction ops as [|o rest IH]; intros self.
  - exists self, []. repeat split; auto.
  - destruct (Progressor_step_spec o self w) as (self1 & tr1 & Hstep & Hmono & Hord).
    destruct (IH self1) as (self2 & tr2 & Hrun & Hmono2 & Hord2).
    exists self2, (tr1 ++ tr2)%list.
    split; [| split].
    + cbn [Progressor.run]. unfold bind. now rewrite Hstep, Hrun.
    + intros Hini. apply Hmono2, Hmono, Hini.
    + apply Hord, Hord2.
Qed.

(** X2: repeating an update does nothing.  After [set_position(p)] a
    second [set_position(p)] makes no call and changes nothing, likewise
    for [set_label] and [initialize]; and since a new progressor stands at
    position 0, [set_position(0)] on it makes no call at all and leaves it
    uninitialized. *)
Theorem X2_Progressor_repeated_update {W : Type} (self : Progressor.t)
    (p : Z) (l : option string) (w : W) :
  (exists self1 tr,
     Progressor.set_position self p w = (Returns self1, w, tr)
     /\ Progressor.set_position self1 p w = (Returns self1, w, []))
  /\ (exists self1 tr,
        Progressor.set_label self l w = (Returns self1, w, tr)
        /\ Progressor.set_label self1 l w = (Returns self1, w, []))
  /\ (exists self1 tr,
        Progressor.initialize self w = (Returns self1, w, tr)
        /\ Progressor.initialize self1 w = (Returns self1, w, []))
  /\ (forall ty lb lo hi st,
        Progressor.set_position (Progressor.__init__ ty lb lo hi st) 0 w
        = (Returns (Progressor.__init__ ty lb lo hi st), w, [])).
Proof.
  destruct self as [ty lb lo hi st pos ini].
  split; [| split; [| split]].
  - unfold Progressor.set_position at 1. cbn [Progressor.position].
    destruct (pos =? p) eqn:E.
    + eexists; eexists. split; [reflexivity |].
      unfold Progressor.set_position. cbn [Progressor.position]. now rewrite E.
    + destruct ini; eexists; eexists; (split; [reflexivity |]);
        unfold Progressor.set_position; cbn [Progressor.position];
        now rewrite Z.eqb_refl.
  - unfold Progressor.set_label at 1. cbn [Progressor.label].
    destruct (Progressor.label_eqb lb l) eqn:E.
    + eexists; eexists. split; [reflexivity |].
      unfold Progressor.set_label. cbn [Progressor.label]. now rewrite E.
    + destruct ini; eexists; eexists; (split; [reflexivity |]);
        unfold Progressor.set_label; cbn [Progressor.label];
        now rewrite label_eqb_refl.
  - destruct ini; eexists; eexists; (split; reflexivity).
  - intros. reflexivity.
Qed.

(** ** Sanitizing with the table's own map *)

Lemma replace_list_lookup (ch : ascii) :
  Table.replace_list !! ch
  = if Ascii.eqb ch " " then Some "_"
    else if Ascii.eqb ch "." then Some "" else None.
Proof.
  unfold Table.replace_list.
  destruct (Ascii.eqb ch " ") eqn:E1.
  - apply Ascii.eqb_eq in E1. subst ch. apply lookup_insert_eq.
  - rewrite lookup_insert_ne
      by (intros Heq; subst ch; rewrite Ascii.eqb_refl in E1; discriminate).
    destruct (Ascii.eqb ch ".") eqn:E2.
    + apply Ascii.eqb_eq in E2. subst ch. apply lookup_insert_eq.
    + rewrite lookup_insert_ne
        by (intros Heq; subst ch; rewrite Ascii.eqb_refl in E2; discriminate).
      apply lookup_empty.
Qed.

Lemma sanitize_replace_list_cons (ch : ascii) (rest : string) :
  Spec.sanitize Table.replace_list (String ch rest)
  = if Ascii.eqb ch " " then String "_" (Spec.sanitize Table.replace_list rest)
    else if Ascii.eqb ch "." then Spec.sanitize Table.replace_list rest
    else String ch (Spec.sanitize Table.replace_list rest).
Proof.
  cbn [Spec.sanitize]. rewrite replace_list_lookup.
  destruct (Ascii.eqb ch " "); [reflexivity |].
  destruct (Ascii.eqb ch "."); reflexivity.
Qed.

(** X3: the method [Table.parse_table_name] (two chained [str.replace]
    calls) and the module function [parse_table_name] with the map the
    [Table] constructor passes give the same name, for every input. *)
Theorem X3_parse_table_name_method_agrees (table_name : string) :
  TableMethods.parse_table_name table_name
  = parse_table_name table_name (Some Table.replace_list).
Proof.
  rewrite parse_table_name_sanitize. unfold TableMethods.parse_table_name.
  induction table_name as [|ch rest IH]; [reflexivity |].
  rewrite sanitize_replace_list_cons. cbn [pystr.replace].
  destruct (Ascii.eqb ch " ") eqn:E1.
  - change ("_" +:+ pystr.replace " " "_" rest)
      with (String "_" (pystr.replace " " "_" rest)).
    cbn [pystr.replace]. change (Ascii.eqb "_" ".") with false. cbn iota.
    now rewrite IH.
  - cbn [pystr.replace]. destruct (Ascii.eqb ch ".") eqn:E2.
    + change ("" +:+ pystr.replace "." "" (pystr.replace " " "_" rest))
        with (pystr.replace "." "" (pystr.replace " " "_" rest)).
      exact IH.
    + now rewrite IH.
Qed.

Lemma sanitize_replace_list_clean (name : string) :
  pystr.contains " " (Spec.sanitize Table.replace_list name) = false
  /\ pystr.contains "." (Spec.sanitize Table.replace_list name) = false
  /\ (String.length (Spec.sanitize Table.replace_list name)
      <= String.length name)%nat.
Proof.
  induction name as [|ch rest (IH1 & IH2 & IH3)]; [repeat split; simpl; lia |].
  rewrite sanitize_replace_list_cons.
  destruct (Ascii.eqb ch " ") eqn:E1.
  - cbn [pystr.contains String.length]. rewrite IH1, IH2.
    repeat split; try reflexivity. lia.
  - destruct (Ascii.eqb ch ".") eqn:E2.
    + cbn [String.length]. repeat split; auto.
    + cbn [pystr.contains String.length]. rewrite E1, E2, IH1, IH2.
      repeat split; try reflexivity. lia.
Qed.

Lemma sanitize_replace_list_fixed (name : string) :
  pystr.contains " " name = false -> pystr.contains "." name = false ->
  Spec.sanitize Table.replace_list name = name.
Proof.
  induction name as [|ch rest IH]; [reflexivity |].
  cbn [pystr.contains]. intros H1 H2.
  apply orb_false_iff in H1 as [E1 R1]. apply orb_false_iff in H2 as [E2 R2].
  rewrite sanitize_replace_list_cons, E1, E2. now rewrite IH.
Qed.

(** X4: a name sanitized with the table's map (space to underscore,
    period removed) contains no space and no period, is no longer than the
    name it comes from, and sanitizing it again changes nothing. *)
Theorem X4_sanitized_name_is_clean (name : string) :
  let clean := parse_table_name name (Some Table.replace_list) in
  pystr.contains " " clean = false
  /\ pystr.contains "." clean = false
  /\ (String.length clean <= String.length name)%nat
  /\ parse_table_name clean (Some Table.replace_list) = clean.
Proof.
  cbv zeta. rewrite !parse_table_name_sanitize.
  destruct (sanitize_replace_list_clean name) as (H1 & H2 & H3).
  repeat split; auto.
  now apply sanitize_replace_list_fixed.
Qed.

(** ** Locators with directories *)

Lemma rfind_absent_no_separator (s : string) :
  os.path.rfind os.path.sep s = -1 -> Spec.no_separator s = true.
Proof.
  induction s as [|a s IH]; [reflexivity |].
  cbn [os.path.rfind Spec.no_separator].
  pose proof (rfind_nonneg_or_absent os.path.sep s) as Hlow.
  destruct (0 <=? os.path.rfind os.path.sep s) eqn:E.
  - apply Z.leb_le in E. lia.
  - apply Z.leb_gt in E.
    destruct (Ascii.eqb a os.path.sep); [discriminate |].
    intros _. apply IH. lia.
Qed.

Lemma substring_all (s : string) : substring 0 (String.length s) s = s.
Proof. exact (substring_suffix "" s). Qed.

(** [basename], one character at a time. *)
Lemma basename_cons (a : ascii) (r : string) :
  os.path.basename (String a r)
  = if 0 <=? os.path.rfind os.path.sep r then os.path.basename r
    else if Ascii.eqb a os.path.sep then r else String a r.
Proof.
  unfold os.path.basename, os.path.slice_from. cbn [os.path.rfind].
  destruct (0 <=? os.path.rfind os.path.sep r) eqn:E.
  - apply Z.leb_le in E.
    replace (Z.to_nat (os.path.rfind os.path.sep r + 1 + 1))
      with (S (Z.to_nat (os.path.rfind os.path.sep r + 1))) by lia.
    reflexivity.
  - destruct (Ascii.eqb a os.path.sep).
    + change (Z.to_nat (0 + 1)) with 1%nat. cbn [String.length substring].
      replace (S (String.length r) - 1)%nat with (String.length r) by lia.
      apply substring_all.
    + change (Z.to_nat (-1 + 1)) with 0%nat. rewrite Nat.sub_0_r.
      apply substring_all.
Qed.

Lemma basename_no_separator (p : string) :
  Spec.no_separator (os.path.basename p) = true.
Proof.
  induction p as [|a r IH]; [reflexivity |].
  rewrite basename_cons.
  destruct (0 <=? os.path.rfind os.path.sep r) eqn:E; [exact IH |].
  apply Z.leb_gt in E.
  pose proof (rfind_nonneg_or_absent os.path.sep r) as Hlow.
  assert (Hr : Spec.no_separator r = true)
    by (apply rfind_absent_no_separator; lia).
  destruct (Ascii.eqb a os.path.sep) eqn:Ea; [exact Hr |].
  cbn [Spec.no_separator]. now rewrite Ea, Hr.
Qed.

(** X5: a name derived from a locator never contains a path separator:
    whatever the locator, the name [decode_names] takes from it, and so
    the name of a non-temporary resolution without explicit name, is free
    of [/]. *)
Theorem X5_derived_name_has_no_separator {W : Type} `{arcpy.Backend W}
    (locator : string) (scratch : option string)
    (replacechars : option (gmap ascii string)) (w : W) :
  Spec.no_separator (snd (fst (decode_names locator None))) = true
  /\ exists container name full_path,
       initialize_names locator None false scratch replacechars w
       = (Returns (container, name, full_path), w, [])
       /\ Spec.no_separator name = true.
Proof.
  split; [apply basename_no_separator |].
  exists (os.path.dirname locator), (os.path.basename locator),
    (snd (decode_names locator None)).
  split; [| apply basename_no_separator].
  now rewrite initialize_names_bare_locator by reflexivity.
Qed.

Lemma rstrip_after_container (c : string) :
  String.eqb c "" = false -> os.path.endswith os.path.sep c = false ->
  os.path.rstrip os.path.sep (c +:+ String os.path.sep "") = c.
Proof.
  induction c as [|a c IH]; [discriminate |].
  intros _ Hend.
  change (String a c +:+ String os.path.sep "")
    with (String a (c +:+ String os.path.sep "")).
  cbn [os.path.rstrip].
  destruct (String.eqb c "") eqn:Ec.
  - apply String.eqb_eq in Ec. subst c. cbn in Hend. cbn. now rewrite Hend.
  - assert (Hend' : os.path.endswith os.path.sep c = false)
      by (destruct c; [discriminate | exact Hend]).
    rewrite (IH eq_refl Hend'). destruct c; [discriminate | reflexivity].
Qed.

Lemma all_of_after_container (c : string) :
  String.eqb c "" = false -> os.path.endswith os.path.sep c = false ->
  os.path.all_of os.path.sep (c +:+ String os.path.sep "") = false.
Proof.
  induction c as [|a c IH]; [discriminate |].
  intros _ Hend.
  change (String a c +:+ String os.path.sep "")
    with (String a (c +:+ String os.path.sep "")).
  cbn [os.path.all_of].
  destruct (String.eqb c "") eqn:Ec.
  - apply String.eqb_eq in Ec. subst c. cbn in Hend. cbn. now rewrite Hend.
  - assert (Hend' : os.path.endswith os.path.sep c = false)
      by (destruct c; [discriminate | exact Hend]).
    rewrite (IH eq_refl Hend'). apply andb_false_r.
Qed.

Lemma dirname_nested (c n : string) :
  String.eqb c "" = false -> os.path.endswith os.path.sep c = false ->
  Spec.no_separator n = true ->
  os.path.dirname (c +:+ String os.path.sep n) = c.
Proof.
  intros Hne Hend Hn. unfold os.path.dirname, os.path.slice_to.
  rewrite (rfind_joined c n Hn).
  replace (Z.to_nat (Z.of_nat (String.length c) + 1))
    with (String.length (c +:+ String os.path.sep ""))
    by (rewrite length_append; simpl; lia).
  replace (c +:+ String os.path.sep n)
    with ((c +:+ String os.path.sep "") +:+ n) by (now rewrite append_assoc).
  rewrite substring_prefix, eqb_empty_append.
  rewrite (all_of_after_container c Hne Hend). cbn [negb andb].
  now apply rstrip_after_container.
Qed.

Lemma join_nested (c n : string) :
  String.eqb c "" = false -> os.path.endswith os.path.sep c = false ->
  Spec.no_separator n = true ->
  os.path.join c n = c +:+ String os.path.sep n.
Proof.
  intros Hne Hend Hn. unfold os.path.join.
  now rewrite (startswith_no_separator n Hn), Hne, Hend.
Qed.

(** X6: resolving a joined path and resolving its two parts agree, also
    when the container has directories of its own.  For a non-empty
    container that does not end in a separator and a separator-free name,
    the locator [container/name] alone resolves to the same triple as the
    container with the explicit name, and the full path of that triple is
    the locator itself. *)
Theorem X6_decode_names_joined_locator (container name : string) :
  String.eqb container "" = false ->
  os.path.endswith os.path.sep container = false ->
  Spec.no_separator name = true ->
  decode_names (os.path.join container name) None
  = (container, name, os.path.join container name)
  /\ decode_names (os.path.join container name) None
     = decode_names container (Some name)
  /\ os.path.join container name = container +:+ "/" +:+ name.
Proof.
  intros Hne Hend Hn.
  assert (Hdecode : decode_names (os.path.join container name) None
                    = (container, name, os.path.join container name)).
  { rewrite (join_nested container name Hne Hend Hn). unfold decode_names.
    rewrite (dirname_nested container name Hne Hend Hn),
      (basename_joined container name Hn), Hne.
    now rewrite (join_nested container name Hne Hend Hn). }
  split; [exact Hdecode |]. split.
  - rewrite Hdecode. now rewrite decode_names_explicit.
  - exact (join_nested container name Hne Hend Hn).
Qed.

Lemma X6_decode_names_joined_locator_witness :
  decode_names (os.path.join "data/city.gdb" "Parcels") None
  = ("data/city.gdb", "Parcels", os.path.join "data/city.gdb" "Parcels")
  /\ decode_names (os.path.join "data/city.gdb" "Parcels") None
     = decode_names "data/city.gdb" (Some "Parcels")
  /\ os.path.join "data/city.gdb" "Parcels" = "data/city.gdb" +:+ "/" +:+ "Parcels".
Proof.
  apply (X6_decode_names_joined_locator "data/city.gdb" "Parcels"); reflexivity.
Defined.

(** ** Handles *)

Lemma decode_names_full_path_formed (a : string) (b : option string)
    (g n f : string) :
  decode_names a b = (g, n, f) ->
  f = if String.eqb g "" then n else os.path.join g n.
Proof.
  destruct b; unfold decode_names; intros Heq; injection Heq as <- <- <-;
    reflexivity.
Qed.

Lemma initialize_names_full_path_formed {W : Type} `{arcpy.Backend W}
    (locator : string) (explicit_name : option string) (temporary : bool)
    (scratch : option string) (replacechars : option (gmap ascii string))
    (w w' : W) (g n f : string) (tr : list event) :
  initialize_names locator explicit_name temporary scratch replacechars w
  = (Returns (g, n, f), w', tr) ->
  f = if String.eqb g "" then n else os.path.join g n.
Proof.
  destruct temporary.
  - rewrite initialize_names_temporary.
    match goal with
    | |- (Returns ?d, _, _) = _ -> _ => remember d as D eqn:HD
    end.
    intros Heq. assert (HDeq : D = (g, n, f)) by congruence. subst D.
    exact (decode_names_full_path_formed _ _ _ _ _ HDeq).
  - unfold initialize_names, ret.
    match goal with
    | |- (Returns ?d, _, _) = _ -> _ => remember d as D eqn:HD
    end.
    intros Heq. assert (HDeq : D = (g, n, f)) by congruence. subst D.
    exact (decode_names_full_path_formed _ _ _ _ _ HDeq).
Qed.

(** X7: every handle a constructor hands out, temporary or not, has its
    full name formed from its two other names: the name alone when the
    container is empty, their [os.path.join] otherwise.  This holds for
    [Table] (and [FeatureClass]), [Raster] and [MosaicDataset]. *)
Theorem X7_handle_full_name_formed {W : Type} `{arcpy.Backend W}
    (locator : string) (explicit_name : option string) (temporary : bool)
    (w : W) :
  (forall h w' tr,
     Table.__init__ locator explicit_name temporary w = (Returns h, w', tr) ->
     Table.full_name h
     = if String.eqb (Table.geodatabase_name h) "" then Table.table_name h
       else os.path.join (Table.geodatabase_name h) (Table.table_name h))
  /\ (forall h w' tr,
        Raster.__init__ locator explicit_name temporary w = (Returns h, w', tr) ->
        Raster.full_name h
        = if String.eqb (Raster.geodatabase_name h) "" then Raster.raster_name h
          else os.path.join (Raster.geodatabase_name h) (Raster.raster_name h))
  /\ (forall h w' tr,
        MosaicDataset.__init__ locator explicit_name temporary w
        = (Returns h, w', tr) ->
        MosaicDataset.full_name h
        = if String.eqb (MosaicDataset.geodatabase_name h) ""
          then MosaicDataset.mosaic_name h
          else os.path.join (MosaicDataset.geodatabase_name h)
                 (MosaicDataset.mosaic_name h)).
Proof.
  split; [| split]; intros h w' tr.
  - unfold Table.__init__, arcpy.env_scratchGDB.
    unfold bind at 1. cbn iota. unfold bind at 1.
    destruct (initialize_names locator explicit_name temporary
                (Some (arcpy.scratchGDB w)) (Some Table.replace_list) w)
      as [[r w1] t1] eqn:Hnames.
    destruct r as [[[g n] f] | e]; [| discriminate].
    pose proof (initialize_names_full_path_formed _ _ _ _ _ _ _ _ _ _ _ Hnames)
      as Hinv.
    destruct temporary.
    + unfold bind.
      destruct (Table.delete _ w1) as [[r2 w2] t2].
      destruct r2 as [[|] | e]; cbn; intros Heq; [| discriminate | discriminate].
      injection Heq as <- _ _. exact Hinv.
    + cbn. intros Heq. injection Heq as <- _ _. exact Hinv.
  - unfold Raster.__init__, arcpy.env_scratchFolder.
    unfold bind at 1. cbn iota. unfold bind at 1.
    destruct (initialize_names locator explicit_name temporary
                (Some (arcpy.scratchFolder w)) None w)
      as [[r w1] t1] eqn:Hnames.
    destruct r as [[[g n] f] | e]; [| discriminate].
    pose proof (initialize_names_full_path_formed _ _ _ _ _ _ _ _ _ _ _ Hnames)
      as Hinv.
    destruct temporary.
    + unfold bind.
      destruct (Raster.delete _ w1) as [[r2 w2] t2].
      destruct r2 as [b | e]; cbn; intros Heq; [| discriminate].
      injection Heq as <- _ _. exact Hinv.
    + cbn. intros Heq. injection Heq as <- _ _. exact Hinv.
  - unfold MosaicDataset.__init__, arcpy.env_scratchGDB.
    unfold bind at 1. cbn iota. unfold bind at 1.
    destruct (initialize_names locator explicit_name temporary
                (Some (arcpy.scratchGDB w)) None w)
      as [[r w1] t1] eqn:Hnames.
    destruct r as [[[g n] f] | e]; [| discriminate].
    pose proof (initialize_names_full_path_formed _ _ _ _ _ _ _ _ _ _ _ Hnames)
      as Hinv.
    destruct temporary.
    + unfold bind.
      destruct (MosaicDataset.delete _ w1) as [[r2 w2] t2].
      destruct r2 as [[|] | e]; cbn; intros Heq; [| discriminate | discriminate].
      injection Heq as <- _ _. exact Hinv.
    + cbn. intros Heq. injection Heq as <- _ _. exact Hinv.
Qed.

Lemma X7_handle_full_name_formed_witness :
  Table.full_name
    {| Table.geodatabase_name := "scratch.gdb"; Table.table_name := "TempTable";
       Table.full_name := "scratch.gdb/TempTable"; Table.temp_table := true |}
  = "scratch.gdb/TempTable".
Proof.
  destruct (X7_handle_full_name_formed "TempTable" None true Workspace.empty)
    as (Htable & _).
  rewrite (Htable _ Workspace.empty
             [Call "CreateUniqueName" ["TempTable"; "scratch.gdb"];
              Call "Exists" ["scratch.gdb/TempTable"]]);
    reflexivity.
Defined.

(** X8: building a handle that is not temporary never reaches the
    toolkit: for [Table], [Raster] and [MosaicDataset] alike the
    constructor returns a handle with the flag off, makes no call, emits
    no message and leaves the store exactly as it was, whether or not
    anything exists at the resolved path. *)
Theorem X8_non_temporary_init_is_silent {W : Type} `{arcpy.Backend W}
    (locator : string) (explicit_name : option string) (w : W) :
  (exists h, Table.__init__ locator explicit_name false w = (Returns h, w, [])
             /\ Table.temp_table h = false)
  /\ (exists h, Raster.__init__ locator explicit_name false w = (Returns h, w, [])
                /\ Raster.temp_raster h = false)
  /\ (exists h, MosaicDataset.__init__ locator explicit_name false w
                = (Returns h, w, [])
                /\ MosaicDataset.temp_mosaic h = false
                /\ MosaicDataset.mosaic_layer h = None).
Proof.
  split; [| split].
  - unfold Table.__init__, arcpy.env_scratchGDB, initialize_names, bind, ret.
    destruct (decode_names locator _) as [[g n] f].
    eexists. split; reflexivity.
  - unfold Raster.__init__, arcpy.env_scratchFolder, initialize_names, bind, ret.
    destruct (decode_names locator _) as [[g n] f].
    eexists. split; reflexivity.
  - unfold MosaicDataset.__init__, arcpy.env_scratchGDB, initialize_names, bind, ret.
    destruct (decode_names locator _) as [[g n] f].
    eexists. repeat split; reflexivity.
Qed.

(** ** Layers *)

Section LayerFacts.
Context {W : Type} `{arcpy.Backend W}.

(** The handle a feature layer is built on. *)
Lemma FeatureLayer_init_existing (layer_name where_clause : string) (w : W) :
  let names := decode_names layer_name None in
  let b := {| Table.geodatabase_name := fst (fst names);
              Table.table_name := snd (fst names);
              Table.full_name := snd names; Table.temp_table := false |} in
  FeatureLayer.__init__ layer_name "" where_clause w
  = if arcpy.catalog_exists (snd names) w
    then (Returns {| FeatureLayer.base := b; FeatureLayer.layer_name := layer_name |},
          w, [Call "Exists" [snd names]])
    else (Raises ExecuteError, w,
          [Call "Exists" [snd names];
           AddError ("Layer " +:+ layer_name +:+ " does not exist")]).
Proof.
  cbv zeta.
  unfold FeatureLayer.__init__, FeatureClass.__init__, Table.__init__,
    arcpy.env_scratchGDB, initialize_names, Table.exists_, arcpy.Exists,
    bind, ret, emit, raise.
  cbn [truthy String.eqb].
  destruct (decode_names layer_name None) as [[g n] f]. cbn [fst snd Table.full_name].
  destruct (arcpy.catalog_exists f w); reflexivity.
Qed.

Lemma FeatureLayer_init_made (layer_name in_features where_clause : string)
    (w : W) :
  String.eqb in_features "" = false ->
  let names := decode_names layer_name None in
  let b := {| Table.geodatabase_name := fst (fst names);
              Table.table_name := snd (fst names);
              Table.full_name := snd names; Table.temp_table := false |} in
  FeatureLayer.__init__ layer_name in_features where_clause w
  = (Returns {| FeatureLayer.base := b; FeatureLayer.layer_name := layer_name |},
     arcpy.make_feature_layer in_features layer_name where_clause w,
     [Call "MakeFeatureLayer_management"
        [in_features; layer_name; where_clause; ""; ""]]).
Proof.
  intros Hne. cbv zeta.
  unfold FeatureLayer.__init__, FeatureClass.__init__, Table.__init__,
    arcpy.env_scratchGDB, initialize_names, arcpy.MakeFeatureLayer_management,
    bind, ret.
  cbn [truthy]. rewrite Hne.
  destruct (decode_names layer_name None) as [[g n] f]. reflexivity.
Qed.

End LayerFacts.

(** X9: a feature layer opened over an existing layer ([in_features]
    left empty) is handed out exactly when something exists at the path
    resolved from the layer name, after one existence query and nothing
    else; otherwise an error message is added and [ExecuteError] is
    raised.  With [in_features] given, the layer is made and the handle is
    always handed out.  Either way the handle is not temporary, so its
    finalizer never asks for a deletion. *)
Theorem X9_FeatureLayer_init {W : Type} `{arcpy.Backend W}
    (layer_name in_features where_clause : string) (w : W) :
  (in_features = "" ->
   let path := snd (decode_names layer_name None) in
   (arcpy.catalog_exists path w = true ->
    exists fl, FeatureLayer.__init__ layer_name in_features where_clause w
               = (Returns fl, w, [Call "Exists" [path]]))
   /\ (arcpy.catalog_exists path w = false ->
       FeatureLayer.__init__ layer_name in_features where_clause w
       = (Raises ExecuteError, w,
          [Call "Exists" [path];
           AddError ("Layer " +:+ layer_name +:+ " does not exist")])))
  /\ (in_features <> "" ->
      exists fl, FeatureLayer.__init__ layer_name in_features where_clause w
                 = (Returns fl,
                    arcpy.make_feature_layer in_features layer_name where_clause w,
                    [Call "MakeFeatureLayer_management"
                       [in_features; layer_name; where_clause; ""; ""]]))
  /\ (forall fl w1 tr,
        FeatureLayer.__init__ layer_name in_features where_clause w
        = (Returns fl, w1, tr) ->
        FeatureLayer.layer_name fl = layer_name
        /\ forall w2, FeatureLayer.__del__ fl w2 = (Returns tt, w2, [])).
Proof.
  split; [| split].
  - intros ->. cbv zeta. rewrite FeatureLayer_init_existing. cbv zeta.
    split; intros Hex; rewrite Hex; [eexists |]; reflexivity.
  - intros Hne.
    assert (Hb : String.eqb in_features "" = false)
      by (apply String.eqb_neq; exact Hne).
    rewrite (FeatureLayer_init_made _ _ _ _ Hb). eexists. reflexivity.
  - intros fl w1 tr.
    destruct (String.eqb in_features "") eqn:Hb.
    + apply String.eqb_eq in Hb. subst in_features.
      rewrite FeatureLayer_init_existing. cbv zeta.
      destruct (arcpy.catalog_exists _ w); [| discriminate].
      intros Heq. injection Heq as <- _ _. split; reflexivity.
    + rewrite (FeatureLayer_init_made _ _ _ _ Hb). cbv zeta.
      intros Heq. injection Heq as <- _ _. split; reflexivity.
Qed.

Lemma X9_FeatureLayer_init_witness :
  FeatureLayer.__init__ "roads_Layer" "" "" (Workspace.holding "roads_Layer")
  = (Returns {| FeatureLayer.base :=
                  {| Table.geodatabase_name := ""; Table.table_name := "roads_Layer";
                     Table.full_name := "roads_Layer"; Table.temp_table := false |};
                FeatureLayer.layer_name := "roads_Layer" |},
     Workspace.holding "roads_Layer", [Call "Exists" ["roads_Layer"]])
  /\ FeatureLayer.__init__ "roads_Layer" "" "" Workspace.empty
     = (Raises ExecuteError, Workspace.empty,
        [Call "Exists" ["roads_Layer"];
         AddError "Layer roads_Layer does not exist"]).
Proof.
  destruct (X9_FeatureLayer_init "roads_Layer" "" "" Workspace.empty)
    as (Hopen & _).
  destruct (Hopen eq_refl) as (_ & Hmissing).
  split; [vm_compute; reflexivity |].
  apply Hmissing. vm_compute. reflexivity.
Defined.

Section MosaicLayerFacts.
Context {W : Type} `{arcpy.Backend W}.

Lemma MosaicLayer_init_eq (layer_name mosaic_name : string) (w : W) :
  let w1 := arcpy.make_mosaic_layer mosaic_name layer_name w in
  let footprint := os.path.join layer_name "Footprint" in
  let names := decode_names footprint None in
  let b := {| Table.geodatabase_name := fst (fst names);
              Table.table_name := snd (fst names);
              Table.full_name := snd names; Table.temp_table := false |} in
  MosaicLayer.__init__ layer_name mosaic_name w
  = if arcpy.catalog_exists (snd names) w1
    then (Returns {| MosaicLayer.layer_name := layer_name;
                     MosaicLayer.feature_layer :=
                       {| FeatureLayer.base := b;
                          FeatureLayer.layer_name := footprint |} |},
          w1,
          [Call "MakeMosaicLayer_management" [mosaic_name; layer_name];
           Call "Exists" [snd names]])
    else (Raises ExecuteError, w1,
          [Call "MakeMosaicLayer_management" [mosaic_name; layer_name];
           Call "Exists" [snd names];
           AddError ("Layer " +:+ footprint +:+ " does not exist")]).
Proof.
  cbv zeta. unfold MosaicLayer.__init__, arcpy.MakeMosaicLayer_management.
  unfold bind at 1. unfold bind at 1.
  rewrite FeatureLayer_init_existing. cbv zeta.
  destruct (arcpy.catalog_exists _ _); reflexivity.
Qed.

End MosaicLayerFacts.

(** X10: [create_layer] makes the mosaic layer at most once per handle.
    A handle that already has its layer is returned as it is, with no
    call.  Whenever [create_layer] returns, the handle it returns has a
    layer, keeps its names and flag, and any further [create_layer] on it
    makes no call, whatever the store has become.  When the footprint
    layer cannot be found after the mosaic layer was made, it raises
    [ExecuteError] instead of returning a handle. *)
Theorem X10_create_layer_once {W : Type} `{arcpy.Backend W}
    (self : MosaicDataset.t) (w : W) :
  (MosaicDataset.mosaic_layer self <> None ->
   MosaicDataset.create_layer self w = (Returns self, w, []))
  /\ (forall self1 w1 tr,
        MosaicDataset.create_layer self w = (Returns self1, w1, tr) ->
        MosaicDataset.mosaic_layer self1 <> None
        /\ MosaicDataset.full_name self1 = MosaicDataset.full_name self
        /\ MosaicDataset.mosaic_name self1 = MosaicDataset.mosaic_name self
        /\ MosaicDataset.geodatabase_name self1 = MosaicDataset.geodatabase_name self
        /\ MosaicDataset.temp_mosaic self1 = MosaicDataset.temp_mosaic self
        /\ forall w2, MosaicDataset.create_layer self1 w2 = (Returns self1, w2, []))
  /\ (MosaicDataset.mosaic_layer self = None ->
      let layer := MosaicDataset.mosaic_name self +:+ "_Layer" in
      let w1 := arcpy.make_mosaic_layer (MosaicDataset.full_name self) layer w in
      arcpy.catalog_exists
        (snd (decode_names (os.path.join layer "Footprint") None)) w1 = false ->
      fst (MosaicDataset.create_layer self w) = (Raises ExecuteError, w1)).
Proof.
  split; [| split].
  - intros Hsome. unfold MosaicDataset.create_layer.
    destruct (MosaicDataset.mosaic_layer self); [reflexivity | contradiction].
  - intros self1 w1 tr. unfold MosaicDataset.create_layer at 1.
    destruct (MosaicDataset.mosaic_layer self) as [ml|] eqn:Hml.
    + intros Heq. injection Heq as <- <- _.
      repeat split; try congruence.
      intros w2. unfold MosaicDataset.create_layer. now rewrite Hml.
    + unfold bind. rewrite MosaicLayer_init_eq. cbv zeta.
      destruct (arcpy.catalog_exists _ _); [| discriminate].
      cbn. intros Heq. injection Heq as <- _ _.
      repeat split; discriminate.
  - intros Hnone. cbv zeta. intros Habsent.
    unfold MosaicDataset.create_layer. rewrite Hnone.
    unfold bind. rewrite MosaicLayer_init_eq. cbv zeta.
    now rewrite Habsent.
Qed.

Lemma X10_create_layer_once_witness :
  let w := Workspace.building [5; 2; 0] in
  exists self1 w1 tr,
    MosaicDataset.create_layer Workspace.mosaic w = (Returns self1, w1, tr)
    /\ MosaicDataset.create_layer self1 w1 = (Returns self1, w1, []).
Proof.
  intros w.
  destruct (MosaicDataset.create_layer Workspace.mosaic w) as [[r w1] tr] eqn:Hrun.
  destruct r as [self1 | e].
  - exists self1, w1, tr. split; [reflexivity |].
    destruct (X10_create_layer_once Workspace.mosaic w) as (_ & Hret & _).
    destruct (Hret self1 w1 tr Hrun) as (_ & _ & _ & _ & _ & Hagain).
    apply Hagain.
  - vm_compute in Hrun. discriminate Hrun.
Defined.

(** ** Elapsed time, once more *)

(** X11: the report loses nothing.  For an elapsed time from 0 to below
    [3600 * 2^42] seconds the hours, minutes and seconds it shows add up
    to the whole seconds, [floor(x) = 3600 h + 60 m + s], with minutes and
    seconds below 60, and a unit is left out only when it and every larger
    unit is zero: minutes and seconds that are zero are still shown beside
    a larger unit. *)
Theorem X11_report_elapsed_time_recombines (x : pynum.t) :
  pynum.valid x = true ->
  pynum.ltb x 0 = false -> pynum.ltb x (3600 * 2 ^ 42) = true ->
  exists h m s,
    0 <= h /\ 0 <= m < 60 /\ 0 <= s < 60
    /\ Spec.floor x = 3600 * h + 60 * m + s
    /\ Timer.report_elapsed_time x
       = Timer.Text
           (if (h =? 0) && (m =? 0) then Spec.phrase s "second"
            else if h =? 0
                 then Spec.phrase m "minute" +:+ " " +:+ Spec.phrase s "second"
                 else Spec.phrase h "hour" +:+ " " +:+ Spec.phrase m "minute"
                      +:+ " " +:+ Spec.phrase s "second").
Proof.
  intros Hvalid Hpos Hbound.
  rewrite (report_elapsed_time_whole x Hvalid Hpos Hbound).
  assert (Ht : 0 <= Spec.floor x).
  { rewrite ltb_floor in Hpos. now apply Z.ltb_ge in Hpos. }
  set (t := Spec.floor x) in *.
  exists (t / 3600), ((t mod 3600) / 60), (t mod 60).
  assert (H3600 : 0 <= t mod 3600 < 3600) by (apply Z.mod_pos_bound; lia).
  assert (H60 : 0 <= t mod 60 < 60) by (apply Z.mod_pos_bound; lia).
  assert (Hh : 0 <= t / 3600) by (apply Z.div_pos; lia).
  assert (Hm : 0 <= (t mod 3600) / 60 < 60).
  { split; [apply Z.div_pos; lia | apply Z.div_lt_upper_bound; lia]. }
  assert (Hsum : t = 3600 * (t / 3600) + 60 * ((t mod 3600) / 60) + t mod 60).
  { pose proof (Z.div_mod t 3600 ltac:(lia)) as E1.
    pose proof (Z.div_mod (t mod 3600) 60 ltac:(lia)) as E2.
    assert (E3 : (t mod 3600) mod 60 = t mod 60).
    { apply Z.mod_mod_divide. exists 60. reflexivity. }
    lia. }
  repeat (split; [lia |]).
  unfold Spec.elapsed. f_equal.
  destruct (t <? 60) eqn:T60.
  - apply Z.ltb_lt in T60.
    rewrite (Z.div_small t 3600) by lia.
    rewrite (Z.mod_small t 3600) by lia.
    rewrite (Z.div_small t 60) by lia. reflexivity.
  - apply Z.ltb_ge in T60. destruct (t <? 3600) eqn:T3600.
    + apply Z.ltb_lt in T3600.
      rewrite (Z.div_small t 3600) by lia.
      rewrite (Z.mod_small t 3600) by lia.
      assert (Hpos1 : 1 <= t / 60) by (apply Z.div_le_lower_bound; lia).
      replace (t / 60 =? 0) with false by (symmetry; apply Z.eqb_neq; lia).
      reflexivity.
    + apply Z.ltb_ge in T3600.
      assert (Hpos1 : 1 <= t / 3600) by (apply Z.div_le_lower_bound; lia).
      replace (t / 3600 =? 0) with false by (symmetry; apply Z.eqb_neq; lia).
      reflexivity.
Qed.

(** 7199.999 seconds, as a float. *)
Lemma X11_report_elapsed_time_recombines_witness :
  exists h m s,
    0 <= h /\ 0 <= m < 60 /\ 0 <= s < 60
    /\ 7199 = 3600 * h + 60 * m + s
    /\ Timer.report_elapsed_time (pynum.Float 7916482620475572 (-40))
       = Timer.Text
           (if (h =? 0) && (m =? 0) then Spec.phrase s "second"
            else if h =? 0
                 then Spec.phrase m "minute" +:+ " " +:+ Spec.phrase s "second"
                 else Spec.phrase h "hour" +:+ " " +:+ Spec.phrase m "minute"
                      +:+ " " +:+ Spec.phrase s "second").
Proof.
  apply (X11_report_elapsed_time_recombines (pynum.Float 7916482620475572 (-40)));
    reflexivity.
Defined.

(** The seconds shown for a negative float lie between 0 and 60: the
    remainder is moved up by 60, and the sum is rounded. *)
Lemma Float_mod_negative (m e : Z) :
  pynum.ltb (pynum.Float m e) 0 = true ->
  0 <= pynum.int (pynum.mod_ (pynum.Float m e) 60) <= 60.
Proof.
  intros Hneg. unfold pynum.ltb in Hneg. apply Z.ltb_lt in Hneg.
  unfold pynum.mod_.
  assert (HD : 0 < snd (pynum.fraction m e)) by apply pow2_max_pos.
  set (N := fst (pynum.fraction m e)) in *.
  set (D := snd (pynum.fraction m e)) in *.
  pose proof (Z.rem_bound_pos_neg N (D * 60) ltac:(lia) ltac:(lia)) as Hr.
  set (r := Z.rem N (D * 60)) in *.
  destruct (Z.eqb_spec r 0) as [E0 | Hne];
    [change (pynum.int (pynum.Float 0 0)) with 0; lia |].
  destruct (Z.ltb_spec r 0) as [_ | Hge]; [| lia].
  rewrite round_pos_eq by lia.
  set (a := r + 60 * D).
  assert (Ha : 0 < a < 60 * D) by (unfold a; lia).
  assert (Hlt : a < D * 2 ^ 53) by nia.
  destruct (round_pos_cases a D ltac:(lia) HD Hlt) as (_ & He & Hm).
  unfold pynum.int. rewrite (fraction_round_pos _ _ He). cbn [fst snd].
  set (P := 2 ^ (- snd (pynum.round_pos a D))) in *.
  assert (HP : 0 < P) by (apply Z.pow_pos_nonneg; lia).
  assert (H0 : 0 <= a * P / D) by (apply Z.div_pos; nia).
  assert (H1 : a * P / D < 60 * P) by (apply Z.div_lt_upper_bound; nia).
  set (m0 := a * P / D) in *.
  assert (Hm' : 0 <= fst (pynum.round_pos a D) <= P * 60) by lia.
  rewrite Z.quot_div_nonneg by lia.
  split; [apply Z.div_pos; lia | apply Z.div_le_upper_bound; lia].
Qed.

(** X12: a negative elapsed time (a clock set back between start and
    end) is reported in the seconds tier and never as a negative number:
    an int [t] as [t mod 60], from 0 to 59; a float as a number of seconds
    from 0 to 60, and 60 it can be: the remainder of [-1e-17], moved up by
    60, rounds to 60. *)
Theorem X12_report_elapsed_time_negative :
  (forall x : pynum.t,
     pynum.ltb x 0 = true ->
     exists s,
       0 <= s <= 60
       /\ Timer.report_elapsed_time x = Timer.Text (Spec.phrase s "second")
       /\ (forall t, x = pynum.Int t -> s = t mod 60 /\ s < 60))
  /\ pynum.ltb (pynum.Float (-6490371073168535) (-109)) 0 = true
  /\ Timer.report_elapsed_time (pynum.Float (-6490371073168535) (-109))
     = Timer.Text "60 seconds".
Proof.
  split; [| split; vm_compute; reflexivity].
  intros x Hneg. exists (pynum.int (pynum.mod_ x 60)).
  assert (H60 : pynum.ltb x 60 = true).
  { rewrite ltb_floor in *. apply Z.ltb_lt in Hneg. apply Z.ltb_lt. lia. }
  split; [| split].
  - destruct x as [t | m e]; [| now apply Float_mod_negative].
    cbn [pynum.mod_ pynum.int].
    pose proof (Z.mod_pos_bound t 60 ltac:(lia)). lia.
  - unfold Timer.report_elapsed_time, Spec.phrase, Spec.singular.
    rewrite H60. destruct (pynum.int (pynum.mod_ x 60) =? 1); reflexivity.
  - intros t ->. cbn [pynum.mod_ pynum.int].
    pose proof (Z.mod_pos_bound t 60 ltac:(lia)). lia.
Qed.

Lemma X12_report_elapsed_time_negative_witness :
  Timer.report_elapsed_time (pynum.Int (-1)) = Timer.Text "59 seconds".
Proof.
  destruct X12_report_elapsed_time_negative as [Hall _].
  destruct (Hall (pynum.Int (-1)) eq_refl) as (s & _ & -> & Hs).
  destruct (Hs (-1) eq_refl) as [-> _]. reflexivity.
Defined.

(** ** Sweeping bad overviews *)

Section Sweep.
Context {W : Type} `{arcpy.Backend W}.

Lemma for_bad_overviews_cons (p : string) (rest : list string) (w : W) :
  MosaicDataset.for_bad_overviews (p :: rest) w
  = let present := arcpy.catalog_exists p w in
    let w1 := if present then arcpy.catalog_delete p w else w in
    let here :=
      if present
      then [Call "Exists" [p]; AddWarning ("Deleting " +:+ p);
            Call "Delete_management" [p]; AddMessage ("Deleted " +:+ p);
            PrintGetMessages]
      else [Call "Exists" [p]; AddWarning ("Overview " +:+ p +:+ " not found")] in
    match MosaicDataset.for_bad_overviews rest w1 with
    | (r, w2, t2) => (r, w2, (here ++ t2)%list)
    end.
Proof.
  cbn [MosaicDataset.for_bad_overviews].
  unfold arcpy.Exists, arcpy.Delete_management, output_msg, emit, ret.
  cbn [log std_out]. unfold bind.
  destruct (arcpy.catalog_exists p w); cbv zeta;
    destruct (MosaicDataset.for_bad_overviews rest _) as [[r w2] t2];
    reflexivity.
Qed.

End Sweep.

(** X13: the loop over the exported overview paths never raises.  It asks
    the store about every listed path once, in order; it requests the
    deletion of a path only if that path is listed and exists when its
    turn comes; and the store it leaves is the one obtained by deleting,
    in order, each listed path that exists at its turn.  An empty list
    makes no call. *)
Theorem X13_for_bad_overviews_sweeps {W : Type} `{arcpy.Backend W}
    (bad_overviews : list string) (w : W) :
  exists tr,
    MosaicDataset.for_bad_overviews bad_overviews w
    = (Returns tt, Trace.swept bad_overviews w, tr)
    /\ Trace.calls_of "Exists" tr = map (fun p => [p]) bad_overviews
    /\ (forall args, In args (Trace.calls_of "Delete_management" tr) ->
        exists p, args = [p] /\ In p bad_overviews)
    /\ (bad_overviews = [] -> tr = []).
Proof.
  revert w. induction bad_overviews as [|p rest IH]; intros w.
  - exists []. repeat split; try reflexivity. intros args [].
  - rewrite for_bad_overviews_cons. cbv zeta.
    destruct (IH (if arcpy.catalog_exists p w then arcpy.catalog_delete p w else w))
      as (tr & Hrun & Hasks & Hdel & _).
    rewrite Hrun. cbn [Trace.swept].
    eexists. split; [reflexivity |].
    destruct (arcpy.catalog_exists p w);
      (split; [cbn; now rewrite Hasks |]);
      (split; [| discriminate]); cbn; intros args Hin.
    + destruct Hin as [<- | Hin]; [exists p; split; auto |].
      destruct (Hdel args Hin) as (q & -> & Hq). exists q. split; auto.
    + destruct (Hdel args Hin) as (q & -> & Hq). exists q. split; auto.
Qed.

(** ** Field calculation *)

Section FieldFacts.
Context {W : Type} `{arcpy.Backend W} `{gp.Tools W}.

(** With a where clause and no [selectbyattribute] among the names,
    [calculate_field] stops at the attribute lookup. *)
Lemma calculate_field_unknown_method (names : list string) (full_name : string)
    (select : string -> string -> Py W Z)
    (field expression expression_type code_block : string)
    (where_clause : option string) (w : W) :
  pyattr.has names "selectbyattribute" = false ->
  truthy where_clause = true ->
  FieldMethods.calculate_field names full_name select field expression
    expression_type code_block where_clause w
  = (Raises (AttributeError "selectbyattribute"), w, []).
Proof.
  intros Hnames Hwhere. unfold FieldMethods.calculate_field, pyattr.call_method.
  now rewrite Hwhere, Hnames.
Qed.

Lemma calculate_field_no_where (names : list string) (full_name : string)
    (select : string -> string -> Py W Z)
    (field expression expression_type code_block : string)
    (where_clause : option string) (w : W) :
  truthy where_clause = false ->
  FieldMethods.calculate_field names full_name select field expression
    expression_type code_block where_clause w
  = (Returns tt,
     gp.run_tool "CalculateField_management"
       [full_name; field; expression; expression_type; code_block] w,
     [Call "CalculateField_management"
        [full_name; field; expression; expression_type; code_block];
      AddMessage ("Calculated field for: [" +:+ full_name +:+ "]");
      PrintGetMessages]).
Proof.
  intros Hwhere. unfold FieldMethods.calculate_field. rewrite Hwhere.
  reflexivity.
Qed.

End FieldFacts.

(** X14: [calculate_field] with a where clause never calculates.  For a
    table, a feature class and a feature layer alike, a non-empty where
    clause makes it raise [AttributeError] for [selectbyattribute], a name
    no class of the module defines, before any toolkit call and with the
    store untouched; [calculate_fields], which spells the method
    [select_by_attribute], selects and then calculates. *)
Theorem X14_calculate_field_with_where_clause {W : Type} `{arcpy.Backend W}
    `{gp.Tools W} (table : Table.t) (layer : FeatureLayer.t)
    (field expression expression_type code_block : string)
    (where_clause : option string) (w : W) :
  truthy where_clause = true ->
  FieldMethods.Table_calculate_field table field expression expression_type
    code_block where_clause w
  = (Raises (AttributeError "selectbyattribute"), w, [])
  /\ FieldMethods.FeatureClass_calculate_field table field expression
       expression_type code_block where_clause w
     = (Raises (AttributeError "selectbyattribute"), w, [])
  /\ FieldMethods.FeatureLayer_calculate_field layer field expression
       expression_type code_block where_clause w
     = (Raises (AttributeError "selectbyattribute"), w, [])
  /\ (let r := FieldMethods.Table_calculate_fields table expression_type field
                 code_block where_clause w in
      fst (fst r) = Returns tt
      /\ Trace.calls_of "SelectLayerByAttribute_management" (snd r)
         = [[Table.full_name table; "NEW_SELECTION"; default "" where_clause]]
      /\ Trace.calls_of "CalculateFields_management" (snd r)
         = [[Table.full_name table; expression_type; field; code_block]]).
Proof.
  intros Hwhere.
  split; [| split; [| split]];
    try (apply calculate_field_unknown_method; [reflexivity | exact Hwhere]).
  cbv zeta. unfold FieldMethods.Table_calculate_fields,
    FieldMethods.calculate_fields, pyattr.call_method.
  rewrite Hwhere.
  change (pyattr.has pyattr.Table_names "select_by_attribute") with true.
  cbn iota. repeat split.
Qed.

Lemma X14_calculate_field_with_where_clause_witness :
  FieldMethods.Table_calculate_field
    {| Table.geodatabase_name := "gdb"; Table.table_name := "t";
       Table.full_name := "gdb/t"; Table.temp_table := false |}
    "MinPS" "0" "PYTHON" "" (Some "Category = 1") Workspace.empty
  = (Raises (AttributeError "selectbyattribute"), Workspace.empty, []).
Proof.
  apply (X14_calculate_field_with_where_clause
           {| Table.geodatabase_name := "gdb"; Table.table_name := "t";
              Table.full_name := "gdb/t"; Table.temp_table := false |}
           {| FeatureLayer.base :=
                {| Table.geodatabase_name := ""; Table.table_name := "l";
                   Table.full_name := "l"; Table.temp_table := false |};
              FeatureLayer.layer_name := "l" |}
           "MinPS" "0" "PYTHON" "" (Some "Category = 1") Workspace.empty).
  reflexivity.
Defined.

Section MosaicFieldFacts.
Context {W : Type} `{arcpy.Backend W} `{gp.Tools W}.

Lemma MosaicLayer_calculate_field_where (ml : MosaicLayer.t)
    (field expression expression_type code_block : string)
    (where_clause : option string) (w : W) :
  truthy where_clause = true ->
  FieldMethods.MosaicLayer_calculate_field ml field expression expression_type
    code_block where_clause w
  = (Raises (AttributeError "selectbyattribute"), w, []).
Proof.
  intros Hwhere.
  unfold FieldMethods.MosaicLayer_calculate_field,
    FieldMethods.FeatureLayer_calculate_field.
  apply calculate_field_unknown_method; [reflexivity | exact Hwhere].
Qed.

Lemma MosaicDataset_calculate_field_where (self : MosaicDataset.t)
    (field expression expression_type code_block : string)
    (where_clause : option string) (w : W) :
  truthy where_clause = true ->
  let r := FieldMethods.MosaicDataset_calculate_field self field expression
             expression_type code_block where_clause w in
  (fst (fst r) = Raises (AttributeError "selectbyattribute")
   \/ fst (fst r) = Raises ExecuteError)
  /\ Trace.calls_of "CalculateField_management" (snd r) = [].
Proof.
  intros Hwhere. cbv zeta.
  unfold FieldMethods.MosaicDataset_calculate_field, MosaicDataset.create_layer.
  destruct (MosaicDataset.mosaic_layer self) as [ml|] eqn:Hml.
  - rewrite bind_ret_l. unfold FieldMethods.on_mosaic_layer. rewrite Hml.
    unfold bind. rewrite (MosaicLayer_calculate_field_where _ _ _ _ _ _ _ Hwhere).
    split; [left |]; reflexivity.
  - unfold bind. rewrite MosaicLayer_init_eq. cbv zeta.
    destruct (arcpy.catalog_exists _ _).
    + cbn [ret]. unfold FieldMethods.on_mosaic_layer.
      cbn [MosaicDataset.set_mosaic_layer MosaicDataset.mosaic_layer].
      rewrite (MosaicLayer_calculate_field_where _ _ _ _ _ _ _ Hwhere).
      split; [left |]; reflexivity.
    + split; [right |]; reflexivity.
Qed.

End MosaicFieldFacts.

(** X15: [set_minps] and [set_maxps] with a where clause (their default
    is [Category = 1]) never set anything: the call ends in
    [AttributeError] for [selectbyattribute], or in [ExecuteError] when
    the mosaic layer cannot be opened, and [CalculateField_management] is
    never called.  The same holds for [MosaicDataset.calculate_field]
    with a where clause. *)
Theorem X15_set_ps_never_calculates {W : Type} `{arcpy.Backend W} `{gp.Tools W}
    (self : MosaicDataset.t) (field expression expression_type code_block : string)
    (where_clause : option string) (w : W) :
  truthy where_clause = true ->
  (let r := FieldMethods.set_minps self expression where_clause w in
   (fst (fst r) = Raises (AttributeError "selectbyattribute")
    \/ fst (fst r) = Raises ExecuteError)
   /\ Trace.calls_of "CalculateField_management" (snd r) = [])
  /\ (let r := FieldMethods.set_maxps self expression where_clause w in
      (fst (fst r) = Raises (AttributeError "selectbyattribute")
       \/ fst (fst r) = Raises ExecuteError)
      /\ Trace.calls_of "CalculateField_management" (snd r) = [])
  /\ (let r := FieldMethods.MosaicDataset_calculate_field self field expression
                 expression_type code_block where_clause w in
      (fst (fst r) = Raises (AttributeError "selectbyattribute")
       \/ fst (fst r) = Raises ExecuteError)
      /\ Trace.calls_of "CalculateField_management" (snd r) = []).
Proof.
  intros Hwhere. split; [| split].
  - exact (MosaicDataset_calculate_field_where self "MinPS" expression "PYTHON" ""
             where_clause w Hwhere).
  - exact (MosaicDataset_calculate_field_where self "MaxPS" expression "PYTHON" ""
             where_clause w Hwhere).
  - exact (MosaicDataset_calculate_field_where self field expression
             expression_type code_block where_clause w Hwhere).
Qed.

Lemma X15_set_ps_never_calculates_witness :
  fst (fst (FieldMethods.set_minps Workspace.mosaic "10" (Some "Category = 1")
              (Workspace.building [5; 2; 0])))
  = Raises (AttributeError "selectbyattribute").
Proof.
  destruct (X15_set_ps_never_calculates Workspace.mosaic "MinPS" "10" "PYTHON" ""
              (Some "Category = 1") (Workspace.building [5; 2; 0]) eq_refl)
    as ((Hmin & _) & _).
  destruct Hmin as [Hmin | Hmin]; [exact Hmin |].
  vm_compute in Hmin. discriminate Hmin.
Defined.

(** ** Methods that name what does not exist *)

Section Misnamed.
Context {W : Type} `{arcpy.Backend W} `{gp.Tools W}.

(** A temporary mosaic dataset, in full. *)
Lemma MosaicDataset_init_temporary_eq (locator : string)
    (explicit_name : option string) (w : W) :
  let decoded := decode_names locator explicit_name in
  let container :=
    if String.eqb (fst (fst decoded)) "" then arcpy.scratchGDB w
    else fst (fst decoded) in
  let asked := Call "CreateUniqueName" [snd (fst decoded); container] in
  let names := decode_names (arcpy.unique_name (snd (fst decoded)) container w) None in
  let h := {| MosaicDataset.temp_mosaic := true; MosaicDataset.mosaic_layer := None;
              MosaicDataset.geodatabase_name := fst (fst names);
              MosaicDataset.mosaic_name := snd (fst names);
              MosaicDataset.full_name := snd names |} in
  let p := snd names in
  MosaicDataset.__init__ locator explicit_name true w
  = if arcpy.catalog_exists p w then
      if arcpy.catalog_exists p (arcpy.catalog_delete p w) then
        (Raises ExecuteError, arcpy.catalog_delete p w,
         [asked; Call "Exists" [p]; Call "Delete_management" [p];
          Call "Exists" [p]; AddError ("Mosaic " +:+ p +:+ " cannot be deleted")])
      else
        (Returns h, arcpy.catalog_delete p w,
         [asked; Call "Exists" [p]; Call "Delete_management" [p];
          Call "Exists" [p];
          AddMessage ("Deleted mosaic dataset: [" +:+ p +:+ "] ");
          PrintGetMessages])
    else (Returns h, w, [asked; Call "Exists" [p]]).
Proof.
  cbv zeta. unfold MosaicDataset.__init__, arcpy.env_scratchGDB.
  unfold bind at 1. cbn iota. unfold bind at 1.
  rewrite initialize_names_temporary. cbn [parse_table_name default].
  destruct (decode_names (arcpy.unique_name _ _ w) None) as [[g n] f].
  cbn [fst snd]. unfold bind. rewrite MosaicDataset_delete_at.
  unfold Spec.delete_at. cbn [MosaicDataset.full_name].
  destruct (arcpy.catalog_exists f w);
    [destruct (arcpy.catalog_exists f (arcpy.catalog_delete f w)) |];
    reflexivity.
Qed.

End Misnamed.

(** X16: [create_temp_reference] never hands out the temporary mosaic
    dataset it builds.  After building it (which may itself fail with
    [ExecuteError]) it calls [createreference], a name the class does not
    define ([create_reference] is the method), so it ends in
    [AttributeError] and [CreateReferencedMosaicDataset_management] is
    never called. *)
Theorem X16_create_temp_reference_never_returns {W : Type} `{arcpy.Backend W}
    `{gp.Tools W} (self : MosaicDataset.t) (mosaic_name : option string) (w : W) :
  let r := FieldMethods.create_temp_reference self mosaic_name w in
  (fst (fst r) = Raises (AttributeError "createreference")
   \/ fst (fst r) = Raises ExecuteError)
  /\ Trace.calls_of "CreateReferencedMosaicDataset_management" (snd r) = []
  /\ pyattr.has pyattr.MosaicDataset_names "createreference" = false
  /\ pyattr.has pyattr.MosaicDataset_names "create_reference" = true.
Proof.
  cbv zeta. unfold FieldMethods.create_temp_reference, bind.
  rewrite MosaicDataset_init_temporary_eq. cbv zeta.
  destruct (arcpy.catalog_exists _ w);
    [destruct (arcpy.catalog_exists _ (arcpy.catalog_delete _ w)) |].
  - repeat split. right. reflexivity.
  - repeat split. left. reflexivity.
  - repeat split. left. reflexivity.
Qed.

(** X17: [import_geometry] raises [NameError] for
    [target_featureclass_type] whatever it is given: the name is no
    parameter, no module global and no builtin.  The toolkit is not
    called, nothing is clipped and the store is left as it was. *)
Theorem X17_import_geometry_raises_NameError {W : Type} `{arcpy.Backend W}
    `{gp.Tools W} (self : MosaicDataset.t) (input_featureclass : Table.t)
    (target_join_field : string) (input_join_field : option string)
    (geometry_type : string) (set_clip set_boundary : bool) (w : W) :
  GeometryMethods.import_geometry self input_featureclass target_join_field
    input_join_field geometry_type set_clip set_boundary w
  = (Raises (NameError "target_featureclass_type"), w, []).
Proof. reflexivity. Qed.

(** X18: [test_field_exists] answers [True] exactly when the table has a
    field of that name.  It lists the fields once, changes nothing in the
    store, and an empty field list answers [False]. *)
Theorem X18_test_field_exists {W : Type} `{arcpy.Backend W} `{gp.Tools W}
    (self : Table.t) (field_name : string) (w : W) :
  exists found,
    FieldMethods.test_field_exists self field_name w
    = (Returns found, w,
       [Call "ListFields" [Table.full_name self];
        AddMessage ("Listed fields of " +:+ Table.full_name self);
        PrintGetMessages])
    /\ (found = true <-> In field_name (gp.list_fields (Table.full_name self) w))
    /\ (gp.list_fields (Table.full_name self) w = [] -> found = false).
Proof.
  exists (FieldMethods.first_named field_name
            (gp.list_fields (Table.full_name self) w)).
  split; [reflexivity |].
  generalize (gp.list_fields (Table.full_name self) w) as fields.
  intros fields. split.
  - induction fields as [|f rest IH]; cbn [FieldMethods.first_named In].
    + split; [discriminate | tauto].
    + destruct (String.eqb f field_name) eqn:E.
      * apply String.eqb_eq in E. split; auto.
      * apply String.eqb_neq in E. rewrite IH. split; [auto |].
        intros [Heq | Hin]; [contradiction | exact Hin].
  - intros ->. reflexivity.
Qed.

(** ** Temporary tables in a [with] block *)

Section WithBlock.
Context {W : Type} `{arcpy.Backend W}.

Lemma with_enter_raises {A B : Type} (ctx : Py W A) (exit_ : A -> Py W unit)
    (body : A -> Py W B) (w w0 : W) (e : exn) (t0 : list event) :
  ctx w = (Raises e, w0, t0) ->
  with_ ctx exit_ body w = (Raises e, w0, t0).
Proof. intros Hctx. unfold with_, bind. now rewrite Hctx. Qed.

(** A temporary table or feature class, in full. *)
Lemma Table_init_temporary_eq (locator : string) (explicit_name : option string)
    (w : W) :
  let decoded := decode_names locator explicit_name in
  let container :=
    if String.eqb (fst (fst decoded)) "" then arcpy.scratchGDB w
    else fst (fst decoded) in
  let sanitized := parse_table_name (snd (fst decoded)) (Some Table.replace_list) in
  let asked := Call "CreateUniqueName" [sanitized; container] in
  let names := decode_names (arcpy.unique_name sanitized container w) None in
  let h := {| Table.geodatabase_name := fst (fst names);
              Table.table_name := snd (fst names);
              Table.full_name := snd names; Table.temp_table := true |} in
  let p := snd names in
  Table.__init__ locator explicit_name true w
  = if arcpy.catalog_exists p w then
      if arcpy.catalog_exists p (arcpy.catalog_delete p w) then
        (Raises ExecuteError, arcpy.catalog_delete p w,
         [asked; Call "Exists" [p]; Call "Delete_management" [p];
          Call "Exists" [p]; AddError (p +:+ " cannot be deleted")])
      else
        (Returns h, arcpy.catalog_delete p w,
         [asked; Call "Exists" [p]; Call "Delete_management" [p];
          Call "Exists" [p]; AddMessage ("Deleted: [" +:+ p +:+ "] ");
          PrintGetMessages])
    else (Returns h, w, [asked; Call "Exists" [p]]).
Proof.
  cbv zeta. unfold Table.__init__, arcpy.env_scratchGDB.
  unfold bind at 1. cbn iota. unfold bind at 1.
  rewrite initialize_names_temporary. cbn [default].
  destruct (decode_names (arcpy.unique_name _ _ w) None) as [[g n] f].
  cbn [fst snd]. unfold bind. rewrite Table_delete_at.
  unfold Spec.delete_at. cbn [Table.full_name].
  destruct (arcpy.catalog_exists f w);
    [destruct (arcpy.catalog_exists f (arcpy.catalog_delete f w)) |];
    reflexivity.
Qed.

End WithBlock.

(** X19: a temporary feature class used in a [with] block, as
    [delete_bad_overviews] uses one, is cleaned up however the block ends.
    If the constructor hands out a handle, the block's own result or
    exception is what the statement gives back, [delete()] runs on the
    store the block left, and the table is gone afterwards whenever the
    store honours the deletion.  If the constructor raises, the statement
    raises the same exception and the block is not run at all: the store
    and the trace are the constructor's. *)
Theorem X19_with_TempFeatureClass_cleans_up {W : Type} `{arcpy.Backend W}
    {B : Type} (table_name : option string) (body : Table.t -> Py W B)
    (w : W) :
  (forall (h : Table.t) (w0 w1 : W) (t0 t1 : list event) (r : outcome B),
     TempFeatureClass.__init__ table_name w = (Returns h, w0, t0) ->
     body h w0 = (r, w1, t1) ->
     with_ (TempFeatureClass.__init__ table_name) TempFeatureClass.__exit__
       body w
     = (r, snd (fst (Table.delete h w1)),
        (t0 ++ t1 ++ snd (Table.delete h w1))%list)
     /\ (arcpy.catalog_exists (Table.full_name h)
           (arcpy.catalog_delete (Table.full_name h) w1) = false ->
         arcpy.catalog_exists (Table.full_name h)
           (snd (fst (Table.delete h w1))) = false))
  /\ (forall (e : exn) (w0 : W) (t0 : list event),
        TempFeatureClass.__init__ table_name w = (Raises e, w0, t0) ->
        with_ (TempFeatureClass.__init__ table_name) TempFeatureClass.__exit__
          body w = (Raises e, w0, t0)).
Proof.
  split.
  - intros h w0 w1 t0 t1 r Hinit Hbody.
    assert (Htemp : Table.temp_table h = true).
    { unfold TempFeatureClass.__init__, FeatureClass.__init__ in Hinit.
      rewrite Table_init_temporary_eq in Hinit. cbv zeta in Hinit.
      destruct (arcpy.catalog_exists _ w);
        [destruct (arcpy.catalog_exists _ (arcpy.catalog_delete _ w)) |];
        try discriminate; injection Hinit as <- _ _; reflexivity. }
    split.
    + unfold with_. unfold bind at 1. rewrite Hinit, Hbody.
      unfold TempFeatureClass.__exit__, FeatureClass.__exit__, FeatureClass.delete.
      rewrite Htemp. unfold bind, ret.
      destruct (delete_at_returns (Table.full_name h)
                  (Table.full_name h +:+ " cannot be deleted")
                  ("Deleted: [" +:+ Table.full_name h +:+ "] ") w1) as [b Hb].
      rewrite <- Table_delete_at in Hb.
      destruct (Table.delete h w1) as [[rd wd] td]. cbn [fst snd] in *. subst rd.
      rewrite app_nil_r.
      destruct r; reflexivity.
    + intros Hgone. rewrite Table_delete_at. now apply delete_at_honoured.
  - intros e w0 t0 Hraise. now apply with_enter_raises.
Qed.

(** On an empty store the export's table is gone after the block; on a
    store that will not clear the slot the constructor raises, and the
    export is never asked for. *)
Lemma X19_with_TempFeatureClass_cleans_up_witness :
  arcpy.catalog_exists "scratch.gdb/BadOverviews"
    (snd (fst (with_ (TempFeatureClass.__init__ (Some "BadOverviews"))
                 TempFeatureClass.__exit__
                 (fun tmp => arcpy.ExportMosaicDatasetPaths_management "gdb/mosaic"
                               (Table.full_name tmp) "Category > 2" "ALL" "RASTER")
                 Workspace.empty)))
  = false
  /\ with_ (TempFeatureClass.__init__ (Some "BadOverviews"))
       TempFeatureClass.__exit__
       (fun tmp => arcpy.ExportMosaicDatasetPaths_management "gdb/mosaic"
                     (Table.full_name tmp) "Category > 2" "ALL" "RASTER")
       (Workspace.stuck "scratch.gdb/BadOverviews")
     = (Raises ExecuteError, Workspace.stuck "scratch.gdb/BadOverviews",
        [Call "CreateUniqueName" ["BadOverviews"; "scratch.gdb"];
         Call "Exists" ["scratch.gdb/BadOverviews"];
         Call "Delete_management" ["scratch.gdb/BadOverviews"];
         Call "Exists" ["scratch.gdb/BadOverviews"];
         AddError "scratch.gdb/BadOverviews cannot be deleted"]).
Proof.
  split.
  - destruct (X19_with_TempFeatureClass_cleans_up (Some "BadOverviews")
                (fun tmp => arcpy.ExportMosaicDatasetPaths_management "gdb/mosaic"
                              (Table.full_name tmp) "Category > 2" "ALL" "RASTER")
                Workspace.empty) as [Hreturns _].
    destruct (Hreturns
                {| Table.geodatabase_name := "scratch.gdb";
                   Table.table_name := "BadOverviews";
                   Table.full_name := "scratch.gdb/BadOverviews";
                   Table.temp_table := true |}
                Workspace.empty
                (Workspace.holding "scratch.gdb/BadOverviews")
                [Call "CreateUniqueName" ["BadOverviews"; "scratch.gdb"];
                 Call "Exists" ["scratch.gdb/BadOverviews"]]
                [Call "ExportMosaicDatasetPaths_management"
                   ["gdb/mosaic"; "scratch.gdb/BadOverviews"; "Category > 2";
                    "ALL"; "RASTER"]]
                (Returns tt))
      as (Hrun & Hgone).
    + vm_compute. reflexivity.
    + vm_compute. reflexivity.
    + rewrite Hrun. cbn [fst snd]. apply Hgone. vm_compute. reflexivity.
  - destruct (X19_with_TempFeatureClass_cleans_up (Some "BadOverviews")
                (fun tmp => arcpy.ExportMosaicDatasetPaths_management "gdb/mosaic"
                              (Table.full_name tmp) "Category > 2" "ALL" "RASTER")
                (Workspace.stuck "scratch.gdb/BadOverviews")) as [_ Hraises].
    apply Hraises. vm_compute. reflexivity.
Defined.

(** X20: [delete_bad_overviews] gives up before touching anything when
    the slot for its temporary table cannot be cleared.  If something
    exists at the path the uniqueness service gives for [BadOverviews] in
    the scratch geodatabase and the store does not delete it, the method
    raises [ExecuteError] after that one deletion attempt: no paths are
    exported and no overview is asked about or deleted. *)
Theorem X20_delete_bad_overviews_refused_slot {W : Type} `{arcpy.Backend W}
    (self : MosaicDataset.t) (w : W) :
  let p := snd (decode_names
                  (arcpy.unique_name "BadOverviews" (arcpy.scratchGDB w) w) None) in
  arcpy.catalog_exists p w = true ->
  arcpy.catalog_exists p (arcpy.catalog_delete p w) = true ->
  MosaicDataset.delete_bad_overviews self w
  = (Raises ExecuteError, arcpy.catalog_delete p w,
     [Call "CreateUniqueName" ["BadOverviews"; arcpy.scratchGDB w];
      Call "Exists" [p]; Call "Delete_management" [p]; Call "Exists" [p];
      AddError (p +:+ " cannot be deleted")]).
Proof.
  cbv zeta. intros Hthere Hstuck.
  unfold MosaicDataset.delete_bad_overviews.
  apply with_enter_raises.
  unfold TempFeatureClass.__init__, FeatureClass.__init__.
  rewrite Table_init_temporary_eq. cbv zeta.
  change (decode_names (default "TempFeatureClass" (Some "BadOverviews")) None)
    with ("", "BadOverviews", "BadOverviews").
  cbn [fst snd String.eqb].
  change (parse_table_name "BadOverviews" (Some Table.replace_list))
    with "BadOverviews".
  now rewrite Hthere, Hstuck.
Qed.

Lemma X20_delete_bad_overviews_refused_slot_witness :
  fst (fst (MosaicDataset.delete_bad_overviews Workspace.mosaic
              (Workspace.stuck "scratch.gdb/BadOverviews")))
  = Raises ExecuteError.
Proof.
  rewrite (X20_delete_bad_overviews_refused_slot Workspace.mosaic
             (Workspace.stuck "scratch.gdb/BadOverviews"));
    vm_compute; reflexivity.
Defined.
